(** * Identity verification service: orchestration, document rules, face decisions

    A shallow embedding of the decision logic of the service:

    - [DocumentVerificationService] (document-verification.service.ts):
      field parsing, confidence score, required fields, validation rules;
    - [FaceVerificationService] (face-verification.service.ts): quality and
      pose checks, liveness score, face match;
    - [VerificationService] (verification.service.ts): the orchestrator that
      owns the record and its status.

    Modelling conventions.

    - A JavaScript [number] is an IEEE 754 binary64 value: [float] of
      [PrimFloat], with the same rounding as the source.  [undefined]/[null]
      is [None].
    - A counter that the source increments with [++] is a [nat]; it becomes
      a number again through [js_count], which performs the same sequence of
      [+ 1] additions.
    - A string is its sequence of UTF-16 code units, each below 256 and
      written as one 8-bit character, so that [String.length] is the
      [length] of the source.  On these [toLowerCase] changes the letters
      A-Z and the capitals at 192-214 and 216-222, each to the unit 32
      above it.
    - An exception is a class and a message; a computation that may throw
      returns an [Outcome].
    - The external analyzers, the date parser and the clock are fields of an
      environment [Env].  The repository is a finite map from id to record;
      [save] always succeeds and a new record receives an id that is not in
      use.  The columns [createdAt] and [updatedAt], which only the
      repository layer writes, are left out. *)

From Stdlib Require Import PrimFloat ZArith Ascii String List Bool.
From Corelib Require FloatAxioms SpecFloat FloatOps.
From stdpp Require Import gmap strings list fin_maps option.

Import ListNotations.
Local Open Scope string_scope.

(* Decimal literals are rounded to the nearest binary64 value, as the
   JavaScript parser does. *)
Set Warnings "-inexact-float".

(** ** JavaScript values *)

Module JS.

(** Truthiness of a number: [0], [-0] and [NaN] are falsy. *)
Definition truthy (x : float) : bool :=
  negb (PrimFloat.eqb x 0%float) && negb (PrimFloat.is_nan x).

(** Truthiness of an optional number ([undefined] is falsy). *)
Definition truthy_num (o : option float) : bool :=
  match o with
  | Some x => truthy x
  | None => false
  end.

(** [o || 0] on an optional number. *)
Definition or_zero (o : option float) : float :=
  match o with
  | Some x => if truthy x then x else 0%float
  | None => 0%float
  end.

(** Truthiness of a string: only the empty string is falsy. *)
Definition truthy_str (s : string) : bool :=
  match s with
  | EmptyString => false
  | String _ _ => true
  end.

Definition truthy_ostr (o : option string) : bool :=
  match o with
  | Some s => truthy_str s
  | None => false
  end.

(** The value of a counter that started at [0] and was incremented [n]
    times. *)
Fixpoint js_count (n : nat) : float :=
  match n with
  | O => 0%float
  | S k => (js_count k + 1)%float
  end.

(** [x >= y] and [x <= y] on numbers (false as soon as one is [NaN]). *)
Definition ge (x y : float) : bool := PrimFloat.leb y x.
Definition le (x y : float) : bool := PrimFloat.leb x y.

(** [String.prototype.toLowerCase] on one code unit below 256: the
    letters A-Z (65-90) and the capitals 192-214 and 216-222 have their
    lower case 32 above them; 215 (the multiplication sign) and every other
    unit stay. *)
Definition lower_ascii (c : ascii) : ascii :=
  let n := nat_of_ascii c in
  if (Nat.leb 65 n && Nat.leb n 90)
     || (Nat.leb 192 n && Nat.leb n 214)
     || (Nat.leb 216 n && Nat.leb n 222)
  then ascii_of_nat (n + 32) else c.

Fixpoint toLowerCase (s : string) : string :=
  match s with
  | EmptyString => EmptyString
  | String c r => String (lower_ascii c) (toLowerCase r)
  end.

(** [Array.prototype.join]. *)
Definition join (sep : string) (l : list string) : string :=
  String.concat sep l.

(** A template literal that interpolates an optional string. *)
Definition interpolate (o : option string) : string :=
  match o with
  | Some s => s
  | None => "undefined"
  end.

End JS.

(** ** Exceptions and outcomes *)

Inductive ExceptionClass : Type :=
| BadRequestException   (* @nestjs/common, HTTP 400 *)
| Error.                (* any other thrown error, e.g. from an AWS client *)

Record Exception : Type := mkException {
  exn_class : ExceptionClass;
  message : string
}.

(** [new BadRequestException(msg)]: with an empty message the class
    reports its default one, "Bad Request". *)
Definition newBadRequestException (msg : string) : Exception :=
  mkException BadRequestException
    (if JS.truthy_str msg then msg else "Bad Request").

Inductive Outcome (A : Type) : Type :=
| Return (a : A)
| Throw (e : Exception).
Arguments Return {A} a.
Arguments Throw {A} e.

(** [try { body } catch (error) { throw new BadRequestException(error.message) }],
    the outermost handler of every method of the two step services. *)
Definition rewrap {A : Type} (body : Outcome A) : Outcome A :=
  match body with
  | Return a => Return a
  | Throw e => Throw (newBadRequestException (message e))
  end.

Definition Buffer : Type := string.

(** ** Entities (verification.entity.ts) *)

Inductive VerificationStatus : Type :=
| PENDING
| IN_PROGRESS
| COMPLETED
| FAILED.

(** The enum is string valued and both services keep a [default] branch, so
    a document type is the string received at run time. *)
Definition DocumentType : Type := string.
Definition PASSPORT : DocumentType := "passport".
Definition DRIVERS_LICENSE : DocumentType := "drivers_license".
Definition ID_CARD : DocumentType := "id_card".

(** One entry of [extractedData]. *)
Record ExtractedField : Type := mkExtractedField {
  value : string;
  confidence : option float
}.

(** ** Analyzer responses *)

(** Textract AnalyzeID. *)
Record FieldType : Type := mkFieldType { ft_Text : option string }.

Record ValueDetection : Type := mkValueDetection {
  vd_Text : option string;
  vd_Confidence : option float
}.

Record IdentityDocumentField : Type := mkField {
  f_Type : option FieldType;
  f_ValueDetection : option ValueDetection
}.

Record IdentityDocument : Type := mkIdentityDocument {
  IdentityDocumentFields : option (list IdentityDocumentField)
}.

Record AnalyzeIDResponse : Type := mkAnalyzeIDResponse {
  IdentityDocuments : option (list IdentityDocument)
}.

(** Rekognition DetectFaces and CompareFaces. *)
Record BoolAttribute : Type := mkBoolAttribute {
  a_Value : option bool;
  a_Confidence : option float
}.

Record ImageQuality : Type := mkImageQuality {
  Brightness : option float;
  Sharpness : option float
}.

Record Pose : Type := mkPose {
  Pitch : option float;
  Roll : option float;
  Yaw : option float
}.

Record BoundingBox : Type := mkBoundingBox {
  bb_Width : option float;
  bb_Height : option float;
  bb_Left : option float;
  bb_Top : option float
}.

Record Landmark : Type := mkLandmark {
  lm_Type : option string;
  lm_X : option float;
  lm_Y : option float
}.

Record Emotion : Type := mkEmotion {
  em_Type : option string;
  em_Confidence : option float
}.

Record FaceDetail : Type := mkFaceDetail {
  EyesOpen : option BoolAttribute;
  MouthOpen : option BoolAttribute;
  Eyeglasses : option BoolAttribute;
  Sunglasses : option BoolAttribute;
  Beard : option BoolAttribute;
  Emotions : option (list Emotion);
  Quality : option ImageQuality;
  fd_Pose : option Pose
}.

Record DetectFacesResponse : Type := mkDetectFacesResponse {
  FaceDetails : option (list FaceDetail)
}.

Record ComparedFace : Type := mkComparedFace {
  cf_BoundingBox : option BoundingBox;
  cf_Confidence : option float;
  cf_Landmarks : option (list Landmark);
  cf_Quality : option ImageQuality;
  cf_Pose : option Pose
}.

Record CompareFacesMatch : Type := mkCompareFacesMatch {
  Similarity : option float;
  Face : option ComparedFace
}.

Record CompareFacesResponse : Type := mkCompareFacesResponse {
  FaceMatches : option (list CompareFacesMatch);
  UnmatchedFaces : option (list ComparedFace)
}.

Inductive Attribute : Type := ALL | QUALITY | POSE.

(** Everything outside the service. *)
Record Env : Type := mkEnv {
  (** [new Date(s).valueOf()]: milliseconds, [None] for an invalid date *)
  Date_parse : string -> option Z;
  (** [new Date().valueOf()] *)
  Date_now : Z;
  (** [textractClient.send(new AnalyzeIDCommand(..))] *)
  textract_analyzeID : Buffer -> Outcome AnalyzeIDResponse;
  (** [rekognitionClient.send(new DetectFacesCommand(..))] *)
  rekognition_detectFaces : Buffer -> list Attribute -> Outcome DetectFacesResponse;
  (** [rekognitionClient.send(new CompareFacesCommand(..))]: source image,
      target image, similarity threshold *)
  rekognition_compareFaces : Buffer -> Buffer -> float -> Outcome CompareFacesResponse
}.

(** ** DocumentVerificationService *)

Module DocumentVerificationService.

Record ValidationResult : Type := mkValidationResult {
  isValid : bool;
  reason : option string
}.

Record DocumentResult : Type := mkDocumentResult {
  dr_isValid : bool;
  extractedData : gmap string ExtractedField;
  confidenceScore : float
}.

(** [field.Type?.Text] and [field.ValueDetection?.Text]. *)
Definition field_name (f : IdentityDocumentField) : option string :=
  match f_Type f with
  | Some t => ft_Text t
  | None => None
  end.

Definition field_text (f : IdentityDocumentField) : option string :=
  match f_ValueDetection f with
  | Some v => vd_Text v
  | None => None
  end.

(** [field.ValueDetection?.Confidence] (in [parseDocumentFields] the
    access is unguarded, but only runs when [ValueDetection] exists). *)
Definition field_confidence (f : IdentityDocumentField) : option float :=
  match f_ValueDetection f with
  | Some v => vd_Confidence v
  | None => None
  end.

(** The body of the [forEach] of [parseDocumentFields].  The object
    [fields] is the map of its own properties, from keys to entries; a
    later field with the same name replaces an earlier one.  An assignment
    to the key [__proto__] stores no property: it sets the prototype of
    [fields], which none of the keys read by the validation reaches. *)
Definition parse_step (fields : gmap string ExtractedField)
    (f : IdentityDocumentField) : gmap string ExtractedField :=
  match field_name f, field_text f with
  | Some n, Some t =>
      if JS.truthy_str n && JS.truthy_str t
      then
        if String.eqb (JS.toLowerCase n) "__proto__" then fields
        else <[JS.toLowerCase n := mkExtractedField t (field_confidence f)]> fields
      else fields
  | _, _ => fields
  end.

Definition parseDocumentFields (document : IdentityDocument)
    : gmap string ExtractedField :=
  match IdentityDocumentFields document with
  | Some fs => fold_left parse_step fs ∅
  | None => ∅
  end.

(** The body of the [forEach] of [calculateConfidenceScore]; the state is
    [(totalConfidence, fieldCount)]. *)
Definition confidence_step (acc : float * nat) (f : IdentityDocumentField)
    : float * nat :=
  match field_confidence f with
  | Some c =>
      if JS.truthy c then ((fst acc + c)%float, S (snd acc)) else acc
  | None => acc
  end.

Definition calculateConfidenceScore (document : IdentityDocument) : float :=
  let '(totalConfidence, fieldCount) :=
    match IdentityDocumentFields document with
    | Some fs => fold_left confidence_step fs (0%float, O)
    | None => (0%float, O)
    end in
  if Nat.ltb 0 fieldCount
  then (totalConfidence / JS.js_count fieldCount)%float
  else 0%float.

Definition commonFields : list string :=
  ["FIRST_NAME"; "LAST_NAME"; "DATE_OF_BIRTH"].

Definition getRequiredFields (documentType : DocumentType) : list string :=
  if String.eqb documentType PASSPORT then
    commonFields ++ ["PASSPORT_NUMBER"; "EXPIRATION_DATE"; "NATIONALITY"]
  else if String.eqb documentType DRIVERS_LICENSE then
    commonFields ++ ["LICENSE_NUMBER"; "EXPIRATION_DATE"; "STATE"]
  else if String.eqb documentType ID_CARD then
    commonFields ++ ["ID_NUMBER"; "EXPIRATION_DATE"]
  else commonFields.

(** [data[key]?.value], with its truthiness: a usable value is a
    non-empty string. *)
Definition lookup_value (data : gmap string ExtractedField) (key : string)
    : option string :=
  match data !! key with
  | Some e => if JS.truthy_str (value e) then Some (value e) else None
  | None => None
  end.

(** The character class [[A-Z0-9]]. *)
Definition upper_or_digit (c : ascii) : bool :=
  let n := nat_of_ascii c in
  (Nat.leb 65 n && Nat.leb n 90) || (Nat.leb 48 n && Nat.leb n 57).

(** Greedy matching of [cls{0,max}]: the number of characters consumed
    and the rest of the input. *)
Fixpoint match_class_upto (cls : ascii -> bool) (max : nat) (s : string)
    : nat * string :=
  match max, s with
  | S m, String c r =>
      if cls c
      then let '(k, rest) := match_class_upto cls m r in (S k, rest)
      else (O, s)
  | _, _ => (O, s)
  end.

(** [/^cls{min,max}$/.test(s)]: the greedy match must reach [min] and
    stop at the end of the input.  Giving back characters never helps,
    since [$] needs the end of the input. *)
Definition test_anchored_class (cls : ascii -> bool) (min max : nat)
    (s : string) : bool :=
  let '(k, rest) := match_class_upto cls max s in
  Nat.leb min k && negb (JS.truthy_str rest).

(** [/^[A-Z0-9]{6,9}$/.test(s)] *)
Definition passport_regex_test (s : string) : bool :=
  test_anchored_class upper_or_digit 6 9 s.

Definition validatePassport (data : gmap string ExtractedField)
    : ValidationResult :=
  match lookup_value data "passport_number" with
  | Some passportNumber =>
      if passport_regex_test passportNumber
      then mkValidationResult true None
      else mkValidationResult false (Some "Invalid passport number format")
  | None => mkValidationResult false (Some "Invalid passport number format")
  end.

Definition validateDriversLicense (data : gmap string ExtractedField)
    : ValidationResult :=
  match lookup_value data "license_number" with
  | Some licenseNumber =>
      if Nat.ltb (String.length licenseNumber) 5
      then mkValidationResult false (Some "Invalid license number format")
      else mkValidationResult true None
  | None => mkValidationResult false (Some "Invalid license number format")
  end.

Definition validateIdCard (data : gmap string ExtractedField)
    : ValidationResult :=
  match lookup_value data "id_number" with
  | Some idNumber =>
      if Nat.ltb (String.length idNumber) 5
      then mkValidationResult false (Some "Invalid ID number format")
      else mkValidationResult true None
  | None => mkValidationResult false (Some "Invalid ID number format")
  end.

(** [missingFields]: the required names whose entry has no usable value. *)
Definition missingFields (documentType : DocumentType)
    (data : gmap string ExtractedField) : list string :=
  List.filter
    (fun field =>
       match lookup_value data (JS.toLowerCase field) with
       | Some _ => false
       | None => true
       end)
    (getRequiredFields documentType).

(** [expirationDate < new Date()]: both sides become numbers; an invalid
    date is [NaN] and compares false. *)
Definition isExpired (env : Env) (data : gmap string ExtractedField) : bool :=
  match lookup_value data "expiration_date" with
  | Some v =>
      match Date_parse env v with
      | Some t => Z.ltb t (Date_now env)
      | None => false
      end
  | None => false
  end.

Definition validateByType (documentType : DocumentType)
    (data : gmap string ExtractedField) : ValidationResult :=
  if String.eqb documentType PASSPORT then validatePassport data
  else if String.eqb documentType DRIVERS_LICENSE then validateDriversLicense data
  else if String.eqb documentType ID_CARD then validateIdCard data
  else mkValidationResult true None.

(** The [catch] of the source is not reachable: no operation of the body
    throws on a string-keyed map of entries. *)
Definition validateDocumentAuthenticity (env : Env)
    (documentType : DocumentType) (data : gmap string ExtractedField)
    : ValidationResult :=
  let missing := missingFields documentType data in
  match missing with
  | _ :: _ =>
      mkValidationResult false
        (Some ("Missing required fields: " ++ JS.join ", " missing))
  | [] =>
      if isExpired env data
      then mkValidationResult false (Some "Document has expired")
      else validateByType documentType data
  end.

(** [new BadRequestException(reason)]; without a message the class
    reports its default one. *)
Definition badRequestOfReason (r : option string) : Exception :=
  newBadRequestException (default "Bad Request" r).

Definition verifyDocument (env : Env) (documentType : DocumentType)
    (documentBuffer : Buffer) : Outcome DocumentResult :=
  rewrap
    match textract_analyzeID env documentBuffer with
    | Throw e => Throw e
    | Return response =>
        match IdentityDocuments response with
        | Some (document :: _) =>
            let fields := parseDocumentFields document in
            let validationResult :=
              validateDocumentAuthenticity env documentType fields in
            if isValid validationResult
            then Return (mkDocumentResult true fields
                           (calculateConfidenceScore document))
            else Throw (badRequestOfReason (reason validationResult))
        | _ => Throw (newBadRequestException "Failed to analyze document")
        end
    end.

End DocumentVerificationService.


(** ** FaceVerificationService *)

Module FaceVerificationService.

Definition SIMILARITY_THRESHOLD : float := 90.0%float.
Definition QUALITY_THRESHOLD : float := 80.0%float.

Record QualityResult : Type := mkQualityResult {
  isValid : bool;
  reason : option string
}.

(** The [details] of a face match: either the no-match report or the data
    of the match that was used. *)
Inductive MatchDetails : Type :=
| NoMatchDetails (reason : string) (unmatched : nat)
| BestMatchDetails (boundingBox : option BoundingBox)
    (landmarks : option (list Landmark))
    (quality : option ImageQuality) (pose : option Pose).

Record FaceMatchResult : Type := mkFaceMatchResult {
  isMatch : bool;
  fm_confidence : float;
  fm_details : MatchDetails
}.

Record LivenessDetails : Type := mkLivenessDetails {
  ld_eyesOpen : option BoolAttribute;
  ld_mouthOpen : option BoolAttribute;
  ld_eyeglasses : option BoolAttribute;
  ld_sunglasses : option BoolAttribute;
  ld_beard : option BoolAttribute;
  ld_emotions : option (list Emotion);
  ld_quality : option ImageQuality;
  ld_pose : option Pose
}.

Record LivenessResult : Type := mkLivenessResult {
  isLive : bool;
  lr_confidence : float;
  lr_details : LivenessDetails
}.

Definition isQualityAcceptable (faceDetails : FaceDetail) : bool :=
  match Quality faceDetails with
  | None => false
  | Some quality =>
      let minBrightness := 50%float in
      let minSharpness := 50%float in
      JS.ge (JS.or_zero (Brightness quality)) minBrightness
      && JS.ge (JS.or_zero (Sharpness quality)) minSharpness
  end.

Definition isPoseAcceptable (faceDetails : FaceDetail) : bool :=
  match fd_Pose faceDetails with
  | None => false
  | Some pose =>
      let maxAngle := 20%float in
      JS.le (PrimFloat.abs (JS.or_zero (Pitch pose))) maxAngle
      && JS.le (PrimFloat.abs (JS.or_zero (Roll pose))) maxAngle
      && JS.le (PrimFloat.abs (JS.or_zero (Yaw pose))) maxAngle
  end.

(** [if (cond) { score += x; factors++ }] on the state [(score, factors)]. *)
Definition add_factor (cond : bool) (x : float) (acc : float * nat)
    : float * nat :=
  if cond then ((fst acc + x)%float, S (snd acc)) else acc.

(** [if (o) { score += o; factors++ }] for an optional number [o]. *)
Definition add_number (o : option float) (acc : float * nat) : float * nat :=
  match o with
  | Some x => add_factor (JS.truthy x) x acc
  | None => acc
  end.

(** [faceDetails.EyesOpen?.Confidence] and the like. *)
Definition attr_confidence (a : option BoolAttribute) : option float :=
  match a with
  | Some b => a_Confidence b
  | None => None
  end.

Definition quality_brightness (faceDetails : FaceDetail) : option float :=
  match Quality faceDetails with
  | Some q => Brightness q
  | None => None
  end.

Definition quality_sharpness (faceDetails : FaceDetail) : option float :=
  match Quality faceDetails with
  | Some q => Sharpness q
  | None => None
  end.

(** [faceDetails.Sunglasses?.Value === false] *)
Definition sunglasses_absent (faceDetails : FaceDetail) : bool :=
  match Sunglasses faceDetails with
  | Some a =>
      match a_Value a with
      | Some false => true
      | _ => false
      end
  | None => false
  end.

Definition calculateLivenessScore (faceDetails : FaceDetail) : float :=
  let acc := (0%float, O) in
  let acc := add_number (attr_confidence (EyesOpen faceDetails)) acc in
  let acc := add_number (quality_brightness faceDetails) acc in
  let acc := add_number (quality_sharpness faceDetails) acc in
  let acc := add_factor (isPoseAcceptable faceDetails) 100%float acc in
  let acc := add_factor (sunglasses_absent faceDetails) 100%float acc in
  let '(score, factors) := acc in
  if Nat.ltb 0 factors then (score / JS.js_count factors)%float else 0%float.

(** [detectFaceQuality] never throws: its [catch] turns an analyzer error
    into an invalid result. *)
Definition detectFaceQuality (env : Env) (imageBuffer : Buffer)
    : QualityResult :=
  match rekognition_detectFaces env imageBuffer [QUALITY; POSE] with
  | Throw e => mkQualityResult false (Some (message e))
  | Return response =>
      match FaceDetails response with
      | None | Some [] =>
          mkQualityResult false (Some "No face detected in the image")
      | Some (_ :: _ :: _) =>
          mkQualityResult false (Some "Multiple faces detected in the image")
      | Some [faceDetails] =>
          if negb (isQualityAcceptable faceDetails)
          then mkQualityResult false (Some "Image quality is too low")
          else if negb (isPoseAcceptable faceDetails)
          then mkQualityResult false (Some "Face pose is not acceptable")
          else mkQualityResult true None
      end
  end.

(** The result built from the response of the comparison. *)
Definition matchResult (comparison : CompareFacesResponse) : FaceMatchResult :=
  match FaceMatches comparison with
  | None | Some [] =>
      mkFaceMatchResult false 0%float
        (NoMatchDetails "No matching faces found"
           (match UnmatchedFaces comparison with
            | Some u => List.length u
            | None => O
            end))
  | Some (bestMatch :: _) =>
      let confidence := JS.or_zero (Similarity bestMatch) in
      mkFaceMatchResult (JS.ge confidence SIMILARITY_THRESHOLD) confidence
        (BestMatchDetails
           (match Face bestMatch with Some f => cf_BoundingBox f | None => None end)
           (match Face bestMatch with Some f => cf_Landmarks f | None => None end)
           (match Face bestMatch with Some f => cf_Quality f | None => None end)
           (match Face bestMatch with Some f => cf_Pose f | None => None end))
  end.

(** Both quality checks are started before either result is inspected
    ([Promise.all]); neither of them can reject. *)
Definition verifyFaceMatch (env : Env) (documentFaceBuffer selfieFaceBuffer : Buffer)
    : Outcome FaceMatchResult :=
  rewrap
    (let documentFaceQuality := detectFaceQuality env documentFaceBuffer in
     let selfieFaceQuality := detectFaceQuality env selfieFaceBuffer in
     if negb (isValid documentFaceQuality) then
       Throw (newBadRequestException
                ("Document face image issue: "
                 ++ JS.interpolate (reason documentFaceQuality)))
     else if negb (isValid selfieFaceQuality) then
       Throw (newBadRequestException
                ("Selfie image issue: "
                 ++ JS.interpolate (reason selfieFaceQuality)))
     else
       match rekognition_compareFaces env documentFaceBuffer selfieFaceBuffer
               SIMILARITY_THRESHOLD with
       | Throw e => Throw e
       | Return comparison => Return (matchResult comparison)
       end).

Definition livenessDetails (faceDetails : FaceDetail) : LivenessDetails :=
  mkLivenessDetails (EyesOpen faceDetails) (MouthOpen faceDetails)
    (Eyeglasses faceDetails) (Sunglasses faceDetails) (Beard faceDetails)
    (Emotions faceDetails) (Quality faceDetails) (fd_Pose faceDetails).

Definition detectLiveness (env : Env) (selfieBuffer : Buffer)
    : Outcome LivenessResult :=
  rewrap
    match rekognition_detectFaces env selfieBuffer [ALL] with
    | Throw e => Throw e
    | Return response =>
        match FaceDetails response with
        | None | Some [] =>
            Throw (newBadRequestException "No face detected in the image")
        | Some (_ :: _ :: _) =>
            Throw (newBadRequestException "Multiple faces detected in the image")
        | Some [faceDetails] =>
            let livenessScore := calculateLivenessScore faceDetails in
            Return (mkLivenessResult
                      (JS.ge livenessScore QUALITY_THRESHOLD)
                      livenessScore
                      (livenessDetails faceDetails))
        end
    end.

End FaceVerificationService.


(** ** The record and the repository *)

Module Verification.

Record t : Type := mk {
  id : string;
  userId : string;
  documentType : DocumentType;
  documentData : option (gmap string ExtractedField);
  documentImageUrl : option string;
  selfieImageUrl : option string;
  faceMatchResult : option FaceVerificationService.FaceMatchResult;
  status : VerificationStatus;
  failureReason : option string;
  confidenceScore : option float
}.

Definition set_documentData (d : gmap string ExtractedField) (v : t) : t :=
  mk (id v) (userId v) (documentType v) (Some d) (documentImageUrl v)
     (selfieImageUrl v) (faceMatchResult v) (status v) (failureReason v)
     (confidenceScore v).

Definition set_confidenceScore (c : float) (v : t) : t :=
  mk (id v) (userId v) (documentType v) (documentData v) (documentImageUrl v)
     (selfieImageUrl v) (faceMatchResult v) (status v) (failureReason v)
     (Some c).

Definition set_faceMatchResult (r : FaceVerificationService.FaceMatchResult)
    (v : t) : t :=
  mk (id v) (userId v) (documentType v) (documentData v) (documentImageUrl v)
     (selfieImageUrl v) (Some r) (status v) (failureReason v)
     (confidenceScore v).

Definition set_status (s : VerificationStatus) (v : t) : t :=
  mk (id v) (userId v) (documentType v) (documentData v) (documentImageUrl v)
     (selfieImageUrl v) (faceMatchResult v) s (failureReason v)
     (confidenceScore v).

Definition set_failureReason (r : string) (v : t) : t :=
  mk (id v) (userId v) (documentType v) (documentData v) (documentImageUrl v)
     (selfieImageUrl v) (faceMatchResult v) (status v) (Some r)
     (confidenceScore v).

End Verification.

(** What the orchestrator does to the outside, in order. *)
Inductive Event : Type :=
| EvSave (v : Verification.t)
| EvFindOne (verificationId : string)
| EvVerifyDocument (documentType : DocumentType) (documentBuffer : Buffer)
| EvDetectLiveness (selfieBuffer : Buffer)
| EvVerifyFaceMatch (documentFaceBuffer selfieFaceBuffer : Buffer).

Record World : Type := mkWorld {
  store : gmap string Verification.t;
  events : list Event
}.

Definition emptyWorld : World := mkWorld ∅ [].

(** The injected step services.  The tests replace them by mocks, so the
    orchestrator is stated over any implementation. *)
Record Services : Type := mkServices {
  svc_verifyDocument :
    DocumentType -> Buffer -> Outcome DocumentVerificationService.DocumentResult;
  svc_detectLiveness :
    Buffer -> Outcome FaceVerificationService.LivenessResult;
  svc_verifyFaceMatch :
    Buffer -> Buffer -> Outcome FaceVerificationService.FaceMatchResult
}.

(** The services of the source over an environment. *)
Definition realServices (env : Env) : Services :=
  mkServices (DocumentVerificationService.verifyDocument env)
             (FaceVerificationService.detectLiveness env)
             (FaceVerificationService.verifyFaceMatch env).

(** ** A method body: local variable [verification], repository, exceptions *)

Record Frame : Type := mkFrame {
  verification : Verification.t;
  world : World
}.

Definition M (A : Type) : Type := Frame -> Outcome A * Frame.

#[global] Instance M_ret : MRet M := fun A a fr => (Return a, fr).

#[global] Instance M_bind : MBind M := fun A B f m fr =>
  match m fr with
  | (Return a, fr') => f a fr'
  | (Throw e, fr') => (Throw e, fr')
  end.

Definition throw {A : Type} (e : Exception) : M A := fun fr => (Throw e, fr).

(** [try { body } catch (error) { handler }]: what the body did to the
    record and to the repository before it threw stays done. *)
Definition try_catch {A : Type} (body : M A) (handler : Exception -> M A) : M A :=
  fun fr =>
    match body fr with
    | (Return a, fr') => (Return a, fr')
    | (Throw e, fr') => handler e fr'
    end.

(** An assignment to a column of [verification]. *)
Definition assign (f : Verification.t -> Verification.t) : M unit :=
  fun fr => (Return tt, mkFrame (f (verification fr)) (world fr)).

(** [return verification] *)
Definition current : M Verification.t :=
  fun fr => (Return (verification fr), fr).

Definition record_event (ev : Event) (w : World) : World :=
  mkWorld (store w) (events w ++ [ev]).

(** [repository.save(v)] *)
Definition save (v : Verification.t) (w : World) : World :=
  mkWorld (<[Verification.id v := v]> (store w)) (events w ++ [EvSave v]).

(** [await this.verificationRepository.save(verification)] *)
Definition saveVerification : M unit :=
  fun fr => (Return tt, mkFrame (verification fr) (save (verification fr) (world fr))).

(** [await service.method(..)]: the call is recorded, then its outcome is
    returned or thrown. *)
Definition await {A : Type} (ev : Event) (o : Outcome A) : M A :=
  fun fr => (o, mkFrame (verification fr) (record_event ev (world fr))).

(** ** VerificationService *)

Module VerificationService.

(** The id that the repository gives to the next new record. *)
Definition generatedId (w : World) : string := fresh (dom (store w)).

(** [repository.create({userId, documentType, status})], with the id the
    first [save] will assign. *)
Definition create (newId userId : string) (documentType : DocumentType)
    (s : VerificationStatus) : Verification.t :=
  Verification.mk newId userId documentType None None None None s None None.

(** The [catch] block shared in shape by [startVerification] and
    [verifyFace]. *)
Definition failAndRethrow (error : Exception) : M Verification.t :=
  assign (Verification.set_status FAILED);;
  assign (Verification.set_failureReason (message error));;
  saveVerification;;
  throw error.

Definition startVerification_body (svc : Services)
    (documentType : DocumentType) (documentBuffer : Buffer) : M Verification.t :=
  saveVerification;;
  try_catch
    (documentResult ← await (EvVerifyDocument documentType documentBuffer)
                        (svc_verifyDocument svc documentType documentBuffer);
     assign (Verification.set_documentData
               (DocumentVerificationService.extractedData documentResult));;
     assign (Verification.set_confidenceScore
               (DocumentVerificationService.confidenceScore documentResult));;
     if negb (DocumentVerificationService.dr_isValid documentResult) then
       assign (Verification.set_status FAILED);;
       assign (Verification.set_failureReason "Document verification failed");;
       saveVerification;;
       throw (newBadRequestException "Document verification failed")
     else
       saveVerification;;
       current)
    failAndRethrow.

Definition startVerification (svc : Services) (userId : string)
    (documentType : DocumentType) (documentBuffer : Buffer) (w : World)
    : Outcome Verification.t * World :=
  let verification0 := create (generatedId w) userId documentType IN_PROGRESS in
  let '(r, fr) := startVerification_body svc documentType documentBuffer
                    (mkFrame verification0 w) in
  (r, world fr).

Definition verifyFace_body (svc : Services) (selfieBuffer : Buffer)
    : M Verification.t :=
  try_catch
    (livenessResult ← await (EvDetectLiveness selfieBuffer)
                        (svc_detectLiveness svc selfieBuffer);
     (if negb (FaceVerificationService.isLive livenessResult) then
        assign (Verification.set_status FAILED);;
        assign (Verification.set_failureReason "Liveness check failed");;
        saveVerification;;
        throw (newBadRequestException "Liveness check failed")
      else mret tt);;
     faceMatchResult ← await (EvVerifyFaceMatch "" selfieBuffer)
                         (svc_verifyFaceMatch svc "" selfieBuffer);
     assign (Verification.set_faceMatchResult faceMatchResult);;
     (if negb (FaceVerificationService.isMatch faceMatchResult) then
        assign (Verification.set_status FAILED);;
        assign (Verification.set_failureReason "Face match failed");;
        saveVerification;;
        throw (newBadRequestException "Face match failed")
      else mret tt);;
     assign (Verification.set_status COMPLETED);;
     saveVerification;;
     current)
    failAndRethrow.

Definition verifyFace (svc : Services) (verificationId : string)
    (selfieBuffer : Buffer) (w : World) : Outcome Verification.t * World :=
  let w1 := record_event (EvFindOne verificationId) w in
  match store w !! verificationId with
  | None => (Throw (newBadRequestException "Verification not found"), w1)
  | Some found =>
      let '(r, fr) := verifyFace_body svc selfieBuffer (mkFrame found w1) in
      (r, world fr)
  end.

Definition getVerificationStatus (verificationId : string) (w : World)
    : Outcome Verification.t * World :=
  let w1 := record_event (EvFindOne verificationId) w in
  match store w !! verificationId with
  | None => (Throw (newBadRequestException "Verification not found"), w1)
  | Some found => (Return found, w1)
  end.

(** The three core operations and their sequences. *)
Inductive Operation : Type :=
| StartVerification (userId : string) (documentType : DocumentType)
    (documentBuffer : Buffer)
| VerifyFace (verificationId : string) (selfieBuffer : Buffer)
| GetVerificationStatus (verificationId : string).

Definition perform (svc : Services) (op : Operation) (w : World)
    : Outcome Verification.t * World :=
  match op with
  | StartVerification u t b => startVerification svc u t b w
  | VerifyFace i b => verifyFace svc i b w
  | GetVerificationStatus i => getVerificationStatus i w
  end.

(** A sequence of operations; each one meets the step services in the
    state they are in at that moment. *)
Fixpoint performAll (ops : list (Services * Operation)) (w : World) : World :=
  match ops with
  | [] => w
  | (svc, op) :: rest => performAll rest (snd (perform svc op w))
  end.

End VerificationService.


(** ** Specification-side notions

    What the specification says, in its own words, to be compared with the
    functions above. *)

Module Spec.

(** The arithmetic mean of a list of numbers, summed from left to right;
    [0] for the empty list. *)
Definition sum (l : list float) : float :=
  fold_left (fun a x => (a + x)%float) l 0%float.

Definition mean (l : list float) : float :=
  match l with
  | [] => 0%float
  | _ :: _ => (sum l / JS.js_count (List.length l))%float
  end.

(** A field of the map is present when it has a non-empty value. *)
Definition present (data : gmap string ExtractedField) (key : string) : Prop :=
  exists e, data !! key = Some e /\ value e <> "".

(** The required list in the words of the specification: four common
    fields for every type, then what the type adds. *)
Definition commonFields : list string :=
  ["FIRST_NAME"; "LAST_NAME"; "DATE_OF_BIRTH"; "EXPIRATION_DATE"].

Definition additionalFields (t : DocumentType) : list string :=
  if String.eqb t PASSPORT then ["PASSPORT_NUMBER"; "NATIONALITY"]
  else if String.eqb t DRIVERS_LICENSE then ["LICENSE_NUMBER"; "STATE"]
  else if String.eqb t ID_CARD then ["ID_NUMBER"]
  else [].

Definition requiredFields (t : DocumentType) : list string :=
  commonFields ++ additionalFields t.

Definition knownType (t : DocumentType) : Prop :=
  t = PASSPORT \/ t = DRIVERS_LICENSE \/ t = ID_CARD.

(** The expiration rule: the date is there, it parses, and it lies
    strictly before now. *)
Definition expired (env : Env) (data : gmap string ExtractedField) : Prop :=
  exists e ms,
    data !! "expiration_date" = Some e /\ value e <> "" /\
    Date_parse env (value e) = Some ms /\ (ms < Date_now env)%Z.

(** [^[A-Z0-9]{6,9}$] read as a property of the whole string. *)
Definition upperOrDigit (c : ascii) : Prop :=
  (65 <= nat_of_ascii c <= 90) \/ (48 <= nat_of_ascii c <= 57).

Definition passportNumberFormat (s : string) : Prop :=
  6 <= String.length s <= 9 /\
  forall c, In c (list_ascii_of_string s) -> upperOrDigit c.

(** The fields of an analyzer document, or none. *)
Definition fieldsOf (document : IdentityDocument) : list IdentityDocumentField :=
  default [] (IdentityDocumentFields document).

(** The confidences of the extracted fields: those that
    [parseDocumentFields] places into [documentData]. *)
Definition extractedField (f : IdentityDocumentField) : bool :=
  JS.truthy_ostr (DocumentVerificationService.field_name f)
  && JS.truthy_ostr (DocumentVerificationService.field_text f).

Definition extractedConfidences (document : IdentityDocument)
    : list (option float) :=
  map DocumentVerificationService.field_confidence
      (List.filter extractedField (fieldsOf document)).

(** The confidences that are present and not zero, whatever the field. *)
Definition countedConfidences (document : IdentityDocument) : list float :=
  flat_map
    (fun f =>
       match DocumentVerificationService.field_confidence f with
       | Some c => if JS.truthy c then [c] else []
       | None => []
       end)
    (fieldsOf document).

(** One liveness signal: an optional number counts when it is there and
    not zero; a condition counts as [100] when it holds. *)
Definition numberSignal (o : option float) : list float :=
  match o with
  | Some x => if JS.truthy x then [x] else []
  | None => []
  end.

Definition conditionSignal (b : bool) : list float :=
  if b then [100%float] else [].

(** The signals that contribute to the liveness score of a face, in the
    order eyes-open confidence, brightness, sharpness, pose, sunglasses. *)
Definition livenessSignals (face : FaceDetail) : list float :=
  numberSignal (FaceVerificationService.attr_confidence (EyesOpen face))
  ++ numberSignal (FaceVerificationService.quality_brightness face)
  ++ numberSignal (FaceVerificationService.quality_sharpness face)
  ++ conditionSignal (FaceVerificationService.isPoseAcceptable face)
  ++ conditionSignal (FaceVerificationService.sunglasses_absent face).

(** The same face with another eyes-open attribute. *)
Definition withEyesOpen (a : option BoolAttribute) (face : FaceDetail)
    : FaceDetail :=
  mkFaceDetail a (MouthOpen face) (Eyeglasses face) (Sunglasses face)
    (Beard face) (Emotions face) (Quality face) (fd_Pose face).

(** All the ways to keep some elements of a list, in order. *)
Fixpoint selections {A : Type} (l : list A) : list (list A) :=
  match l with
  | [] => [[]]
  | x :: r => map (cons x) (selections r) ++ selections r
  end.

(** The similarity that a match counts for. *)
Definition similarityOf (m : CompareFacesMatch) : float :=
  JS.or_zero (Similarity m).

(** A result is built from the highest-similarity match when no returned
    match has a similarity above its confidence. *)
Definition builtFromHighest (matches : list CompareFacesMatch)
    (r : FaceVerificationService.FaceMatchResult) : Prop :=
  forall m, In m matches ->
    PrimFloat.leb (similarityOf m) (FaceVerificationService.fm_confidence r) = true.

(** Every record is filed under its own id. *)
Definition storeWellKeyed (w : World) : Prop :=
  map_Forall (fun k v => Verification.id v = k) (store w).

(** Terminal statuses. *)
Definition terminal (s : VerificationStatus) : Prop :=
  s = COMPLETED \/ s = FAILED.

(** The face match result stored under an id, if any. *)
Definition storedFaceMatch (w : World) (k : string)
    : option FaceVerificationService.FaceMatchResult :=
  match store w !! k with
  | Some v => Verification.faceMatchResult v
  | None => None
  end.

(** The record an operation works on: the new record of
    [startVerification], the record found by [verifyFace]. *)
Definition recordOf (op : VerificationService.Operation) (w : World)
    : option string :=
  match op with
  | VerificationService.StartVerification _ _ _ =>
      Some (VerificationService.generatedId w)
  | VerificationService.VerifyFace i _ =>
      match store w !! i with
      | Some v => Some (Verification.id v)
      | None => None
      end
  | VerificationService.GetVerificationStatus _ => None
  end.

(** Where the error that an operation surfaces was raised: thrown by a
    step service, or raised by the orchestrator on a negative step result. *)
Definition raisedInStep (svc : Services) (op : VerificationService.Operation)
    (e : Exception) : Prop :=
  match op with
  | VerificationService.StartVerification _ t b =>
      match svc_verifyDocument svc t b with
      | Throw e0 => e = e0
      | Return dr =>
          DocumentVerificationService.dr_isValid dr = false /\
          e = newBadRequestException "Document verification failed"
      end
  | VerificationService.VerifyFace _ b =>
      match svc_detectLiveness svc b with
      | Throw e0 => e = e0
      | Return lr =>
          if FaceVerificationService.isLive lr then
            match svc_verifyFaceMatch svc "" b with
            | Throw e0 => e = e0
            | Return fm =>
                FaceVerificationService.isMatch fm = false /\
                e = newBadRequestException "Face match failed"
            end
          else e = newBadRequestException "Liveness check failed"
      end
  | VerificationService.GetVerificationStatus _ => False
  end.

End Spec.


(** ** Test data

    The analyzer responses, faces and dates that the repository's tests
    use, and small variations of them. *)

Module Fixtures.

Definition field (name text : string) (conf : float) : IdentityDocumentField :=
  mkField (Some (mkFieldType (Some name)))
          (Some (mkValueDetection (Some text) (Some conf))).

Definition document (fs : list IdentityDocumentField) : IdentityDocument :=
  mkIdentityDocument (Some fs).

Definition passportFields (number expiration : string)
    : list IdentityDocumentField :=
  [ field "FIRST_NAME" "John" 99.5%float;
    field "LAST_NAME" "Doe" 99.2%float;
    field "DATE_OF_BIRTH" "1980-01-01" 98.7%float;
    field "PASSPORT_NUMBER" number 97.9%float;
    field "EXPIRATION_DATE" expiration 98.1%float;
    field "NATIONALITY" "USA" 98.5%float ].

Definition validPassport : IdentityDocument :=
  document (passportFields "AB123456" "2030-01-01").

Definition expiredPassport : IdentityDocument :=
  document (passportFields "AB123456" "2020-01-01").

(** A valid passport for which the analyzer also reports a middle name
    that it could not read: no text, but a confidence. *)
Definition passportWithBlankField : IdentityDocument :=
  document (passportFields "AB123456" "2030-01-01"
            ++ [field "MIDDLE_NAME" "" 10%float]).

(** Names and date of birth only. *)
Definition namesOnly : IdentityDocument :=
  document [ field "FIRST_NAME" "John" 99.5%float;
             field "LAST_NAME" "Doe" 99.2%float;
             field "DATE_OF_BIRTH" "1980-01-01" 98.7%float ].

(** The two dates of the tests, in milliseconds since the epoch. *)
Definition parseDate (s : string) : option Z :=
  if String.eqb s "2030-01-01" then Some 1893456000000%Z
  else if String.eqb s "2020-01-01" then Some 1577836800000%Z
  else None.

(** 2024-03-29T10:00:00Z *)
Definition now : Z := 1711706400000%Z.

Definition face (eyesOpen : bool) (eyesConf : float) (sunglasses : bool)
    (sunglassesConf brightness sharpness pitch roll yaw : float) : FaceDetail :=
  mkFaceDetail (Some (mkBoolAttribute (Some eyesOpen) (Some eyesConf)))
    None None
    (Some (mkBoolAttribute (Some sunglasses) (Some sunglassesConf)))
    None None
    (Some (mkImageQuality (Some brightness) (Some sharpness)))
    (Some (mkPose (Some pitch) (Some roll) (Some yaw))).

(** [highLivenessFace] and [lowLivenessFace] of the face service tests. *)
Definition highLivenessFace : FaceDetail :=
  face true 99%float false 99%float 95%float 90%float 5%float 3%float 10%float.

Definition lowLivenessFace : FaceDetail :=
  face false 90%float true 98%float 40%float 30%float 30%float 25%float 35%float.

(** The high liveness face, but with the eyes detected as closed. *)
Definition closedEyesFace : FaceDetail :=
  face false 99%float false 99%float 95%float 90%float 5%float 3%float 10%float.

Definition faceMatch (similarity : float) : CompareFacesMatch :=
  mkCompareFacesMatch (Some similarity) None.

(** An environment whose analyzers answer the same way for every image:
    one document, one face, a list of face matches. *)
Definition env (doc : option IdentityDocument) (f : FaceDetail)
    (similarities : list float) : Env :=
  mkEnv parseDate now
    (fun _ => Return (mkAnalyzeIDResponse (option_map (fun d => [d]) doc)))
    (fun _ _ => Return (mkDetectFacesResponse (Some [f])))
    (fun _ _ _ =>
       Return (mkCompareFacesResponse (Some (map faceMatch similarities))
                                      (Some []))).

(** Step services that answer with fixed results, like the mocks of the
    orchestrator tests. *)
Definition mockServices
    (documentResult : Outcome DocumentVerificationService.DocumentResult)
    (livenessResult : Outcome FaceVerificationService.LivenessResult)
    (faceMatchResult : Outcome FaceVerificationService.FaceMatchResult)
    : Services :=
  mkServices (fun _ _ => documentResult) (fun _ => livenessResult)
             (fun _ _ => faceMatchResult).

Definition emptyDetails : FaceVerificationService.LivenessDetails :=
  FaceVerificationService.mkLivenessDetails None None None None None None
    None None.

(** [mockLivenessResult] and [mockFaceMatchResult] of the test "should
    successfully verify face". *)
Definition mockLive : Outcome FaceVerificationService.LivenessResult :=
  Return (FaceVerificationService.mkLivenessResult true 0.98%float emptyDetails).

Definition mockMatch : Outcome FaceVerificationService.FaceMatchResult :=
  Return (FaceVerificationService.mkFaceMatchResult true 0.95%float
            (FaceVerificationService.BestMatchDetails None None None None)).

(** The document result of the test "should handle document verification
    failure". *)
Definition mockInvalidDocument
    : Outcome DocumentVerificationService.DocumentResult :=
  Return (DocumentVerificationService.mkDocumentResult false ∅ 0%float).

(** A record that already failed, as [startVerification] leaves it. *)
Definition failedRecord : Verification.t :=
  Verification.mk "0" "user123" PASSPORT None None None None FAILED
    (Some "Failed to analyze document") None.

Definition inProgressRecord : Verification.t :=
  Verification.mk "verification123" "user123" PASSPORT None None None None
    IN_PROGRESS None None.

Definition worldWith (v : Verification.t) : World :=
  mkWorld {[ Verification.id v := v ]} [].

End Fixtures.

(** ** SecurityService (security.service.ts) *)

Module SecurityService.

(** The data of a response: JSON-like trees.  An object lists its own
    enumerable keys in the order [Object.keys] gives them. *)
#[local] Unset Elimination Schemes.
Inductive JSValue : Type :=
| JUndefined
| JNull
| JBoolean (b : bool)
| JNumber (x : float)
| JString (s : string)
| JArray (items : list JSValue)
| JObject (entries : list (string * JSValue)).
#[local] Set Elimination Schemes.

Definition sensitiveFields : list string := ["password"; "secret"; "token"].

(** [sensitiveFields.includes(key.toLowerCase())] *)
Definition isSensitive (key : string) : bool :=
  existsb (String.eqb (JS.toLowerCase key)) sensitiveFields.

(** [typeof v === 'object'] *)
Definition isObjectType (v : JSValue) : bool :=
  match v with
  | JNull | JArray _ | JObject _ => true
  | _ => false
  end.

(** [sanitizeOutput]: the source edits [data] in place and returns it; here
    the edited value is returned.  The keys of an array are its indices,
    none of which is a sensitive name. *)
Fixpoint sanitizeOutput (data : JSValue) : JSValue :=
  match data with
  | JObject entries =>
      JObject
        ((fix each (es : list (string * JSValue)) : list (string * JSValue) :=
            match es with
            | [] => []
            | (key, v) :: rest =>
                if isSensitive key then each rest
                else (key, if isObjectType v then sanitizeOutput v else v)
                       :: each rest
            end) entries)
  | JArray items =>
      JArray (map (fun v => if isObjectType v then sanitizeOutput v else v) items)
  | _ => data
  end.

(** [s.split(sep)] for a separator of one character. *)
Fixpoint split (sep : ascii) (s : string) : list string :=
  match s with
  | EmptyString => [EmptyString]
  | String c rest =>
      if Ascii.eqb c sep then EmptyString :: split sep rest
      else match split sep rest with
           | piece :: pieces => String c piece :: pieces
           | [] => [String c EmptyString]
           end
  end.

(** [pieces.pop()]: the last piece, [undefined] for an empty array. *)
Fixpoint pop (pieces : list string) : option string :=
  match pieces with
  | [] => None
  | [piece] => Some piece
  | _ :: rest => pop rest
  end.

(** [generateSecureFilename]; [uuid] is the value of [crypto.randomUUID()]. *)
Definition generateSecureFilename (uuid originalName : string) : string :=
  let ext := pop (split "." originalName) in
  uuid ++ "." ++ JS.interpolate ext.

End SecurityService.

(** ** RequestIdMiddleware (request-id.middleware.ts) *)

Module RequestIdMiddleware.

(** [use]: the id that ends up in the request header and in the response
    header; [generated] is the value of [securityService.generateRequestId()],
    [header] the incoming [x-request-id]. *)
Definition use (generated : string) (header : option string) : string :=
  match header with
  | Some h => if JS.truthy_str h then h else generated
  | None => generated
  end.

End RequestIdMiddleware.

(** ** VerificationController (verification.controller.ts) *)

Module VerificationController.

(** The part of [Express.Multer.File] the methods read. *)
Record MulterFile : Type := mkMulterFile {
  originalname : string;
  buffer : Buffer
}.

(** [Object.values(DocumentType)] *)
Definition documentTypeValues : list DocumentType :=
  [PASSPORT; DRIVERS_LICENSE; ID_CARD].

(** [verifyDocument]: a document type missing from the body behaves like
    any string outside the enum. *)
Definition verifyDocument (svc : Services) (userId : string)
    (documentType : DocumentType) (file : option MulterFile)
    (requestId : option string) (w : World) : Outcome Verification.t * World :=
  match file with
  | None => (Throw (newBadRequestException "Document file is required"), w)
  | Some f =>
      if negb (existsb (String.eqb documentType) documentTypeValues) then
        (Throw (newBadRequestException "Invalid document type"), w)
      else if negb (JS.truthy_ostr requestId) then
        (Throw (newBadRequestException "X-Request-ID header is required"), w)
      else
        VerificationService.startVerification svc userId documentType (buffer f) w
  end.

Definition verifyFace (svc : Services) (verificationId : string)
    (file : option MulterFile) (requestId : option string) (w : World)
    : Outcome Verification.t * World :=
  match file with
  | None => (Throw (newBadRequestException "Selfie file is required"), w)
  | Some f =>
      if negb (JS.truthy_ostr requestId) then
        (Throw (newBadRequestException "X-Request-ID header is required"), w)
      else VerificationService.verifyFace svc verificationId (buffer f) w
  end.

Definition getVerificationStatus (verificationId : string)
    (requestId : option string) (w : World) : Outcome Verification.t * World :=
  if negb (JS.truthy_ostr requestId) then
    (Throw (newBadRequestException "X-Request-ID header is required"), w)
  else VerificationService.getVerificationStatus verificationId w.

(** The three routes, with the [x-request-id] header as it arrives. *)
Inductive Request : Type :=
| PostDocument (userId : string) (documentType : DocumentType)
    (file : option MulterFile) (header : option string)
| PostFace (verificationId : string) (file : option MulterFile)
    (header : option string)
| GetStatus (verificationId : string) (header : option string).

(** A request as the controller receives it. *)
Definition handle (svc : Services) (r : Request) (w : World)
    : Outcome Verification.t * World :=
  match r with
  | PostDocument u t f h => verifyDocument svc u t f h w
  | PostFace i f h => verifyFace svc i f h w
  | GetStatus i h => getVerificationStatus i h w
  end.

(** The header of a request after [RequestIdMiddleware], which the
    application applies to all routes. *)
Definition behindMiddleware (generated : string) (r : Request) : Request :=
  match r with
  | PostDocument u t f h =>
      PostDocument u t f (Some (RequestIdMiddleware.use generated h))
  | PostFace i f h => PostFace i f (Some (RequestIdMiddleware.use generated h))
  | GetStatus i h => GetStatus i (Some (RequestIdMiddleware.use generated h))
  end.

(** A sequence of requests, each with the services as they answer then. *)
Fixpoint handleAll (rs : list (Services * Request)) (w : World) : World :=
  match rs with
  | [] => w
  | (svc, r) :: rest => handleAll rest (snd (handle svc r w))
  end.

End VerificationController.

(** ** Further notions of the statements *)

Module Notions.

(** What the status of a record says about its other columns. *)
Definition consistent (v : Verification.t) : Prop :=
  Verification.status v <> PENDING /\
  (Verification.status v = FAILED ->
   exists why, Verification.failureReason v = Some why) /\
  (Verification.status v = COMPLETED ->
   exists fm, Verification.faceMatchResult v = Some fm /\
              FaceVerificationService.isMatch fm = true) /\
  (Verification.status v = IN_PROGRESS ->
   Verification.failureReason v = None /\
   Verification.faceMatchResult v = None).

Definition allConsistent (w : World) : Prop :=
  map_Forall (fun _ v => consistent v) (store w).

(** The columns that only [startVerification] writes. *)
Definition sameDocumentColumns (v v' : Verification.t) : Prop :=
  Verification.id v' = Verification.id v /\
  Verification.userId v' = Verification.userId v /\
  Verification.documentType v' = Verification.documentType v /\
  Verification.documentData v' = Verification.documentData v /\
  Verification.confidenceScore v' = Verification.confidenceScore v /\
  Verification.documentImageUrl v' = Verification.documentImageUrl v /\
  Verification.selfieImageUrl v' = Verification.selfieImageUrl v.

(** The record [k] is there, with the document columns of [v]. *)
Definition columnsKept (k : string) (v : Verification.t) (w : World) : Prop :=
  exists v', store w !! k = Some v' /\ sameDocumentColumns v v'.

(** Every record of the repository has one of the three document types. *)
Definition knownTypesOnly (w : World) : Prop :=
  map_Forall (fun _ v => Spec.knownType (Verification.documentType v)) (store w).

(** No sensitive key at any depth. *)
Fixpoint noSensitiveKey (data : SecurityService.JSValue) : bool :=
  match data with
  | SecurityService.JObject entries =>
      (fix each (es : list (string * SecurityService.JSValue)) : bool :=
         match es with
         | [] => true
         | (key, v) :: rest =>
             negb (SecurityService.isSensitive key) && noSensitiveKey v && each rest
         end) entries
  | SecurityService.JArray items => forallb noSensitiveKey items
  | _ => true
  end.

(** What [parseDocumentFields] stores for one analyzer field, if anything:
    the key and the entry. *)
Definition entryOf (f : IdentityDocumentField) : option (string * ExtractedField) :=
  match DocumentVerificationService.field_name f,
        DocumentVerificationService.field_text f with
  | Some n, Some t =>
      if JS.truthy_str n && JS.truthy_str t
         && negb (String.eqb (JS.toLowerCase n) "__proto__")
      then Some (JS.toLowerCase n,
                 mkExtractedField t (DocumentVerificationService.field_confidence f))
      else None
  | _, _ => None
  end.

(** The key under which a field is stored, if it is stored. *)
Definition keyOf (f : IdentityDocumentField) : option string :=
  option_map fst (entryOf f).

(** The same environment at another time. *)
Definition atTime (now : Z) (env : Env) : Env :=
  mkEnv (Date_parse env) now (textract_analyzeID env)
        (rekognition_detectFaces env) (rekognition_compareFaces env).

(** A string without the character [c]. *)
Definition without (c : ascii) (s : string) : Prop :=
  ~ In c (list_ascii_of_string s).

(** An event that involves no document type outside the three. *)
Definition knownTypeEvent (ev : Event) : Prop :=
  match ev with
  | EvSave v => Spec.knownType (Verification.documentType v)
  | EvVerifyDocument t _ => Spec.knownType t
  | _ => True
  end.

(** No record and no event of the world involves a document type outside
    the three. *)
Definition knownTypesThroughout (w : World) : Prop :=
  knownTypesOnly w /\ Forall knownTypeEvent (events w).

(** The request [r] with [h] as its [x-request-id] header. *)
Definition withHeader (h : option string) (r : VerificationController.Request)
    : VerificationController.Request :=
  match r with
  | VerificationController.PostDocument u t f _ =>
      VerificationController.PostDocument u t f h
  | VerificationController.PostFace i f _ => VerificationController.PostFace i f h
  | VerificationController.GetStatus i _ => VerificationController.GetStatus i h
  end.

End Notions.

(** ** Shorthands of the statements *)

(** The two kinds of validation result. *)
Definition valid : DocumentVerificationService.ValidationResult :=
  DocumentVerificationService.mkValidationResult true None.
Definition invalid (why : string) : DocumentVerificationService.ValidationResult :=
  DocumentVerificationService.mkValidationResult false (Some why).

(** The record after [status = FAILED; failureReason = why]. *)
Definition markFailed (why : string) (v : Verification.t) : Verification.t :=
  Verification.set_failureReason why (Verification.set_status FAILED v).

Definition withDocument (dr : DocumentVerificationService.DocumentResult)
    (v : Verification.t) : Verification.t :=
  Verification.set_confidenceScore
    (DocumentVerificationService.confidenceScore dr)
    (Verification.set_documentData
       (DocumentVerificationService.extractedData dr) v).

(** From [w] to [w'] the record [k], if terminal, stayed terminal, and
    every save of it in between was a save with a terminal status. *)
Definition keeps (k : string) (w w' : World) : Prop :=
  ((exists v, store w !! k = Some v /\ Spec.terminal (Verification.status v)) ->
   exists v', store w' !! k = Some v' /\ Spec.terminal (Verification.status v')) /\
  exists new,
    events w' = (events w ++ new)%list /\
    forall s, In (EvSave s) new -> Verification.id s = k ->
              Spec.terminal (Verification.status s).

(** * Properties *)

(** ** Numbers *)

Lemma float_apart (f : float -> bool) (x y : float) : f x <> f y -> x <> y.
Proof. intros H E. apply H. now rewrite E. Qed.

(** ** Document rules *)

Section DocumentRules.

Import DocumentVerificationService.

Lemma truthy_str_iff (s : string) : JS.truthy_str s = true <-> s <> "".
Proof. destruct s; simpl; split; congruence. Qed.

Lemma lookup_value_Some (data : gmap string ExtractedField) (k v : string) :
  lookup_value data k = Some v <->
  exists e, data !! k = Some e /\ value e = v /\ v <> "".
Proof.
  unfold lookup_value. destruct (data !! k) as [e|] eqn:E.
  - destruct (JS.truthy_str (value e)) eqn:T.
    + apply truthy_str_iff in T. split.
      * intros [= <-]. eauto.
      * intros (e' & [= <-] & <- & _). reflexivity.
    + split; [discriminate|].
      intros (e' & [= <-] & <- & N). apply truthy_str_iff in N. congruence.
  - split; [discriminate|]. intros (e' & ? & _). discriminate.
Qed.

Lemma lookup_value_None (data : gmap string ExtractedField) (k : string) :
  lookup_value data k = None <-> ~ Spec.present data k.
Proof.
  unfold Spec.present. split.
  - intros H (e & E & N).
    assert (lookup_value data k = Some (value e)) as H'
      by (apply lookup_value_Some; eauto).
    congruence.
  - intros H. destruct (lookup_value data k) as [v|] eqn:L; [|reflexivity].
    apply lookup_value_Some in L as (e & E & <- & N). destruct H; eauto.
Qed.

Lemma isExpired_iff (env : Env) (data : gmap string ExtractedField) :
  isExpired env data = true <-> Spec.expired env data.
Proof.
  unfold isExpired, Spec.expired. split.
  - destruct (lookup_value data "expiration_date") as [v|] eqn:L; [|discriminate].
    apply lookup_value_Some in L as (e & E & <- & N).
    destruct (Date_parse env (value e)) as [ms|] eqn:P; [|discriminate].
    intros H. apply Z.ltb_lt in H. eauto 10.
  - intros (e & ms & E & N & P & H).
    assert (lookup_value data "expiration_date" = Some (value e)) as ->
      by (apply lookup_value_Some; eauto).
    rewrite P. now apply Z.ltb_lt.
Qed.

Lemma upper_or_digit_iff (c : ascii) :
  upper_or_digit c = true <-> Spec.upperOrDigit c.
Proof.
  unfold upper_or_digit, Spec.upperOrDigit.
  rewrite orb_true_iff, !andb_true_iff, !Nat.leb_le. tauto.
Qed.

(** The greedy match consumed the whole input: the input is that long and
    consists of characters of the class. *)
Lemma match_class_upto_all (cls : ascii -> bool) (max : nat) (s : string) (k : nat) :
  match_class_upto cls max s = (k, "") ->
  String.length s = k /\ k <= max /\
  forall c, In c (list_ascii_of_string s) -> cls c = true.
Proof.
  revert s k. induction max as [|m IH]; intros s k.
  - destruct s; simpl; intros [= <-]; try discriminate.
    repeat split; [lia | intros c []].
  - destruct s as [|a r]; simpl.
    + intros [= <-]. repeat split; [lia | intros c []].
    + destruct (cls a) eqn:Ca; [|discriminate].
      destruct (match_class_upto cls m r) as [k' rest] eqn:R.
      intros [= <- ->]. apply IH in R as (L & B & F).
      repeat split; [lia | lia |].
      intros c [<- | Hc]; auto.
Qed.

Lemma match_class_upto_complete (cls : ascii -> bool) (max : nat) (s : string) :
  String.length s <= max ->
  (forall c, In c (list_ascii_of_string s) -> cls c = true) ->
  match_class_upto cls max s = (String.length s, "").
Proof.
  revert s. induction max as [|m IH]; intros s L F.
  - destruct s; simpl in *; [reflexivity | lia].
  - destruct s as [|a r]; simpl in *; [reflexivity|].
    rewrite (F a) by auto. rewrite IH; [reflexivity | lia | auto].
Qed.

Lemma test_anchored_class_iff (cls : ascii -> bool) (min max : nat) (s : string) :
  test_anchored_class cls min max s = true <->
  min <= String.length s <= max /\
  forall c, In c (list_ascii_of_string s) -> cls c = true.
Proof.
  unfold test_anchored_class. split.
  - destruct (match_class_upto cls max s) as [k rest] eqn:R.
    rewrite andb_true_iff, Nat.leb_le, negb_true_iff.
    intros [Hk Hr]. destruct rest; [|discriminate].
    apply match_class_upto_all in R as (L & B & F). split; [lia | exact F].
  - intros [[Lmin Lmax] F].
    rewrite match_class_upto_complete by assumption.
    simpl. rewrite andb_true_r. now apply Nat.leb_le.
Qed.

Lemma passport_regex_test_iff (s : string) :
  passport_regex_test s = true <-> Spec.passportNumberFormat s.
Proof.
  unfold passport_regex_test, Spec.passportNumberFormat.
  rewrite test_anchored_class_iff. split; intros [L F]; split; try exact L;
    intros c Hc; apply upper_or_digit_iff; auto.
Qed.

End DocumentRules.

Section DocumentValidation.

Import DocumentVerificationService.

Lemma getRequiredFields_unknown (t : DocumentType) :
  ~ Spec.knownType t -> getRequiredFields t = commonFields.
Proof.
  unfold Spec.knownType, getRequiredFields. intros H.
  destruct (String.eqb_spec t PASSPORT); [tauto|].
  destruct (String.eqb_spec t DRIVERS_LICENSE); [tauto|].
  destruct (String.eqb_spec t ID_CARD); [tauto|]. reflexivity.
Qed.

Lemma validateByType_unknown (t : DocumentType) (data : gmap string ExtractedField) :
  ~ Spec.knownType t -> validateByType t data = valid.
Proof.
  unfold Spec.knownType, validateByType. intros H.
  destruct (String.eqb_spec t PASSPORT); [tauto|].
  destruct (String.eqb_spec t DRIVERS_LICENSE); [tauto|].
  destruct (String.eqb_spec t ID_CARD); [tauto|]. reflexivity.
Qed.

Lemma validatePassport_spec (data : gmap string ExtractedField) :
  ((exists e, data !! "passport_number" = Some e /\
              Spec.passportNumberFormat (value e)) ->
   validatePassport data = valid) /\
  (~ (exists e, data !! "passport_number" = Some e /\
                Spec.passportNumberFormat (value e)) ->
   validatePassport data = invalid "Invalid passport number format").
Proof.
  unfold validatePassport. split.
  - intros (e & E & F).
    assert (lookup_value data "passport_number" = Some (value e)) as ->.
    { apply lookup_value_Some. exists e. repeat split; auto.
      destruct F as [[L _] _]. destruct (value e); simpl in L; [lia | discriminate]. }
    apply passport_regex_test_iff in F. now rewrite F.
  - intros N. destruct (lookup_value data "passport_number") as [v|] eqn:L;
      [|reflexivity].
    apply lookup_value_Some in L as (e & E & <- & _).
    destruct (passport_regex_test (value e)) eqn:T; [|reflexivity].
    apply passport_regex_test_iff in T. destruct N; eauto.
Qed.

(** The shared shape of the license and id card rules. *)
Lemma length_rule_spec (data : gmap string ExtractedField) (key why : string) :
  let r := match lookup_value data key with
           | Some n => if Nat.ltb (String.length n) 5 then invalid why else valid
           | None => invalid why
           end in
  ((exists e, data !! key = Some e /\ 5 <= String.length (value e)) -> r = valid) /\
  (~ (exists e, data !! key = Some e /\ 5 <= String.length (value e)) ->
   r = invalid why).
Proof.
  simpl. split.
  - intros (e & E & L).
    assert (lookup_value data key = Some (value e)) as ->.
    { apply lookup_value_Some. exists e. repeat split; auto.
      destruct (value e); simpl in L; [lia | discriminate]. }
    destruct (Nat.ltb_spec (String.length (value e)) 5); [lia | reflexivity].
  - intros N. destruct (lookup_value data key) as [v|] eqn:L; [|reflexivity].
    apply lookup_value_Some in L as (e & E & <- & _).
    destruct (Nat.ltb_spec (String.length (value e)) 5); [reflexivity|].
    destruct N; eauto.
Qed.

(** C4 (as amended): document validation applies its rules in order, the
    first failure winning.  (a) The required names of the type that have no
    non-empty value are reported, all of them, joined by a comma and a space;
    the required list is first name, last name, date of birth, then the
    number of the type, the expiration date and nationality (passport) or
    state (drivers license) -- for the three known types the four common
    fields plus the additions of the type -- and for an unknown type only
    first name, last name and date of birth.  (b) Otherwise the document is
    expired exactly when the expiration date is there, parses and lies
    strictly before now.  (c) Otherwise a passport number must be 6 to 9
    characters A-Z or 0-9, a license or id number at least 5 characters, and
    an unknown type passes. *)
Theorem validation_rules_in_order (env : Env) (t : DocumentType)
    (data : gmap string ExtractedField) :
  let r := validateDocumentAuthenticity env t data in
  let missing := missingFields t data in
  (getRequiredFields PASSPORT =
     ["FIRST_NAME"; "LAST_NAME"; "DATE_OF_BIRTH"; "PASSPORT_NUMBER";
      "EXPIRATION_DATE"; "NATIONALITY"] /\
   getRequiredFields DRIVERS_LICENSE =
     ["FIRST_NAME"; "LAST_NAME"; "DATE_OF_BIRTH"; "LICENSE_NUMBER";
      "EXPIRATION_DATE"; "STATE"] /\
   getRequiredFields ID_CARD =
     ["FIRST_NAME"; "LAST_NAME"; "DATE_OF_BIRTH"; "ID_NUMBER";
      "EXPIRATION_DATE"] /\
   (~ Spec.knownType t ->
    getRequiredFields t = ["FIRST_NAME"; "LAST_NAME"; "DATE_OF_BIRTH"])) /\
  (Spec.knownType t ->
   forall n, In n (getRequiredFields t) <-> In n (Spec.requiredFields t)) /\
  (forall n, In n missing <->
             In n (getRequiredFields t) /\ ~ Spec.present data (JS.toLowerCase n)) /\
  (missing <> [] ->
   r = invalid ("Missing required fields: " ++ JS.join ", " missing)) /\
  (missing = [] -> Spec.expired env data -> r = invalid "Document has expired") /\
  (missing = [] -> ~ Spec.expired env data ->
   (t = PASSPORT ->
    ((exists e, data !! "passport_number" = Some e /\
                Spec.passportNumberFormat (value e)) -> r = valid) /\
    (~ (exists e, data !! "passport_number" = Some e /\
                  Spec.passportNumberFormat (value e)) ->
     r = invalid "Invalid passport number format")) /\
   (t = DRIVERS_LICENSE ->
    ((exists e, data !! "license_number" = Some e /\
                5 <= String.length (value e)) -> r = valid) /\
    (~ (exists e, data !! "license_number" = Some e /\
                  5 <= String.length (value e)) ->
     r = invalid "Invalid license number format")) /\
   (t = ID_CARD ->
    ((exists e, data !! "id_number" = Some e /\
                5 <= String.length (value e)) -> r = valid) /\
    (~ (exists e, data !! "id_number" = Some e /\
                  5 <= String.length (value e)) ->
     r = invalid "Invalid ID number format")) /\
   (~ Spec.knownType t -> r = valid)).
Proof.
  cbv zeta. split; [|split; [|split; [|split; [|split]]]].
  - repeat split. apply getRequiredFields_unknown.
  - intros [-> | [-> | ->]] n; simpl; tauto.
  - intros n. unfold missingFields. rewrite filter_In.
    destruct (lookup_value data (JS.toLowerCase n)) eqn:L.
    + split; [intros [_ ?]; discriminate|].
      intros [_ N]. apply lookup_value_None in N. congruence.
    + apply lookup_value_None in L. tauto.
  - unfold validateDocumentAuthenticity. cbv zeta.
    destruct (missingFields t data); [congruence | reflexivity].
  - intros M X. unfold validateDocumentAuthenticity. cbv zeta. rewrite M.
    apply isExpired_iff in X. now rewrite X.
  - intros M X. unfold validateDocumentAuthenticity. cbv zeta. rewrite M.
    destruct (isExpired env data) eqn:E; [apply isExpired_iff in E; tauto|].
    repeat split.
    + subst t. intros. now apply validatePassport_spec.
    + subst t. intros. now apply validatePassport_spec.
    + subst t. intros. now apply (length_rule_spec data "license_number").
    + subst t. intros. now apply (length_rule_spec data "license_number").
    + subst t. intros. now apply (length_rule_spec data "id_number").
    + subst t. intros. now apply (length_rule_spec data "id_number").
    + apply validateByType_unknown.
Qed.

(** C4, counterexample: for an unknown document type a map with the three
    names and no expiration date passes validation, although the expiration
    date is one of the common fields said to be required for every type. *)
Lemma validation_unknown_type_needs_no_expiration :
  let data := parseDocumentFields Fixtures.namesOnly in
  let env := Fixtures.env (Some Fixtures.namesOnly) Fixtures.highLivenessFace [] in
  In "EXPIRATION_DATE" (Spec.requiredFields "visa") /\
  ~ Spec.present data (JS.toLowerCase "EXPIRATION_DATE") /\
  validateDocumentAuthenticity env "visa" data = valid.
Proof.
  cbv zeta. split; [simpl; tauto|]. split.
  - apply lookup_value_None. vm_compute. reflexivity.
  - vm_compute. reflexivity.
Qed.

(** The same rules on the data of the tests. *)
Example validation_of_test_passports :
  let env := Fixtures.env None Fixtures.highLivenessFace [] in
  validateDocumentAuthenticity env PASSPORT
    (parseDocumentFields Fixtures.validPassport) = valid /\
  validateDocumentAuthenticity env PASSPORT
    (parseDocumentFields Fixtures.expiredPassport)
  = invalid "Document has expired" /\
  validateDocumentAuthenticity env PASSPORT
    (parseDocumentFields
       (Fixtures.document (Fixtures.passportFields "123" "2030-01-01")))
  = invalid "Invalid passport number format" /\
  validateDocumentAuthenticity env PASSPORT
    (parseDocumentFields Fixtures.namesOnly)
  = invalid "Missing required fields: PASSPORT_NUMBER, EXPIRATION_DATE, NATIONALITY".
Proof. cbv zeta. repeat split; vm_compute; reflexivity. Qed.

End DocumentValidation.

(** ** Confidence score *)

Section ConfidenceScore.

Import DocumentVerificationService.

Lemma fold_confidence_step (fs : list IdentityDocumentField) (total : float) (n : nat) :
  fold_left confidence_step fs (total, n) =
  (fold_left (fun a x => (a + x)%float)
     (Spec.countedConfidences (mkIdentityDocument (Some fs))) total,
   n + List.length (Spec.countedConfidences (mkIdentityDocument (Some fs)))).
Proof.
  unfold Spec.countedConfidences, Spec.fieldsOf. simpl.
  revert total n. induction fs as [|f fs IH]; intros total n; simpl.
  - f_equal. lia.
  - unfold confidence_step at 2. simpl.
    destruct (field_confidence f) as [c|]; [|apply IH].
    destruct (JS.truthy c); [|apply IH].
    rewrite IH. simpl. f_equal. lia.
Qed.

Lemma calculateConfidenceScore_mean (document : IdentityDocument) :
  calculateConfidenceScore document = Spec.mean (Spec.countedConfidences document).
Proof.
  unfold calculateConfidenceScore. destruct document as [[fs|]]; simpl.
  - rewrite fold_confidence_step. simpl.
    destruct (Spec.countedConfidences (mkIdentityDocument (Some fs))); reflexivity.
  - reflexivity.
Qed.

Lemma verifyDocument_Return (env : Env) (t : DocumentType) (b : Buffer)
    (dr : DocumentResult) :
  verifyDocument env t b = Return dr ->
  exists response document rest,
    textract_analyzeID env b = Return response /\
    IdentityDocuments response = Some (document :: rest) /\
    isValid (validateDocumentAuthenticity env t (parseDocumentFields document)) = true /\
    dr = mkDocumentResult true (parseDocumentFields document)
           (calculateConfidenceScore document).
Proof.
  unfold verifyDocument, rewrap.
  destruct (textract_analyzeID env b) as [response|e] eqn:T; [|discriminate].
  destruct (IdentityDocuments response) as [[|document rest]|] eqn:D;
    try discriminate.
  destruct (isValid _) eqn:V; [|discriminate].
  intros [= <-]. exists response, document, rest. repeat split; auto.
Qed.

End ConfidenceScore.

(** ** The orchestrator, path by path *)

Section Orchestrator.

Import VerificationService.

Ltac run_body :=
  unfold startVerification_body, verifyFace_body, failAndRethrow, try_catch,
    await, assign, saveVerification, throw, current, mbind, M_bind, mret, M_ret;
  simpl.

(** [startVerification] when the document step throws. *)
Lemma startVerification_step_throws (svc : Services) (u : string)
    (t : DocumentType) (b : Buffer) (w : World) (e : Exception) :
  svc_verifyDocument svc t b = Throw e ->
  let v0 := create (generatedId w) u t IN_PROGRESS in
  startVerification svc u t b w =
  (Throw e,
   save (markFailed (message e) v0)
     (record_event (EvVerifyDocument t b) (save v0 w))).
Proof. intros H. unfold startVerification. run_body. rewrite H. reflexivity. Qed.

(** [startVerification] when the document step reports an invalid document. *)
Lemma startVerification_step_invalid (svc : Services) (u : string)
    (t : DocumentType) (b : Buffer) (w : World)
    (dr : DocumentVerificationService.DocumentResult) :
  svc_verifyDocument svc t b = Return dr ->
  DocumentVerificationService.dr_isValid dr = false ->
  let v0 := create (generatedId w) u t IN_PROGRESS in
  let v1 := markFailed "Document verification failed" (withDocument dr v0) in
  startVerification svc u t b w =
  (Throw (newBadRequestException "Document verification failed"),
   save v1 (save v1 (record_event (EvVerifyDocument t b) (save v0 w)))).
Proof.
  intros H V. unfold startVerification. run_body. rewrite H. simpl.
  rewrite V. reflexivity.
Qed.

(** [startVerification] when the document step succeeds. *)
Lemma startVerification_step_valid (svc : Services) (u : string)
    (t : DocumentType) (b : Buffer) (w : World)
    (dr : DocumentVerificationService.DocumentResult) :
  svc_verifyDocument svc t b = Return dr ->
  DocumentVerificationService.dr_isValid dr = true ->
  let v0 := create (generatedId w) u t IN_PROGRESS in
  startVerification svc u t b w =
  (Return (withDocument dr v0),
   save (withDocument dr v0)
     (record_event (EvVerifyDocument t b) (save v0 w))).
Proof.
  intros H V. unfold startVerification. run_body. rewrite H. simpl.
  rewrite V. reflexivity.
Qed.

(** [verifyFace] on an id that the repository does not know. *)
Lemma verifyFace_absent (svc : Services) (i : string) (b : Buffer) (w : World) :
  store w !! i = None ->
  verifyFace svc i b w =
  (Throw (newBadRequestException "Verification not found"),
   record_event (EvFindOne i) w).
Proof. intros H. unfold verifyFace. now rewrite H. Qed.

(** [verifyFace] when the liveness step throws. *)
Lemma verifyFace_liveness_throws (svc : Services) (i : string) (b : Buffer)
    (w : World) (v : Verification.t) (e : Exception) :
  store w !! i = Some v ->
  svc_detectLiveness svc b = Throw e ->
  verifyFace svc i b w =
  (Throw e,
   save (markFailed (message e) v)
     (record_event (EvDetectLiveness b) (record_event (EvFindOne i) w))).
Proof.
  intros F H. unfold verifyFace. rewrite F. run_body. rewrite H. reflexivity.
Qed.

(** [verifyFace] when the selfie is not live. *)
Lemma verifyFace_not_live (svc : Services) (i : string) (b : Buffer)
    (w : World) (v : Verification.t) (lr : FaceVerificationService.LivenessResult) :
  store w !! i = Some v ->
  svc_detectLiveness svc b = Return lr ->
  FaceVerificationService.isLive lr = false ->
  let v1 := markFailed "Liveness check failed" v in
  verifyFace svc i b w =
  (Throw (newBadRequestException "Liveness check failed"),
   save v1 (save v1
     (record_event (EvDetectLiveness b) (record_event (EvFindOne i) w)))).
Proof.
  intros F H L. unfold verifyFace. rewrite F. run_body. rewrite H. simpl.
  rewrite L. reflexivity.
Qed.

(** [verifyFace] when the comparison throws. *)
Lemma verifyFace_match_throws (svc : Services) (i : string) (b : Buffer)
    (w : World) (v : Verification.t) (lr : FaceVerificationService.LivenessResult)
    (e : Exception) :
  store w !! i = Some v ->
  svc_detectLiveness svc b = Return lr ->
  FaceVerificationService.isLive lr = true ->
  svc_verifyFaceMatch svc "" b = Throw e ->
  verifyFace svc i b w =
  (Throw e,
   save (markFailed (message e) v)
     (record_event (EvVerifyFaceMatch "" b)
        (record_event (EvDetectLiveness b) (record_event (EvFindOne i) w)))).
Proof.
  intros F H L X. unfold verifyFace. rewrite F. run_body. rewrite H. simpl.
  rewrite L. simpl. rewrite X. reflexivity.
Qed.

(** [verifyFace] when the faces do not match. *)
Lemma verifyFace_no_match (svc : Services) (i : string) (b : Buffer)
    (w : World) (v : Verification.t) (lr : FaceVerificationService.LivenessResult)
    (fm : FaceVerificationService.FaceMatchResult) :
  store w !! i = Some v ->
  svc_detectLiveness svc b = Return lr ->
  FaceVerificationService.isLive lr = true ->
  svc_verifyFaceMatch svc "" b = Return fm ->
  FaceVerificationService.isMatch fm = false ->
  let v1 := markFailed "Face match failed" (Verification.set_faceMatchResult fm v) in
  verifyFace svc i b w =
  (Throw (newBadRequestException "Face match failed"),
   save v1 (save v1
     (record_event (EvVerifyFaceMatch "" b)
        (record_event (EvDetectLiveness b) (record_event (EvFindOne i) w))))).
Proof.
  intros F H L X N. unfold verifyFace. rewrite F. run_body. rewrite H. simpl.
  rewrite L. simpl. rewrite X. simpl. rewrite N. reflexivity.
Qed.

(** [verifyFace] when the faces match. *)
Lemma verifyFace_match (svc : Services) (i : string) (b : Buffer)
    (w : World) (v : Verification.t) (lr : FaceVerificationService.LivenessResult)
    (fm : FaceVerificationService.FaceMatchResult) :
  store w !! i = Some v ->
  svc_detectLiveness svc b = Return lr ->
  FaceVerificationService.isLive lr = true ->
  svc_verifyFaceMatch svc "" b = Return fm ->
  FaceVerificationService.isMatch fm = true ->
  let v1 := Verification.set_status COMPLETED
              (Verification.set_faceMatchResult fm v) in
  verifyFace svc i b w =
  (Return v1,
   save v1
     (record_event (EvVerifyFaceMatch "" b)
        (record_event (EvDetectLiveness b) (record_event (EvFindOne i) w)))).
Proof.
  intros F H L X N. unfold verifyFace. rewrite F. run_body. rewrite H. simpl.
  rewrite L. simpl. rewrite X. simpl. rewrite N. reflexivity.
Qed.

End Orchestrator.

(** ** Failures at the orchestrator boundary *)

Section Failures.

Import VerificationService.

Lemma id_markFailed (why : string) (v : Verification.t) :
  Verification.id (markFailed why v) = Verification.id v.
Proof. reflexivity. Qed.

Lemma saved_last (v : Verification.t) (w : World) :
  store (save v w) !! Verification.id v = Some v /\
  exists before, events (save v w) = (before ++ [EvSave v])%list.
Proof. simpl. split; [apply lookup_insert_eq | eauto]. Qed.

Lemma failed_record_saved (v : Verification.t) (w : World) (rid why : string)
    (r : Outcome Verification.t) :
  Verification.id v = rid ->
  Verification.status v = FAILED ->
  Verification.failureReason v = Some why ->
  exists v',
    store (snd (r, save v w)) !! rid = Some v' /\
    Verification.id v' = rid /\
    Verification.status v' = FAILED /\
    Verification.failureReason v' = Some why /\
    exists before,
      events (snd (r, save v w)) = (before ++ [EvSave v'])%list.
Proof.
  intros <- S R. exists v. cbn [snd].
  destruct (saved_last v w) as [H1 H2]. auto.
Qed.

(** Whenever [startVerification], or [verifyFace] on a record that exists,
    throws, the error was raised inside the step and the failed record was
    saved last, with the message of the error as failure reason. *)
Lemma thrown_error_was_raised_and_persisted (svc : Services) (op : Operation)
    (w : World) (e : Exception) (rid : string) :
  Spec.recordOf op w = Some rid ->
  fst (perform svc op w) = Throw e ->
  Spec.raisedInStep svc op e /\
  exists v,
    store (snd (perform svc op w)) !! rid = Some v /\
    Verification.id v = rid /\
    Verification.status v = FAILED /\
    Verification.failureReason v = Some (message e) /\
    exists before, events (snd (perform svc op w)) = (before ++ [EvSave v])%list.
Proof.
  destruct op as [u t b | i b | i]; simpl.
  - intros [= <-].
    destruct (svc_verifyDocument svc t b) as [dr|e0] eqn:D.
    + destruct (DocumentVerificationService.dr_isValid dr) eqn:V.
      * rewrite (startVerification_step_valid _ _ _ _ _ _ D V). discriminate.
      * rewrite (startVerification_step_invalid _ _ _ _ _ _ D V).
        cbv zeta. intros [= <-]. split; [auto|].
        apply failed_record_saved; reflexivity.
    + rewrite (startVerification_step_throws _ _ _ _ _ _ D).
      cbv zeta. intros [= <-]. split; [reflexivity|].
      apply failed_record_saved; reflexivity.
  - destruct (store w !! i) as [v|] eqn:F; [|discriminate].
    intros [= <-].
    destruct (svc_detectLiveness svc b) as [lr|e0] eqn:D.
    + destruct (FaceVerificationService.isLive lr) eqn:L.
      * destruct (svc_verifyFaceMatch svc "" b) as [fm|e0] eqn:X.
        -- destruct (FaceVerificationService.isMatch fm) eqn:N.
           ++ rewrite (verifyFace_match _ _ _ _ _ _ _ F D L X N). discriminate.
           ++ rewrite (verifyFace_no_match _ _ _ _ _ _ _ F D L X N).
              cbv zeta. intros [= <-]. split; [auto|].
              apply failed_record_saved; reflexivity.
        -- rewrite (verifyFace_match_throws _ _ _ _ _ _ _ F D L X).
           intros [= <-]. split; [reflexivity|].
           apply failed_record_saved; reflexivity.
      * rewrite (verifyFace_not_live _ _ _ _ _ _ F D L).
        cbv zeta. intros [= <-]. split; [reflexivity|].
        apply failed_record_saved; reflexivity.
    + rewrite (verifyFace_liveness_throws _ _ _ _ _ _ F D).
      intros [= <-]. split; [reflexivity|].
      apply failed_record_saved; reflexivity.
  - discriminate.
Qed.

(** A failure raised inside the step is what the operation throws. *)
Lemma raised_error_is_thrown (svc : Services) (op : Operation) (w : World)
    (e : Exception) (rid : string) :
  Spec.recordOf op w = Some rid ->
  Spec.raisedInStep svc op e ->
  fst (perform svc op w) = Throw e.
Proof.
  destruct op as [u t b | i b | i]; simpl.
  - intros _.
    destruct (svc_verifyDocument svc t b) as [dr|e0] eqn:D.
    + intros [V ->].
      now rewrite (startVerification_step_invalid _ _ _ _ _ _ D V).
    + intros ->. now rewrite (startVerification_step_throws _ _ _ _ _ _ D).
  - destruct (store w !! i) as [v|] eqn:F; [|discriminate]. intros _.
    destruct (svc_detectLiveness svc b) as [lr|e0] eqn:D.
    + destruct (FaceVerificationService.isLive lr) eqn:L.
      * destruct (svc_verifyFaceMatch svc "" b) as [fm|e0] eqn:X.
        -- intros [N ->].
           now rewrite (verifyFace_no_match _ _ _ _ _ _ _ F D L X N).
        -- intros ->.
           now rewrite (verifyFace_match_throws _ _ _ _ _ _ _ F D L X).
      * intros ->. now rewrite (verifyFace_not_live _ _ _ _ _ _ F D L).
    + intros ->. now rewrite (verifyFace_liveness_throws _ _ _ _ _ _ F D).
  - discriminate.
Qed.

(** C2: every failure raised inside the document step of
    [startVerification], or inside the face step of [verifyFace] on a
    record that exists -- an error thrown by the step service, or the
    error the orchestrator raises on a negative step result -- is the error
    the operation throws, unchanged; before that the orchestrator saved the
    record with status [FAILED] and with the message of that error as
    failure reason, as its last action, and the repository holds that
    record.  No other error is ever thrown by these operations. *)
Theorem failure_is_persisted_and_rethrown (svc : Services) (op : Operation)
    (w : World) (e : Exception) (rid : string) :
  Spec.recordOf op w = Some rid ->
  Spec.raisedInStep svc op e ->
  fst (perform svc op w) = Throw e /\
  (forall e', fst (perform svc op w) = Throw e' -> Spec.raisedInStep svc op e') /\
  exists v,
    store (snd (perform svc op w)) !! rid = Some v /\
    Verification.id v = rid /\
    Verification.status v = FAILED /\
    Verification.failureReason v = Some (message e) /\
    exists before,
      events (snd (perform svc op w)) = (before ++ [EvSave v])%list.
Proof.
  intros R H.
  pose proof (raised_error_is_thrown svc op w e rid R H) as T.
  split; [exact T|]. split.
  - intros e' T'.
    now apply (thrown_error_was_raised_and_persisted svc op w e' rid R T').
  - now apply (thrown_error_was_raised_and_persisted svc op w e rid R T).
Qed.

(** C2, on the data of the tests: the analyzer finds no document, the
    record "0" is saved as failed with the message that is thrown. *)
Lemma failure_is_persisted_and_rethrown_witness :
  let svc := realServices (Fixtures.env None Fixtures.highLivenessFace []) in
  let op := StartVerification "user123" PASSPORT "document" in
  let e := newBadRequestException "Failed to analyze document" in
  fst (perform svc op emptyWorld) = Throw e /\
  (forall e', fst (perform svc op emptyWorld) = Throw e' ->
              Spec.raisedInStep svc op e') /\
  exists v,
    store (snd (perform svc op emptyWorld)) !! "0" = Some v /\
    Verification.id v = "0" /\
    Verification.status v = FAILED /\
    Verification.failureReason v = Some (message e) /\
    exists before,
      events (snd (perform svc op emptyWorld)) = (before ++ [EvSave v])%list.
Proof.
  cbv zeta.
  apply (failure_is_persisted_and_rethrown
           (realServices (Fixtures.env None Fixtures.highLivenessFace []))
           (StartVerification "user123" PASSPORT "document") emptyWorld
           (newBadRequestException "Failed to analyze document") "0").
  - vm_compute. reflexivity.
  - vm_compute. reflexivity.
Defined.

(** C9: when the liveness check answers "not live", [verifyFace] throws
    "Liveness check failed", the repository holds the record with status
    [FAILED] and that reason, and the execution consisted of the lookup,
    the liveness call and two saves of that record: the face comparison is
    not among them. *)
Theorem not_live_fails_without_comparison (svc : Services) (i : string)
    (selfie : Buffer) (w : World) (v : Verification.t)
    (lr : FaceVerificationService.LivenessResult) :
  store w !! i = Some v ->
  svc_detectLiveness svc selfie = Return lr ->
  FaceVerificationService.isLive lr = false ->
  let failed :=
    Verification.set_failureReason "Liveness check failed"
      (Verification.set_status FAILED v) in
  let done := [EvFindOne i; EvDetectLiveness selfie; EvSave failed; EvSave failed] in
  fst (verifyFace svc i selfie w)
  = Throw (newBadRequestException "Liveness check failed") /\
  store (snd (verifyFace svc i selfie w))
  = <[Verification.id v := failed]> (store w) /\
  store (snd (verifyFace svc i selfie w)) !! Verification.id v = Some failed /\
  Verification.status failed = FAILED /\
  Verification.failureReason failed = Some "Liveness check failed" /\
  events (snd (verifyFace svc i selfie w)) = (events w ++ done)%list /\
  forall d s, ~ In (EvVerifyFaceMatch d s) done.
Proof.
  intros F D L. cbv zeta.
  rewrite (verifyFace_not_live _ _ _ _ _ _ F D L). cbv zeta.
  cbn [fst snd]. split; [reflexivity|]. split; [|split].
  - simpl. apply insert_insert_eq.
  - simpl. apply lookup_insert_eq.
  - split; [reflexivity|]. split; [reflexivity|]. split.
    + simpl. rewrite <- !app_assoc. reflexivity.
    + intros d s [H|[H|[H|[H|[]]]]]; discriminate.
Qed.

(** C9, on the low liveness face of the tests. *)
Lemma not_live_fails_without_comparison_witness :
  let svc := realServices
               (Fixtures.env None Fixtures.lowLivenessFace [95.5%float]) in
  let w := Fixtures.worldWith Fixtures.inProgressRecord in
  let failed :=
    Verification.set_failureReason "Liveness check failed"
      (Verification.set_status FAILED Fixtures.inProgressRecord) in
  let done := [EvFindOne "verification123"; EvDetectLiveness "selfie";
               EvSave failed; EvSave failed] in
  fst (verifyFace svc "verification123" "selfie" w)
  = Throw (newBadRequestException "Liveness check failed") /\
  store (snd (verifyFace svc "verification123" "selfie" w))
  = <["verification123" := failed]> (store w) /\
  store (snd (verifyFace svc "verification123" "selfie" w)) !! "verification123"
  = Some failed /\
  Verification.status failed = FAILED /\
  Verification.failureReason failed = Some "Liveness check failed" /\
  events (snd (verifyFace svc "verification123" "selfie" w)) = (events w ++ done)%list /\
  forall d s, ~ In (EvVerifyFaceMatch d s) done.
Proof.
  cbv zeta.
  apply (not_live_fails_without_comparison
           (realServices (Fixtures.env None Fixtures.lowLivenessFace [95.5%float]))
           "verification123" "selfie"
           (Fixtures.worldWith Fixtures.inProgressRecord)
           Fixtures.inProgressRecord
           (FaceVerificationService.mkLivenessResult false
              (FaceVerificationService.calculateLivenessScore Fixtures.lowLivenessFace)
              (FaceVerificationService.livenessDetails Fixtures.lowLivenessFace))).
  - vm_compute. reflexivity.
  - vm_compute. reflexivity.
  - reflexivity.
Defined.

End Failures.

(** ** Lookups by id *)

Section Lookups.

Import VerificationService.

Lemma lookup_save (x : Verification.t) (w : World) (k : string) :
  store (save x w) !! k =
  if decide (Verification.id x = k) then Some x else store w !! k.
Proof. simpl. apply lookup_insert. Qed.

Lemma generatedId_unused (w : World) : store w !! generatedId w = None.
Proof.
  unfold generatedId. apply not_elem_of_dom. apply is_fresh.
Qed.

Lemma generatedId_differs (w : World) (k : string) (v : Verification.t) :
  store w !! k = Some v -> generatedId w <> k.
Proof. intros H E. rewrite <- E, generatedId_unused in H. discriminate. Qed.

(** C8 (as amended): for an id that the repository does not hold,
    [verifyFace] throws a [BadRequestException] with the message
    "Verification not found" -- the class every validation failure is
    thrown with, not a separate not-found class -- and changes no record;
    [getVerificationStatus] fails for such an id too, with an error that
    carries the same message.  [getVerificationStatus] on an id that is
    held returns the stored record as it is, and in no case changes the
    repository: it only looks the record up. *)
Theorem unknown_id_is_bad_request (svc : Services) (i : string)
    (selfie : Buffer) (w : World) :
  (store w !! i = None ->
   fst (verifyFace svc i selfie w)
   = Throw (mkException BadRequestException "Verification not found") /\
   store (snd (verifyFace svc i selfie w)) = store w /\
   exists e, fst (getVerificationStatus i w) = Throw e /\
             message e = "Verification not found") /\
  (forall v, store w !! i = Some v ->
             fst (getVerificationStatus i w) = Return v) /\
  store (snd (getVerificationStatus i w)) = store w /\
  events (snd (getVerificationStatus i w)) = (events w ++ [EvFindOne i])%list.
Proof.
  unfold getVerificationStatus. split; [|split; [|split]].
  - intros H. rewrite (verifyFace_absent svc i selfie w H), H.
    split; [reflexivity|]. split; [reflexivity|]. eexists. split; reflexivity.
  - intros v H. now rewrite H.
  - destruct (store w !! i); reflexivity.
  - destruct (store w !! i); reflexivity.
Qed.

(** C8, counterexample: the error of [verifyFace] for an unknown id and
    its error for a failed liveness check are of one and the same class. *)
Lemma unknown_id_error_has_the_validation_class :
  let svc := realServices
               (Fixtures.env None Fixtures.lowLivenessFace [95.5%float]) in
  let w := Fixtures.worldWith Fixtures.inProgressRecord in
  exists notFound rejected,
    store w !! "unknown" = None /\
    fst (verifyFace svc "unknown" "selfie" w) = Throw notFound /\
    fst (verifyFace svc "verification123" "selfie" w) = Throw rejected /\
    message rejected = "Liveness check failed" /\
    exn_class notFound = exn_class rejected.
Proof.
  cbv zeta.
  exists (mkException BadRequestException "Verification not found"),
         (mkException BadRequestException "Liveness check failed").
  repeat split; vm_compute; reflexivity.
Qed.

End Lookups.

(** ** Status *)

Section Status.

Import VerificationService.

Lemma keeps_refl (k : string) (w : World) : keeps k w w.
Proof.
  split; [auto|]. exists []. split; [now rewrite app_nil_r | intros s []].
Qed.

Lemma keeps_trans (k : string) (w1 w2 w3 : World) :
  keeps k w1 w2 -> keeps k w2 w3 -> keeps k w1 w3.
Proof.
  intros [S1 (n1 & E1 & T1)] [S2 (n2 & E2 & T2)]. split; [auto|].
  exists (n1 ++ n2)%list. split.
  - now rewrite E2, E1, app_assoc.
  - intros s Hs. apply in_app_or in Hs as [Hs|Hs]; eauto.
Qed.

Lemma keeps_event (k : string) (ev : Event) (w : World) :
  (forall s, ev <> EvSave s) -> keeps k w (record_event ev w).
Proof.
  intros N. split; [auto|]. exists [ev]. split; [reflexivity|].
  intros s [H|[]]. destruct (N s H).
Qed.

Lemma keeps_save (k : string) (x : Verification.t) (w : World) :
  (Verification.id x = k -> Spec.terminal (Verification.status x)) ->
  keeps k w (save x w).
Proof.
  intros T. split.
  - intros (v & Hv & Tv). rewrite lookup_save. case_decide; eauto.
  - exists [EvSave x]. split; [reflexivity|].
    intros s [[= <-]|[]]. exact T.
Qed.

Lemma terminal_FAILED : Spec.terminal FAILED.
Proof. now right. Qed.

Lemma terminal_COMPLETED : Spec.terminal COMPLETED.
Proof. now left. Qed.

Ltac keeps_steps :=
  repeat first
    [ apply keeps_refl
    | eapply keeps_trans;
      [| first [ apply keeps_save; intros _; first [apply terminal_FAILED | apply terminal_COMPLETED]
               | apply keeps_event; discriminate ] ] ].

Lemma perform_keeps (svc : Services) (op : Operation) (w : World) (k : string)
    (v : Verification.t) :
  store w !! k = Some v -> keeps k w (snd (perform svc op w)).
Proof.
  intros Hk. destruct op as [u t b | i b | i]; simpl.
  - assert (keeps k w (save (create (generatedId w) u t IN_PROGRESS) w)) as K0.
    { apply keeps_save. simpl. intros E.
      destruct (generatedId_differs _ _ _ Hk E). }
    destruct (svc_verifyDocument svc t b) as [dr|e0] eqn:D.
    + destruct (DocumentVerificationService.dr_isValid dr) eqn:V.
      * rewrite (startVerification_step_valid _ _ _ _ _ _ D V). cbn [snd].
        eapply keeps_trans; [|apply keeps_save; simpl; intros E;
          destruct (generatedId_differs _ _ _ Hk E)].
        eapply keeps_trans; [exact K0 | apply keeps_event; discriminate].
      * rewrite (startVerification_step_invalid _ _ _ _ _ _ D V). cbn [snd].
        eapply keeps_trans; [|apply keeps_save; intros _; apply terminal_FAILED].
        eapply keeps_trans; [|apply keeps_save; intros _; apply terminal_FAILED].
        eapply keeps_trans; [exact K0 | apply keeps_event; discriminate].
    + rewrite (startVerification_step_throws _ _ _ _ _ _ D). cbn [snd].
      eapply keeps_trans; [|apply keeps_save; intros _; apply terminal_FAILED].
      eapply keeps_trans; [exact K0 | apply keeps_event; discriminate].
  - destruct (store w !! i) as [found|] eqn:F.
    + destruct (svc_detectLiveness svc b) as [lr|e0] eqn:D.
      * destruct (FaceVerificationService.isLive lr) eqn:L.
        -- destruct (svc_verifyFaceMatch svc "" b) as [fm|e0] eqn:X.
           ++ destruct (FaceVerificationService.isMatch fm) eqn:N.
              ** rewrite (verifyFace_match _ _ _ _ _ _ _ F D L X N).
                 cbn [snd]. keeps_steps.
              ** rewrite (verifyFace_no_match _ _ _ _ _ _ _ F D L X N).
                 cbn [snd]. keeps_steps.
           ++ rewrite (verifyFace_match_throws _ _ _ _ _ _ _ F D L X).
              cbn [snd]. keeps_steps.
        -- rewrite (verifyFace_not_live _ _ _ _ _ _ F D L).
           cbn [snd]. keeps_steps.
      * rewrite (verifyFace_liveness_throws _ _ _ _ _ _ F D).
        cbn [snd]. keeps_steps.
    + rewrite (verifyFace_absent _ _ _ _ F). cbn [snd]. keeps_steps.
  - unfold getVerificationStatus.
    destruct (store w !! i); cbn [snd]; keeps_steps.
Qed.

End Status.

Section StatusTheorems.

Import VerificationService.

Lemma performAll_keeps (ops : list (Services * Operation)) (w : World)
    (k : string) (v : Verification.t) :
  store w !! k = Some v -> Spec.terminal (Verification.status v) ->
  keeps k w (performAll ops w).
Proof.
  revert w v. induction ops as [|[svc op] rest IH]; intros w v Hk T; simpl.
  - apply keeps_refl.
  - pose proof (perform_keeps svc op w k v Hk) as K.
    destruct (proj1 K) as (v1 & Hk1 & T1); [eauto|].
    eapply keeps_trans; [exact K | exact (IH _ _ Hk1 T1)].
Qed.

Lemma terminal_not_open (s : VerificationStatus) :
  Spec.terminal s -> s <> PENDING /\ s <> IN_PROGRESS.
Proof. intros [-> | ->]; split; discriminate. Qed.

(** C1 (as amended): once a record is [COMPLETED] or [FAILED], after any
    sequence of [startVerification], [verifyFace] and
    [getVerificationStatus] it is still held and still [COMPLETED] or
    [FAILED], never [PENDING] or [IN_PROGRESS], and it was never saved in
    between with a status other than those two.  (Its status may change
    between the two: [verifyFace] does not look at the status.) *)
Theorem terminal_status_is_kept (ops : list (Services * Operation)) (w : World)
    (k : string) (v : Verification.t) :
  store w !! k = Some v ->
  Spec.terminal (Verification.status v) ->
  exists v',
    store (performAll ops w) !! k = Some v' /\
    Spec.terminal (Verification.status v') /\
    Verification.status v' <> PENDING /\
    Verification.status v' <> IN_PROGRESS /\
    exists new,
      events (performAll ops w) = (events w ++ new)%list /\
      forall s, In (EvSave s) new -> Verification.id s = k ->
                Verification.status s <> PENDING /\
                Verification.status s <> IN_PROGRESS.
Proof.
  intros Hk T.
  destruct (performAll_keeps ops w k v Hk T) as [S (new & E & N)].
  destruct S as (v' & Hv' & T'); [eauto|].
  exists v'. split; [exact Hv'|]. split; [exact T'|].
  destruct (terminal_not_open _ T') as [P I]. split; [exact P|]. split; [exact I|].
  exists new. split; [exact E|].
  intros s Hs Hid. apply terminal_not_open. eauto.
Qed.

(** C1, on a failed record that goes through all three operations. *)
Lemma terminal_status_is_kept_witness :
  let good := realServices
                (Fixtures.env (Some Fixtures.validPassport)
                   Fixtures.highLivenessFace [95.5%float]) in
  let bad := realServices
               (Fixtures.env None Fixtures.lowLivenessFace []) in
  let ops := [ (bad, VerifyFace "0" "selfie");
               (good, StartVerification "user456" PASSPORT "document");
               (good, GetVerificationStatus "0");
               (good, VerifyFace "0" "selfie") ] in
  let w := Fixtures.worldWith Fixtures.failedRecord in
  exists v',
    store (performAll ops w) !! "0" = Some v' /\
    Spec.terminal (Verification.status v') /\
    Verification.status v' <> PENDING /\
    Verification.status v' <> IN_PROGRESS /\
    exists new,
      events (performAll ops w) = (events w ++ new)%list /\
      forall s, In (EvSave s) new -> Verification.id s = "0" ->
                Verification.status s <> PENDING /\
                Verification.status s <> IN_PROGRESS.
Proof.
  cbv zeta.
  apply (terminal_status_is_kept _ (Fixtures.worldWith Fixtures.failedRecord)
           "0" Fixtures.failedRecord).
  - vm_compute. reflexivity.
  - right. reflexivity.
Defined.

(** C1, counterexample: a record that failed in the document step is
    completed by a later [verifyFace], and a completed record is failed by
    yet another one: [verifyFace] changes the status of records that are
    already failed or completed.  First with the services of the source
    over analyzers that see no document and a good face, then with the
    mocked services of the orchestrator tests. *)
Lemma verifyFace_changes_a_terminal_status :
  let noDocument := realServices
                      (Fixtures.env None Fixtures.highLivenessFace [95.5%float]) in
  let notLive := realServices
                   (Fixtures.env None Fixtures.lowLivenessFace [95.5%float]) in
  let w1 := snd (startVerification noDocument "user123" PASSPORT "document"
                   emptyWorld) in
  let w2 := snd (verifyFace noDocument "0" "selfie" w1) in
  let w3 := snd (verifyFace notLive "0" "selfie" w2) in
  let mocks := Fixtures.mockServices Fixtures.mockInvalidDocument
                 Fixtures.mockLive Fixtures.mockMatch in
  let m1 := snd (startVerification mocks "user123" PASSPORT "test" emptyWorld) in
  let m2 := snd (verifyFace mocks "0" "test" m1) in
  (Verification.status <$> store w1 !! "0") = Some FAILED /\
  (Verification.status <$> store w2 !! "0") = Some COMPLETED /\
  (Verification.status <$> store w3 !! "0") = Some FAILED /\
  (Verification.status <$> store m1 !! "0") = Some FAILED /\
  (Verification.status <$> store m2 !! "0") = Some COMPLETED.
Proof. cbv zeta. repeat split; vm_compute; reflexivity. Qed.

End StatusTheorems.

(** ** The face match result *)

Section FaceMatchResult.

Import VerificationService.

Lemma storedFaceMatch_lookup (w : World) (k : string) (v : Verification.t) :
  store w !! k = Some v ->
  Spec.storedFaceMatch w k = Verification.faceMatchResult v.
Proof. unfold Spec.storedFaceMatch. now intros ->. Qed.

Lemma storedFaceMatch_generated (w : World) :
  Spec.storedFaceMatch w (generatedId w) = None.
Proof. unfold Spec.storedFaceMatch. now rewrite generatedId_unused. Qed.

(** After saves of [x1] and then [x2] under one id, a record whose face
    match result differs from the stored one is [x2], and [x2] carries a
    new result. *)
Lemma changed_after_saves (x1 x2 : Verification.t) (w : World) (k : string)
    (v' : Verification.t) :
  Verification.id x1 = Verification.id x2 ->
  <[Verification.id x2 := x2]> (<[Verification.id x1 := x1]> (store w)) !! k
  = Some v' ->
  Verification.faceMatchResult v' <> Spec.storedFaceMatch w k ->
  k = Verification.id x2 /\ v' = x2.
Proof.
  intros E H N. rewrite E, insert_insert_eq, lookup_insert in H.
  case_decide as C.
  - now injection H as <-.
  - destruct N. symmetry. now apply storedFaceMatch_lookup.
Qed.

Lemma changed_after_save (x : Verification.t) (w : World) (k : string)
    (v' : Verification.t) :
  <[Verification.id x := x]> (store w) !! k = Some v' ->
  Verification.faceMatchResult v' <> Spec.storedFaceMatch w k ->
  k = Verification.id x /\ v' = x.
Proof.
  intros H N. rewrite lookup_insert in H. case_decide as C.
  - now injection H as <-.
  - destruct N. symmetry. now apply storedFaceMatch_lookup.
Qed.

(** C3 (as amended): when an operation leaves a record with a face match
    result other than the one it had before (none, for a new record), the
    operation was [verifyFace] on that record, the liveness check answered
    "live", the face comparison returned a result, and that result is the
    one stored.  Nothing else is required: neither [documentData] nor the
    status of the record is consulted. *)
Theorem faceMatchResult_written_by_face_step (svc : Services) (op : Operation)
    (w : World) (k : string) (v' : Verification.t) :
  Spec.storeWellKeyed w ->
  store (snd (perform svc op w)) !! k = Some v' ->
  Verification.faceMatchResult v' <> Spec.storedFaceMatch w k ->
  exists selfie found lr fm,
    op = VerifyFace k selfie /\
    store w !! k = Some found /\
    svc_detectLiveness svc selfie = Return lr /\
    FaceVerificationService.isLive lr = true /\
    svc_verifyFaceMatch svc "" selfie = Return fm /\
    Verification.faceMatchResult v' = Some fm.
Proof.
  intros WF H N. destruct op as [u t b | i b | i]; simpl in H.
  - exfalso.
    destruct (svc_verifyDocument svc t b) as [dr|e0] eqn:D.
    + destruct (DocumentVerificationService.dr_isValid dr) eqn:V.
      * rewrite (startVerification_step_valid _ _ _ _ _ _ D V) in H.
        simpl in H.
        apply (changed_after_saves
                 (create (generatedId w) u t IN_PROGRESS)
                 (withDocument dr (create (generatedId w) u t IN_PROGRESS)))
          in H as [-> ->]; [|reflexivity|exact N].
        apply N. simpl. now rewrite storedFaceMatch_generated.
      * rewrite (startVerification_step_invalid _ _ _ _ _ _ D V) in H.
        simpl in H. rewrite insert_insert_eq in H.
        apply (changed_after_saves
                 (create (generatedId w) u t IN_PROGRESS)
                 (markFailed "Document verification failed"
                    (withDocument dr (create (generatedId w) u t IN_PROGRESS))))
          in H as [-> ->]; [|reflexivity|exact N].
        apply N. simpl. now rewrite storedFaceMatch_generated.
    + rewrite (startVerification_step_throws _ _ _ _ _ _ D) in H.
      simpl in H.
      apply (changed_after_saves
               (create (generatedId w) u t IN_PROGRESS)
               (markFailed (message e0) (create (generatedId w) u t IN_PROGRESS)))
        in H as [-> ->]; [|reflexivity|exact N].
      apply N. simpl. now rewrite storedFaceMatch_generated.
  - destruct (store w !! i) as [found|] eqn:F.
    + assert (Verification.id found = i) as Hid by exact (WF i found F).
      destruct (svc_detectLiveness svc b) as [lr|e0] eqn:D.
      * destruct (FaceVerificationService.isLive lr) eqn:L.
        -- destruct (svc_verifyFaceMatch svc "" b) as [fm|e0] eqn:X.
           ++ destruct (FaceVerificationService.isMatch fm) eqn:M.
              ** rewrite (verifyFace_match _ _ _ _ _ _ _ F D L X M) in H.
                 simpl in H.
                 apply (changed_after_save
                          (Verification.set_status COMPLETED
                             (Verification.set_faceMatchResult fm found)))
                   in H as [-> ->]; [|exact N].
                 simpl in *. subst i. exists b, found, lr, fm. auto 10.
              ** rewrite (verifyFace_no_match _ _ _ _ _ _ _ F D L X M) in H.
                 simpl in H. rewrite insert_insert_eq in H.
                 apply (changed_after_save
                          (markFailed "Face match failed"
                             (Verification.set_faceMatchResult fm found)))
                   in H as [-> ->]; [|exact N].
                 simpl in *. subst i. exists b, found, lr, fm. auto 10.
           ++ exfalso.
              rewrite (verifyFace_match_throws _ _ _ _ _ _ _ F D L X) in H.
              simpl in H.
              apply (changed_after_save (markFailed (message e0) found))
                in H as [-> ->]; [|exact N].
              apply N. simpl. subst i. symmetry.
              now apply storedFaceMatch_lookup.
        -- exfalso.
           rewrite (verifyFace_not_live _ _ _ _ _ _ F D L) in H.
           simpl in H. rewrite insert_insert_eq in H.
           apply (changed_after_save (markFailed "Liveness check failed" found))
             in H as [-> ->]; [|exact N].
           apply N. simpl. subst i. symmetry.
           now apply storedFaceMatch_lookup.
      * exfalso.
        rewrite (verifyFace_liveness_throws _ _ _ _ _ _ F D) in H.
        simpl in H.
        apply (changed_after_save (markFailed (message e0) found))
          in H as [-> ->]; [|exact N].
        apply N. simpl. subst i. symmetry.
        now apply storedFaceMatch_lookup.
    + exfalso. rewrite (verifyFace_absent _ _ _ _ F) in H. simpl in H.
      apply N. symmetry. now apply storedFaceMatch_lookup.
  - exfalso. unfold getVerificationStatus in H.
    destruct (store w !! i); simpl in H;
      apply N; symmetry; now apply storedFaceMatch_lookup.
Qed.

End FaceMatchResult.

Section FaceMatchResultExamples.

Import VerificationService.

Lemma emptyWorld_well_keyed : Spec.storeWellKeyed emptyWorld.
Proof. apply map_Forall_empty. Qed.

Lemma save_well_keyed (x : Verification.t) (w : World) :
  Spec.storeWellKeyed w -> Spec.storeWellKeyed (save x w).
Proof.
  unfold Spec.storeWellKeyed. simpl. intros WF.
  apply map_Forall_insert_2; [reflexivity | exact WF].
Qed.

(** The operations keep every record under its own id. *)
Lemma perform_well_keyed (svc : Services) (op : Operation) (w : World) :
  Spec.storeWellKeyed w -> Spec.storeWellKeyed (snd (perform svc op w)).
Proof.
  intros WF. destruct op as [u t b | i b | i]; simpl.
  - destruct (svc_verifyDocument svc t b) as [dr|e0] eqn:D.
    + destruct (DocumentVerificationService.dr_isValid dr) eqn:V.
      * rewrite (startVerification_step_valid _ _ _ _ _ _ D V).
        repeat apply save_well_keyed. exact WF.
      * rewrite (startVerification_step_invalid _ _ _ _ _ _ D V).
        repeat apply save_well_keyed. exact WF.
    + rewrite (startVerification_step_throws _ _ _ _ _ _ D).
      repeat apply save_well_keyed. exact WF.
  - destruct (store w !! i) as [found|] eqn:F.
    + destruct (svc_detectLiveness svc b) as [lr|e0] eqn:D.
      * destruct (FaceVerificationService.isLive lr) eqn:L.
        -- destruct (svc_verifyFaceMatch svc "" b) as [fm|e0] eqn:X.
           ++ destruct (FaceVerificationService.isMatch fm) eqn:M.
              ** rewrite (verifyFace_match _ _ _ _ _ _ _ F D L X M).
                 repeat apply save_well_keyed. exact WF.
              ** rewrite (verifyFace_no_match _ _ _ _ _ _ _ F D L X M).
                 repeat apply save_well_keyed. exact WF.
           ++ rewrite (verifyFace_match_throws _ _ _ _ _ _ _ F D L X).
              repeat apply save_well_keyed. exact WF.
        -- rewrite (verifyFace_not_live _ _ _ _ _ _ F D L).
           repeat apply save_well_keyed. exact WF.
      * rewrite (verifyFace_liveness_throws _ _ _ _ _ _ F D).
        repeat apply save_well_keyed. exact WF.
    + rewrite (verifyFace_absent _ _ _ _ F). exact WF.
  - unfold getVerificationStatus. destruct (store w !! i); exact WF.
Qed.

(** C3, on a failed record that is then verified with a matching face. *)
Lemma faceMatchResult_written_by_face_step_witness :
  let svc := realServices
               (Fixtures.env None Fixtures.highLivenessFace [95.5%float]) in
  exists selfie found lr fm,
    VerifyFace "0" "selfie" = VerifyFace "0" selfie /\
    store (Fixtures.worldWith Fixtures.failedRecord) !! "0" = Some found /\
    svc_detectLiveness svc selfie = Return lr /\
    FaceVerificationService.isLive lr = true /\
    svc_verifyFaceMatch svc "" selfie = Return fm /\
    Verification.faceMatchResult
      (Verification.set_status COMPLETED
         (Verification.set_faceMatchResult
            (FaceVerificationService.mkFaceMatchResult true 95.5%float
               (FaceVerificationService.BestMatchDetails None None None None))
            Fixtures.failedRecord))
    = Some fm.
Proof.
  cbv zeta.
  apply (faceMatchResult_written_by_face_step
           (realServices (Fixtures.env None Fixtures.highLivenessFace [95.5%float]))
           (VerifyFace "0" "selfie")
           (Fixtures.worldWith Fixtures.failedRecord) "0").
  - apply map_Forall_singleton. reflexivity.
  - vm_compute. reflexivity.
  - vm_compute. discriminate.
Defined.

(** C3, counterexample: the document step fails, so [documentData] stays
    empty and the record is [FAILED]; [verifyFace] on that record still
    stores a face match result.  First with the services of the source,
    then with the mocked services of the orchestrator tests, where the
    document step reports an invalid document. *)
Lemma face_result_stored_without_document_data :
  let svc := realServices
               (Fixtures.env None Fixtures.highLivenessFace [95.5%float]) in
  let w1 := snd (startVerification svc "user123" PASSPORT "document"
                   emptyWorld) in
  let w2 := snd (verifyFace svc "0" "selfie" w1) in
  (exists v1, store w1 !! "0" = Some v1 /\
              Verification.status v1 = FAILED /\
              Verification.failureReason v1 = Some "Failed to analyze document" /\
              Verification.documentData v1 = None /\
              Verification.faceMatchResult v1 = None) /\
  (exists v2 fm, store w2 !! "0" = Some v2 /\
                 Verification.documentData v2 = None /\
                 Verification.faceMatchResult v2 = Some fm) /\
  let mocks := Fixtures.mockServices Fixtures.mockInvalidDocument
                 Fixtures.mockLive Fixtures.mockMatch in
  let m1 := snd (startVerification mocks "user123" PASSPORT "test" emptyWorld) in
  let m2 := snd (verifyFace mocks "0" "test" m1) in
  (exists v1, store m1 !! "0" = Some v1 /\
              Verification.status v1 = FAILED /\
              Verification.failureReason v1 = Some "Document verification failed" /\
              Verification.faceMatchResult v1 = None) /\
  (exists v2 fm, store m2 !! "0" = Some v2 /\
                 Verification.faceMatchResult v2 = Some fm).
Proof.
  cbv zeta. split; [|split; [|split]].
  - eexists. split; [vm_compute; reflexivity|]. repeat split.
  - eexists. eexists. split; [vm_compute; reflexivity|]. split; reflexivity.
  - eexists. split; [vm_compute; reflexivity|]. repeat split.
  - eexists. eexists. split; [vm_compute; reflexivity|]. reflexivity.
Qed.

End FaceMatchResultExamples.

(** ** Liveness *)

Section Liveness.

Import FaceVerificationService.

Lemma add_number_fold (o : option float) (s : float) (n : nat) :
  add_number o (s, n) =
  (fold_left (fun a x => (a + x)%float) (Spec.numberSignal o) s,
   n + List.length (Spec.numberSignal o)).
Proof.
  unfold add_number, add_factor, Spec.numberSignal.
  destruct o as [x|]; [destruct (JS.truthy x)|]; simpl; f_equal; lia.
Qed.

Lemma add_factor_fold (b : bool) (s : float) (n : nat) :
  add_factor b 100%float (s, n) =
  (fold_left (fun a x => (a + x)%float) (Spec.conditionSignal b) s,
   n + List.length (Spec.conditionSignal b)).
Proof.
  unfold add_factor, Spec.conditionSignal. destruct b; simpl; f_equal; lia.
Qed.

Lemma calculateLivenessScore_mean (face : FaceDetail) :
  calculateLivenessScore face = Spec.mean (Spec.livenessSignals face).
Proof.
  unfold calculateLivenessScore, Spec.livenessSignals. cbv zeta.
  rewrite !add_number_fold, !add_factor_fold, <- !fold_left_app.
  rewrite <- !Nat.add_assoc, <- !length_app, Nat.add_0_l.
  rewrite <- ?app_assoc.
  set (signals := (_ ++ _)%list).
  destruct signals; reflexivity.
Qed.

Lemma numberSignal_length (o : option float) :
  List.length (Spec.numberSignal o) <= 1.
Proof.
  unfold Spec.numberSignal. destruct o as [x|]; [destruct (JS.truthy x)|];
    simpl; lia.
Qed.

Lemma conditionSignal_length (b : bool) :
  List.length (Spec.conditionSignal b) <= 1.
Proof. destruct b; simpl; lia. Qed.

Lemma livenessSignals_length (face : FaceDetail) :
  List.length (Spec.livenessSignals face) <= 5.
Proof.
  unfold Spec.livenessSignals. rewrite !length_app.
  pose proof (numberSignal_length (attr_confidence (EyesOpen face))).
  pose proof (numberSignal_length (quality_brightness face)).
  pose proof (numberSignal_length (quality_sharpness face)).
  pose proof (conditionSignal_length (isPoseAcceptable face)).
  pose proof (conditionSignal_length (sunglasses_absent face)).
  lia.
Qed.

(** C6 (as amended): for a single detected face the liveness score is the
    arithmetic mean of the contributing signals, of which there are at most
    five: the eyes-open confidence, the brightness and the sharpness, each
    when present and not zero, 100 when the pose is acceptable, and 100
    when sunglasses are detected as absent; it is 0 when there is none; and
    [detectLiveness] answers with that score as confidence and with
    [isLive] true exactly when the score is at least 80. *)
Theorem liveness_score_is_mean_of_signals (env : Env) (selfie : Buffer)
    (face : FaceDetail) :
  rekognition_detectFaces env selfie [ALL]
  = Return (mkDetectFacesResponse (Some [face])) ->
  let score := calculateLivenessScore face in
  score = Spec.mean (Spec.livenessSignals face) /\
  List.length (Spec.livenessSignals face) <= 5 /\
  (Spec.livenessSignals face = [] -> score = 0%float) /\
  detectLiveness env selfie
  = Return (mkLivenessResult (PrimFloat.leb 80%float score) score
              (livenessDetails face)).
Proof.
  intros H. cbv zeta. split; [apply calculateLivenessScore_mean|].
  split; [apply livenessSignals_length|]. split.
  - intros E. now rewrite calculateLivenessScore_mean, E.
  - unfold detectLiveness. rewrite H. reflexivity.
Qed.

(** C6, on the high liveness face of the tests: five signals, mean 96.8. *)
Lemma liveness_score_is_mean_of_signals_witness :
  let env := Fixtures.env None Fixtures.highLivenessFace [] in
  let score := calculateLivenessScore Fixtures.highLivenessFace in
  score = Spec.mean (Spec.livenessSignals Fixtures.highLivenessFace) /\
  List.length (Spec.livenessSignals Fixtures.highLivenessFace) <= 5 /\
  (Spec.livenessSignals Fixtures.highLivenessFace = [] -> score = 0%float) /\
  detectLiveness env "selfie"
  = Return (mkLivenessResult (PrimFloat.leb 80%float score) score
              (livenessDetails Fixtures.highLivenessFace)).
Proof.
  cbv zeta.
  apply (liveness_score_is_mean_of_signals
           (Fixtures.env None Fixtures.highLivenessFace []) "selfie"
           Fixtures.highLivenessFace).
  reflexivity.
Defined.

(** C6, counterexample: the high liveness face of the tests has five
    contributing signals, 99, 95, 90, 100 and 100, and its score, 96.8, is
    their mean; no choice of at most four of them has this mean. *)
Lemma liveness_score_counts_five_signals :
  let signals := Spec.livenessSignals Fixtures.highLivenessFace in
  let score := calculateLivenessScore Fixtures.highLivenessFace in
  signals = [99%float; 95%float; 90%float; 100%float; 100%float] /\
  score = 96.8%float /\
  forall chosen, In chosen (Spec.selections signals) ->
                 List.length chosen <= 4 -> Spec.mean chosen <> score.
Proof.
  cbv zeta.
  assert (Spec.livenessSignals Fixtures.highLivenessFace
          = [99%float; 95%float; 90%float; 100%float; 100%float]) as E
    by (vm_compute; reflexivity).
  split; [exact E|]. split; [vm_compute; reflexivity|].
  rewrite E. intros chosen Hin Hlen.
  assert (forallb
            (fun c => Nat.ltb 4 (List.length c)
                      || negb (PrimFloat.eqb (Spec.mean c)
                                 (calculateLivenessScore Fixtures.highLivenessFace)))
            (Spec.selections
               [99%float; 95%float; 90%float; 100%float; 100%float]) = true) as A
    by (vm_compute; reflexivity).
  rewrite forallb_forall in A. specialize (A chosen Hin).
  apply orb_true_iff in A as [A|A].
  - apply Nat.ltb_lt in A. lia.
  - apply (float_apart
             (fun x => PrimFloat.eqb x
                         (calculateLivenessScore Fixtures.highLivenessFace))).
    rewrite (proj1 (negb_true_iff _) A). vm_compute. discriminate.
Qed.

(** C10: an eyes-open attribute with a confidence that is not zero
    contributes that confidence as the first liveness signal whatever its
    verdict is, open, closed or none: the score is the mean of that
    confidence and the other signals of the face, and it is the same score
    for every verdict. *)
Theorem eyes_open_verdict_is_ignored (face : FaceDetail)
    (verdict other : option bool) (c : float) :
  JS.truthy c = true ->
  let seen v := Spec.withEyesOpen (Some (mkBoolAttribute v (Some c))) face in
  let rest := Spec.livenessSignals (Spec.withEyesOpen None face) in
  Spec.livenessSignals (seen verdict) = c :: rest /\
  calculateLivenessScore (seen verdict) = Spec.mean (c :: rest) /\
  calculateLivenessScore (seen verdict) = calculateLivenessScore (seen other).
Proof.
  intros T. cbv zeta.
  assert (forall v,
            Spec.livenessSignals
              (Spec.withEyesOpen (Some (mkBoolAttribute v (Some c))) face)
            = c :: Spec.livenessSignals (Spec.withEyesOpen None face)) as S.
  { intros v. unfold Spec.livenessSignals. simpl. now rewrite T. }
  split; [apply S|].
  split; [now rewrite calculateLivenessScore_mean, S|].
  now rewrite !calculateLivenessScore_mean, !S.
Qed.

(** C10, on the high liveness face with the eyes detected as closed at
    confidence 99: the score is 96.8 as with open eyes, and the face is
    live. *)
Lemma eyes_open_verdict_is_ignored_witness :
  let seen v :=
    Spec.withEyesOpen (Some (mkBoolAttribute v (Some 99%float)))
      Fixtures.highLivenessFace in
  let rest :=
    Spec.livenessSignals (Spec.withEyesOpen None Fixtures.highLivenessFace) in
  Spec.livenessSignals (seen (Some false)) = 99%float :: rest /\
  calculateLivenessScore (seen (Some false)) = Spec.mean (99%float :: rest) /\
  calculateLivenessScore (seen (Some false))
  = calculateLivenessScore (seen (Some true)).
Proof.
  cbv zeta.
  apply (eyes_open_verdict_is_ignored Fixtures.highLivenessFace
           (Some false) (Some true) 99%float).
  reflexivity.
Defined.

(** Closed eyes at confidence 99 still give a live result. *)
Example closed_eyes_are_live :
  detectLiveness (Fixtures.env None Fixtures.closedEyesFace []) "selfie"
  = Return (mkLivenessResult true 96.8%float
              (livenessDetails Fixtures.closedEyesFace)).
Proof. vm_compute. reflexivity. Qed.

(** Quality, pose and the face count, on the data of the tests. *)
Example quality_and_pose_of_tests :
  let withQuality q :=
    mkFaceDetail None None None None None None q None in
  let withPose p :=
    mkFaceDetail None None None None None None None p in
  isQualityAcceptable
    (withQuality (Some (mkImageQuality (Some 90%float) (Some 85%float)))) = true /\
  isQualityAcceptable
    (withQuality (Some (mkImageQuality (Some 30%float) (Some 25%float)))) = false /\
  isQualityAcceptable (withQuality None) = false /\
  isPoseAcceptable
    (withPose (Some (mkPose (Some 5%float) (Some 3%float) (Some 10%float)))) = true /\
  isPoseAcceptable
    (withPose (Some (mkPose (Some 30%float) (Some 25%float) (Some 35%float)))) = false /\
  isPoseAcceptable (withPose None) = false /\
  calculateLivenessScore Fixtures.lowLivenessFace = (160 / 3)%float.
Proof. cbv zeta. repeat split; vm_compute; reflexivity. Qed.

Example liveness_needs_exactly_one_face :
  let answering faces :=
    mkEnv Fixtures.parseDate Fixtures.now
      (fun _ => Throw (mkException Error "not used"))
      (fun _ _ => Return (mkDetectFacesResponse (Some faces)))
      (fun _ _ _ => Throw (mkException Error "not used")) in
  detectLiveness (answering []) "selfie"
  = Throw (newBadRequestException "No face detected in the image") /\
  detectLiveness
    (answering [Fixtures.highLivenessFace; Fixtures.highLivenessFace]) "selfie"
  = Throw (newBadRequestException "Multiple faces detected in the image").
Proof. cbv zeta. split; reflexivity. Qed.

End Liveness.

(** ** Confidence score of the record *)

Section RecordConfidence.

Import DocumentVerificationService VerificationService.

(** C7 (as amended): when the document step succeeds on the first document
    of the analyzer response, the confidence score it returns, which
    [startVerification] stores in the record, is the arithmetic mean of the
    confidences of exactly those analyzer fields whose confidence is present
    and not zero -- whether or not the field has a name and a value and so
    is extracted into [documentData] -- and it is 0 when there is no such
    field. *)
Theorem confidence_score_is_mean_of_counted (env : Env) (t : DocumentType)
    (b : Buffer) (dr : DocumentResult) :
  verifyDocument env t b = Return dr ->
  exists response document rest,
    textract_analyzeID env b = Return response /\
    IdentityDocuments response = Some (document :: rest) /\
    extractedData dr = parseDocumentFields document /\
    confidenceScore dr = Spec.mean (Spec.countedConfidences document) /\
    (Spec.countedConfidences document = [] -> confidenceScore dr = 0%float) /\
    forall u w,
      exists v,
        startVerification (realServices env) u t b w
        = (Return v,
           save v (record_event (EvVerifyDocument t b)
                     (save (create (generatedId w) u t IN_PROGRESS) w))) /\
        Verification.confidenceScore v
        = Some (Spec.mean (Spec.countedConfidences document)) /\
        Verification.documentData v = Some (parseDocumentFields document).
Proof.
  intros H.
  destruct (verifyDocument_Return env t b dr H)
    as (response & document & rest & A & D & V & ->).
  exists response, document, rest. simpl.
  split; [exact A|]. split; [exact D|]. split; [reflexivity|].
  split; [apply calculateConfidenceScore_mean|]. split.
  - intros E. now rewrite calculateConfidenceScore_mean, E.
  - intros u w. eexists. split.
    + apply (startVerification_step_valid (realServices env) u t b w _ H).
      reflexivity.
    + simpl. now rewrite calculateConfidenceScore_mean.
Qed.

(** C7, on the valid passport of the tests with one unreadable field. *)
Lemma confidence_score_is_mean_of_counted_witness :
  let env := Fixtures.env (Some Fixtures.passportWithBlankField)
               Fixtures.highLivenessFace [] in
  let dr := mkDocumentResult true
              (parseDocumentFields Fixtures.passportWithBlankField)
              (calculateConfidenceScore Fixtures.passportWithBlankField) in
  exists response document rest,
    textract_analyzeID env "document" = Return response /\
    IdentityDocuments response = Some (document :: rest) /\
    extractedData dr = parseDocumentFields document /\
    confidenceScore dr = Spec.mean (Spec.countedConfidences document) /\
    (Spec.countedConfidences document = [] -> confidenceScore dr = 0%float) /\
    forall u w,
      exists v,
        startVerification (realServices env) u PASSPORT "document" w
        = (Return v,
           save v (record_event (EvVerifyDocument PASSPORT "document")
                     (save (create (generatedId w) u PASSPORT IN_PROGRESS) w))) /\
        Verification.confidenceScore v
        = Some (Spec.mean (Spec.countedConfidences document)) /\
        Verification.documentData v = Some (parseDocumentFields document).
Proof.
  cbv zeta.
  apply (confidence_score_is_mean_of_counted
           (Fixtures.env (Some Fixtures.passportWithBlankField)
              Fixtures.highLivenessFace [])
           PASSPORT "document").
  vm_compute. reflexivity.
Defined.

(** C7, counterexample: the analyzer reports the six fields of a valid
    passport and a middle name without text at confidence 10.  Six fields
    are extracted, with mean confidence 98.65; the score of the record is
    the mean over all seven. *)
Lemma confidence_score_counts_fields_not_extracted :
  let doc := Fixtures.passportWithBlankField in
  let env := Fixtures.env (Some doc) Fixtures.highLivenessFace [] in
  let extracted := [99.5%float; 99.2%float; 98.7%float; 97.9%float;
                    98.1%float; 98.5%float] in
  Spec.extractedConfidences doc = map Some extracted /\
  size (parseDocumentFields doc) = 6 /\
  calculateConfidenceScore doc <> Spec.mean extracted /\
  exists v,
    fst (startVerification (realServices env) "user123" PASSPORT "document"
           emptyWorld) = Return v /\
    Verification.confidenceScore v = Some (calculateConfidenceScore doc) /\
    Verification.confidenceScore v <> Some (Spec.mean extracted).
Proof.
  cbv zeta.
  assert (calculateConfidenceScore Fixtures.passportWithBlankField
          <> Spec.mean [99.5%float; 99.2%float; 98.7%float; 97.9%float;
                        98.1%float; 98.5%float]) as N.
  { apply (float_apart (fun x => PrimFloat.leb 90%float x)).
    vm_compute. discriminate. }
  split; [vm_compute; reflexivity|]. split; [vm_compute; reflexivity|].
  split; [exact N|].
  eexists. split; [vm_compute; reflexivity|]. split; [vm_compute; reflexivity|].
  intros E. vm_compute in E. discriminate E.
Qed.

(** The score of the tests' valid passport, and of a document without
    fields. *)
Example confidence_score_of_test_documents :
  calculateConfidenceScore Fixtures.validPassport
  = ((99.5 + 99.2 + 98.7 + 97.9 + 98.1 + 98.5) / 6)%float /\
  calculateConfidenceScore (Fixtures.document []) = 0%float /\
  calculateConfidenceScore (mkIdentityDocument None) = 0%float.
Proof. repeat split; vm_compute; reflexivity. Qed.

End RecordConfidence.

(** ** Face match *)

Section FaceMatch.

Import FaceVerificationService.

(** What [verifyFaceMatch] returns: when both quality checks pass and the
    comparison answers, it returns a result.  Without matches it is
    no match, confidence 0, reason "No matching faces found" and the number
    of unmatched faces.  Otherwise it is built from the first match of the
    list as the analyzer returned it: confidence is that match's similarity
    (0 if it has none), [isMatch] is true exactly when the confidence is at
    least 90, and the details are that match's bounding box, landmarks,
    quality and pose. *)
Theorem face_match_is_built_from_first_match (env : Env)
    (documentFace selfie : Buffer) (comparison : CompareFacesResponse) :
  isValid (detectFaceQuality env documentFace) = true ->
  isValid (detectFaceQuality env selfie) = true ->
  rekognition_compareFaces env documentFace selfie 90%float = Return comparison ->
  exists r,
    verifyFaceMatch env documentFace selfie = Return r /\
    (FaceMatches comparison = None \/ FaceMatches comparison = Some [] ->
     r = mkFaceMatchResult false 0%float
           (NoMatchDetails "No matching faces found"
              (List.length (default [] (UnmatchedFaces comparison))))) /\
    (forall first others,
        FaceMatches comparison = Some (first :: others) ->
        fm_confidence r = Spec.similarityOf first /\
        (forall s, Similarity first = Some s -> JS.truthy s = true ->
                   fm_confidence r = s) /\
        isMatch r = PrimFloat.leb 90%float (fm_confidence r) /\
        fm_details r =
          BestMatchDetails (Face first ≫= cf_BoundingBox)
                           (Face first ≫= cf_Landmarks)
                           (Face first ≫= cf_Quality)
                           (Face first ≫= cf_Pose)).
Proof.
  intros Q1 Q2 C. exists (matchResult comparison). split.
  - unfold verifyFaceMatch. cbv zeta. rewrite Q1, Q2. simpl.
    unfold SIMILARITY_THRESHOLD. now rewrite C.
  - unfold matchResult. split.
    + intros [E|E]; rewrite E; destruct (UnmatchedFaces comparison); reflexivity.
    + intros first others E. rewrite E. simpl. split; [reflexivity|].
      split.
      * intros s S T. unfold Spec.similarityOf, JS.or_zero. now rewrite S, T.
      * split; [reflexivity|]. destruct (Face first); reflexivity.
Qed.

(** The same on the matching faces of the tests (similarity 95.5). *)
Lemma face_match_is_built_from_first_match_witness :
  let env := Fixtures.env None Fixtures.highLivenessFace [95.5%float] in
  let comparison :=
    mkCompareFacesResponse (Some [Fixtures.faceMatch 95.5%float]) (Some []) in
  exists r,
    verifyFaceMatch env "document-face" "selfie" = Return r /\
    (FaceMatches comparison = None \/ FaceMatches comparison = Some [] ->
     r = mkFaceMatchResult false 0%float
           (NoMatchDetails "No matching faces found"
              (List.length (default [] (UnmatchedFaces comparison))))) /\
    (forall first others,
        FaceMatches comparison = Some (first :: others) ->
        fm_confidence r = Spec.similarityOf first /\
        (forall s, Similarity first = Some s -> JS.truthy s = true ->
                   fm_confidence r = s) /\
        isMatch r = PrimFloat.leb 90%float (fm_confidence r) /\
        fm_details r =
          BestMatchDetails (Face first ≫= cf_BoundingBox)
                           (Face first ≫= cf_Landmarks)
                           (Face first ≫= cf_Quality)
                           (Face first ≫= cf_Pose)).
Proof.
  cbv zeta.
  apply (face_match_is_built_from_first_match
           (Fixtures.env None Fixtures.highLivenessFace [95.5%float])
           "document-face" "selfie").
  - vm_compute. reflexivity.
  - vm_compute. reflexivity.
  - reflexivity.
Defined.


(** The similarity that a match counts for is a number, never [NaN]. *)
Lemma similarityOf_leb_refl (m : CompareFacesMatch) :
  PrimFloat.leb (Spec.similarityOf m) (Spec.similarityOf m) = true.
Proof.
  unfold Spec.similarityOf, JS.or_zero.
  destruct (Similarity m) as [x|]; [|reflexivity].
  destruct (JS.truthy x) eqn:T; [|reflexivity].
  unfold JS.truthy, PrimFloat.is_nan in T.
  apply andb_true_iff in T as [_ T]. rewrite negb_involutive in T.
  rewrite FloatAxioms.eqb_spec in T. rewrite FloatAxioms.leb_spec.
  unfold SpecFloat.SFeqb in T. unfold SpecFloat.SFleb.
  destruct (SpecFloat.SFcompare (FloatOps.Prim2SF x) (FloatOps.Prim2SF x))
    as [[]|]; first [reflexivity | discriminate].
Qed.

(** The first match is the highest one when the analyzer lists the matches
    by descending similarity: on such a response the result is built from
    the highest-similarity match.  [verifyFaceMatch] relies on that order;
    it neither checks nor establishes it. *)
Lemma first_match_is_highest_when_descending (env : Env)
    (documentFace selfie : Buffer) (comparison : CompareFacesResponse)
    (first : CompareFacesMatch) (others : list CompareFacesMatch) :
  isValid (detectFaceQuality env documentFace) = true ->
  isValid (detectFaceQuality env selfie) = true ->
  rekognition_compareFaces env documentFace selfie 90%float = Return comparison ->
  FaceMatches comparison = Some (first :: others) ->
  Forall (fun m => PrimFloat.leb (Spec.similarityOf m)
                     (Spec.similarityOf first) = true) others ->
  exists r,
    verifyFaceMatch env documentFace selfie = Return r /\
    fm_confidence r = Spec.similarityOf first /\
    Spec.builtFromHighest (first :: others) r.
Proof.
  intros Q1 Q2 C E D. exists (matchResult comparison). split.
  - unfold verifyFaceMatch. cbv zeta. rewrite Q1, Q2. simpl.
    unfold SIMILARITY_THRESHOLD. now rewrite C.
  - unfold matchResult. rewrite E. simpl. split; [reflexivity|].
    intros m [<-|Hm]; simpl.
    + apply similarityOf_leb_refl.
    + rewrite Forall_forall in D. now apply D.
Qed.

(** The three face match cases of the tests. *)
Example face_match_of_tests :
  verifyFaceMatch (Fixtures.env None Fixtures.highLivenessFace [95.5%float])
    "document-face" "selfie"
  = Return (mkFaceMatchResult true 95.5%float
              (BestMatchDetails None None None None)) /\
  verifyFaceMatch (Fixtures.env None Fixtures.highLivenessFace [85.0%float])
    "document-face" "selfie"
  = Return (mkFaceMatchResult false 85.0%float
              (BestMatchDetails None None None None)) /\
  verifyFaceMatch (Fixtures.env None Fixtures.highLivenessFace [])
    "document-face" "selfie"
  = Return (mkFaceMatchResult false 0%float
              (NoMatchDetails "No matching faces found" 0)).
Proof. repeat split; vm_compute; reflexivity. Qed.

End FaceMatch.

(** * Further properties *)

(** ** The repository under the operations *)

(** The paths of an operation, each with the world it ends in. *)
Ltac perform_paths svc op w :=
  let u := fresh "u" in let t := fresh "t" in let b := fresh "b" in
  let i := fresh "i" in let dr := fresh "dr" in let e0 := fresh "e0" in
  let found := fresh "found" in let lr := fresh "lr" in let fm := fresh "fm" in
  let D := fresh "D" in let V := fresh "V" in let F := fresh "F" in
  let L := fresh "L" in let X := fresh "X" in let N := fresh "N" in
  destruct op as [u t b | i b | i]; cbn [VerificationService.perform];
  [ destruct (svc_verifyDocument svc t b) as [dr|e0] eqn:D;
    [ destruct (DocumentVerificationService.dr_isValid dr) eqn:V;
      [ rewrite (startVerification_step_valid _ _ _ _ _ _ D V)
      | rewrite (startVerification_step_invalid _ _ _ _ _ _ D V) ]
    | rewrite (startVerification_step_throws _ _ _ _ _ _ D) ]
  | destruct (store w !! i) as [found|] eqn:F;
    [ destruct (svc_detectLiveness svc b) as [lr|e0] eqn:D;
      [ destruct (FaceVerificationService.isLive lr) eqn:L;
        [ destruct (svc_verifyFaceMatch svc "" b) as [fm|e0] eqn:X;
          [ destruct (FaceVerificationService.isMatch fm) eqn:N;
            [ rewrite (verifyFace_match _ _ _ _ _ _ _ F D L X N)
            | rewrite (verifyFace_no_match _ _ _ _ _ _ _ F D L X N) ]
          | rewrite (verifyFace_match_throws _ _ _ _ _ _ _ F D L X) ]
        | rewrite (verifyFace_not_live _ _ _ _ _ _ F D L) ]
      | rewrite (verifyFace_liveness_throws _ _ _ _ _ _ F D) ]
    | rewrite (verifyFace_absent _ _ _ _ F) ]
  | unfold VerificationService.getVerificationStatus;
    destruct (store w !! i) as [found|] eqn:F ];
  cbv zeta; cbn [fst snd].

Section RecordInvariants.

Import VerificationService.

Lemma save_consistent (x : Verification.t) (w : World) :
  Notions.consistent x -> Notions.allConsistent w -> Notions.allConsistent (save x w).
Proof. intros C A. unfold Notions.allConsistent. simpl. now apply map_Forall_insert_2. Qed.

Lemma record_event_consistent (ev : Event) (w : World) :
  Notions.allConsistent w -> Notions.allConsistent (record_event ev w).
Proof. easy. Qed.

Lemma consistent_failed (why : string) (v : Verification.t) :
  Notions.consistent (markFailed why v).
Proof.
  unfold Notions.consistent. simpl. repeat split; try discriminate. eauto.
Qed.

Lemma consistent_open (v : Verification.t) :
  Verification.status v = IN_PROGRESS ->
  Verification.failureReason v = None ->
  Verification.faceMatchResult v = None ->
  Notions.consistent v.
Proof.
  intros S R M. unfold Notions.consistent. rewrite S.
  repeat split; try discriminate; auto.
Qed.

Lemma consistent_completed (fm : FaceVerificationService.FaceMatchResult)
    (v : Verification.t) :
  FaceVerificationService.isMatch fm = true ->
  Notions.consistent
    (Verification.set_status COMPLETED (Verification.set_faceMatchResult fm v)).
Proof.
  intros M. unfold Notions.consistent. simpl.
  repeat split; try discriminate. eauto.
Qed.

Lemma perform_consistent (svc : Services) (op : Operation) (w : World) :
  Notions.allConsistent w -> Notions.allConsistent (snd (perform svc op w)).
Proof.
  intros A. perform_paths svc op w;
    repeat first
      [ assumption
      | apply record_event_consistent
      | apply save_consistent;
        [ first [ apply consistent_failed
                | apply consistent_completed; assumption
                | apply consistent_open; reflexivity ] | ] ].
Qed.

Lemma performAll_consistent (ops : list (Services * Operation)) (w : World) :
  Notions.allConsistent w -> Notions.allConsistent (performAll ops w).
Proof.
  revert w. induction ops as [|[svc op] rest IH]; intros w A; simpl; [exact A|].
  apply IH. now apply perform_consistent.
Qed.

Lemma performAll_well_keyed (ops : list (Services * Operation)) (w : World) :
  Spec.storeWellKeyed w -> Spec.storeWellKeyed (performAll ops w).
Proof.
  revert w. induction ops as [|[svc op] rest IH]; intros w A; simpl; [exact A|].
  apply IH. now apply perform_well_keyed.
Qed.

(** X1: in a repository that started empty, after any sequence of
    operations with any step services, no record is [PENDING], every
    [FAILED] record has a failure reason, and every [IN_PROGRESS] record
    has neither a failure reason nor a face match result; each record is
    filed under its own id. *)
Theorem status_agrees_with_columns (ops : list (Services * Operation))
    (k : string) (v : Verification.t) :
  store (performAll ops emptyWorld) !! k = Some v ->
  Verification.id v = k /\
  Verification.status v <> PENDING /\
  (Verification.status v = FAILED ->
   exists why, Verification.failureReason v = Some why) /\
  (Verification.status v = IN_PROGRESS ->
   Verification.failureReason v = None /\
   Verification.faceMatchResult v = None).
Proof.
  intros H.
  pose proof (performAll_well_keyed ops emptyWorld emptyWorld_well_keyed k v H) as K.
  assert (Notions.allConsistent emptyWorld) as E by apply map_Forall_empty.
  destruct (performAll_consistent ops emptyWorld E k v H) as (P & Fd & _ & O).
  auto.
Qed.

(** X2: in a repository that started empty, after any sequence of
    operations with any step services, every [COMPLETED] record holds a
    face match result that is a match. *)
Theorem completed_records_hold_a_match (ops : list (Services * Operation))
    (k : string) (v : Verification.t) :
  store (performAll ops emptyWorld) !! k = Some v ->
  Verification.status v = COMPLETED ->
  exists fm,
    Verification.faceMatchResult v = Some fm /\
    FaceVerificationService.isMatch fm = true.
Proof.
  intros H S.
  assert (Notions.allConsistent emptyWorld) as E by apply map_Forall_empty.
  destruct (performAll_consistent ops emptyWorld E k v H) as (_ & _ & C & _).
  auto.
Qed.

(** X1, on a record whose document step failed. *)
Lemma status_agrees_with_columns_witness :
  Verification.id Fixtures.failedRecord = "0" /\
  Verification.status Fixtures.failedRecord <> PENDING /\
  (Verification.status Fixtures.failedRecord = FAILED ->
   exists why, Verification.failureReason Fixtures.failedRecord = Some why) /\
  (Verification.status Fixtures.failedRecord = IN_PROGRESS ->
   Verification.failureReason Fixtures.failedRecord = None /\
   Verification.faceMatchResult Fixtures.failedRecord = None).
Proof.
  apply (status_agrees_with_columns
           [ (realServices (Fixtures.env None Fixtures.highLivenessFace []),
              StartVerification "user123" PASSPORT "document") ]
           "0" Fixtures.failedRecord).
  vm_compute. reflexivity.
Defined.

(** X2, on a record completed by the mocked services of the tests. *)
Lemma completed_records_hold_a_match_witness :
  let completed :=
    Verification.set_status COMPLETED
      (Verification.set_faceMatchResult
         (FaceVerificationService.mkFaceMatchResult true 0.95%float
            (FaceVerificationService.BestMatchDetails None None None None))
         (markFailed "Document verification failed"
            (withDocument
               (DocumentVerificationService.mkDocumentResult false ∅ 0%float)
               (create "0" "user123" PASSPORT IN_PROGRESS)))) in
  exists fm,
    Verification.faceMatchResult completed = Some fm /\
    FaceVerificationService.isMatch fm = true.
Proof.
  cbv zeta.
  apply (completed_records_hold_a_match
           [ (Fixtures.mockServices Fixtures.mockInvalidDocument
                Fixtures.mockLive Fixtures.mockMatch,
              StartVerification "user123" PASSPORT "test");
             (Fixtures.mockServices Fixtures.mockInvalidDocument
                Fixtures.mockLive Fixtures.mockMatch,
              VerifyFace "0" "test") ]
           "0").
  - vm_compute. reflexivity.
  - reflexivity.
Defined.

End RecordInvariants.

Section RecordFrames.

Import VerificationService.

Lemma lookup_save_same (x : Verification.t) (w : World) :
  store (save x w) !! Verification.id x = Some x.
Proof. simpl. apply lookup_insert_eq. Qed.

Lemma store_record_event (ev : Event) (w : World) :
  store (record_event ev w) = store w.
Proof. reflexivity. Qed.

Lemma sameDocumentColumns_refl (v : Verification.t) :
  Notions.sameDocumentColumns v v.
Proof. repeat split. Qed.

Lemma sameDocumentColumns_trans (v1 v2 v3 : Verification.t) :
  Notions.sameDocumentColumns v1 v2 -> Notions.sameDocumentColumns v2 v3 ->
  Notions.sameDocumentColumns v1 v3.
Proof.
  unfold Notions.sameDocumentColumns.
  intros (A1 & A2 & A3 & A4 & A5 & A6 & A7) (B1 & B2 & B3 & B4 & B5 & B6 & B7).
  repeat split; congruence.
Qed.

(** X3: [startVerification], whether it returns or throws, adds exactly
    one record, under an id that was not in use, with the given user id
    and document type and with status [IN_PROGRESS] or [FAILED]; every
    record that existed before is left as it was. *)
Theorem startVerification_adds_one_record (svc : Services) (u : string)
    (t : DocumentType) (b : Buffer) (w : World) :
  let k := generatedId w in
  let w' := snd (startVerification svc u t b w) in
  store w !! k = None /\
  dom (store w') = {[k]} ∪ dom (store w) /\
  (forall j, j <> k -> store w' !! j = store w !! j) /\
  exists v,
    store w' !! k = Some v /\
    Verification.id v = k /\
    Verification.userId v = u /\
    Verification.documentType v = t /\
    (Verification.status v = IN_PROGRESS \/ Verification.status v = FAILED).
Proof.
  cbv zeta. split; [apply generatedId_unused|].
  destruct (svc_verifyDocument svc t b) as [dr|e0] eqn:D;
    [destruct (DocumentVerificationService.dr_isValid dr) eqn:V|].
  - rewrite (startVerification_step_valid _ _ _ _ _ _ D V). cbv zeta. cbn [snd].
    split; [|split].
    + simpl. rewrite ?insert_insert_eq. now rewrite dom_insert_L.
    + intros j Hj. simpl. now rewrite !lookup_insert_ne.
    + eexists. split; [apply lookup_save_same|]. simpl. auto.
  - rewrite (startVerification_step_invalid _ _ _ _ _ _ D V). cbv zeta. cbn [snd].
    split; [|split].
    + simpl. rewrite ?insert_insert_eq. now rewrite dom_insert_L.
    + intros j Hj. simpl. now rewrite !lookup_insert_ne.
    + eexists. split; [apply lookup_save_same|]. simpl. auto.
  - rewrite (startVerification_step_throws _ _ _ _ _ _ D). cbv zeta. cbn [snd].
    split; [|split].
    + simpl. rewrite ?insert_insert_eq. now rewrite dom_insert_L.
    + intros j Hj. simpl. now rewrite !lookup_insert_ne.
    + eexists. split; [apply lookup_save_same|]. simpl. auto.
Qed.

End RecordFrames.

Section RecordColumns.

Import VerificationService.

Lemma columnsKept_save (k : string) (v x : Verification.t) (w : World) :
  Notions.columnsKept k v w ->
  (Verification.id x = k -> Notions.sameDocumentColumns v x) ->
  Notions.columnsKept k v (save x w).
Proof.
  intros (v' & H & S) C. unfold Notions.columnsKept. rewrite lookup_save.
  case_decide; eauto.
Qed.

Lemma columnsKept_event (k : string) (v : Verification.t) (ev : Event) (w : World) :
  Notions.columnsKept k v w -> Notions.columnsKept k v (record_event ev w).
Proof. easy. Qed.

Lemma perform_same_columns (svc : Services) (op : Operation) (w : World)
    (k : string) (v : Verification.t) :
  Spec.storeWellKeyed w ->
  store w !! k = Some v ->
  Notions.columnsKept k v (snd (perform svc op w)).
Proof.
  intros WF Hk.
  assert (Notions.columnsKept k v w) as K0
    by (exists v; split; [exact Hk | apply sameDocumentColumns_refl]).
  assert (forall found i, store w !! i = Some found ->
            forall x, Notions.sameDocumentColumns found x ->
                      Verification.id x = k -> Notions.sameDocumentColumns v x) as T.
  { intros found i F x S E.
    assert (Verification.id found = i) as Hi by exact (WF i found F).
    destruct S as (S1 & S'). assert (i = k) as -> by congruence.
    assert (found = v) as -> by congruence. split; assumption. }
  perform_paths svc op w;
    repeat first
      [ exact K0
      | apply columnsKept_event
      | apply columnsKept_save;
        [| first [ intros E; simpl in E; destruct (generatedId_differs _ _ _ Hk E)
                 | apply (T _ _ F); repeat split ] ] ].
Qed.

(** X4: in a repository where every record is filed under its own id,
    after any sequence of operations with any step services a record that
    existed is still there, with the same id, user id, document type,
    document data, confidence score and image references: the operations
    never delete a record, and only [status], [failureReason] and
    [faceMatchResult] of an existing record can change. *)
Theorem document_columns_never_change (ops : list (Services * Operation))
    (w : World) (k : string) (v : Verification.t) :
  Spec.storeWellKeyed w ->
  store w !! k = Some v ->
  exists v',
    store (performAll ops w) !! k = Some v' /\
    Verification.id v' = Verification.id v /\
    Verification.userId v' = Verification.userId v /\
    Verification.documentType v' = Verification.documentType v /\
    Verification.documentData v' = Verification.documentData v /\
    Verification.confidenceScore v' = Verification.confidenceScore v /\
    Verification.documentImageUrl v' = Verification.documentImageUrl v /\
    Verification.selfieImageUrl v' = Verification.selfieImageUrl v.
Proof.
  revert w v. induction ops as [|[svc op] rest IH]; intros w v WF Hk; simpl.
  - exists v. split; [exact Hk | repeat split].
  - destruct (perform_same_columns svc op w k v WF Hk) as (v1 & H1 & S1).
    destruct (IH _ v1 (perform_well_keyed svc op w WF) H1) as (v2 & H2 & S2).
    exists v2. split; [exact H2|].
    exact (sameDocumentColumns_trans v v1 v2 S1 S2).
Qed.

(** X4, on a record with document data that is then verified twice. *)
Lemma document_columns_never_change_witness :
  let good := realServices
                (Fixtures.env (Some Fixtures.validPassport)
                   Fixtures.highLivenessFace [95.5%float]) in
  let bad := realServices (Fixtures.env None Fixtures.lowLivenessFace []) in
  let ops := [ (good, VerifyFace "verification123" "selfie");
               (bad, StartVerification "user456" ID_CARD "document");
               (bad, VerifyFace "verification123" "selfie") ] in
  let w := Fixtures.worldWith Fixtures.inProgressRecord in
  let v := Fixtures.inProgressRecord in
  exists v',
    store (performAll ops w) !! "verification123" = Some v' /\
    Verification.id v' = Verification.id v /\
    Verification.userId v' = Verification.userId v /\
    Verification.documentType v' = Verification.documentType v /\
    Verification.documentData v' = Verification.documentData v /\
    Verification.confidenceScore v' = Verification.confidenceScore v /\
    Verification.documentImageUrl v' = Verification.documentImageUrl v /\
    Verification.selfieImageUrl v' = Verification.selfieImageUrl v.
Proof.
  cbv zeta.
  apply (document_columns_never_change _
           (Fixtures.worldWith Fixtures.inProgressRecord)
           "verification123" Fixtures.inProgressRecord).
  - apply map_Forall_singleton. reflexivity.
  - vm_compute. reflexivity.
Defined.

(** The repository after [verifyFace]: as before, or with one record
    saved over the one that was found. *)
Lemma verifyFace_store (svc : Services) (i : string) (selfie : Buffer)
    (w : World) :
  (store w !! i = None /\
   store (snd (verifyFace svc i selfie w)) = store w) \/
  (exists found x,
     store w !! i = Some found /\
     Verification.id x = Verification.id found /\
     store (snd (verifyFace svc i selfie w))
     = <[Verification.id x := x]> (store w)).
Proof.
  destruct (store w !! i) as [found|] eqn:F.
  - right. exists found.
    destruct (svc_detectLiveness svc selfie) as [lr|e0] eqn:D.
    + destruct (FaceVerificationService.isLive lr) eqn:L.
      * destruct (svc_verifyFaceMatch svc "" selfie) as [fm|e0] eqn:X.
        -- destruct (FaceVerificationService.isMatch fm) eqn:N.
           ++ rewrite (verifyFace_match _ _ _ _ _ _ _ F D L X N).
              exists (Verification.set_status COMPLETED
                        (Verification.set_faceMatchResult fm found)).
              repeat split.
           ++ rewrite (verifyFace_no_match _ _ _ _ _ _ _ F D L X N).
              exists (markFailed "Face match failed"
                        (Verification.set_faceMatchResult fm found)).
              split; [reflexivity|]. split; [reflexivity|].
              simpl. now rewrite insert_insert_eq.
        -- rewrite (verifyFace_match_throws _ _ _ _ _ _ _ F D L X).
           exists (markFailed (message e0) found). repeat split.
      * rewrite (verifyFace_not_live _ _ _ _ _ _ F D L).
        exists (markFailed "Liveness check failed" found).
        split; [reflexivity|]. split; [reflexivity|].
        simpl. now rewrite insert_insert_eq.
    + rewrite (verifyFace_liveness_throws _ _ _ _ _ _ F D).
      exists (markFailed (message e0) found). repeat split.
  - left. split; [reflexivity|]. now rewrite (verifyFace_absent _ _ _ _ F).
Qed.

(** X5: in a repository where every record is filed under its own id,
    [verifyFace] neither adds nor removes a record and leaves every record
    other than the one it was called for as it was. *)
Theorem verifyFace_touches_only_its_record (svc : Services) (i : string)
    (selfie : Buffer) (w : World) :
  Spec.storeWellKeyed w ->
  dom (store (snd (verifyFace svc i selfie w))) = dom (store w) /\
  forall j, j <> i ->
            store (snd (verifyFace svc i selfie w)) !! j = store w !! j.
Proof.
  intros WF.
  assert (forall found x, store w !! i = Some found ->
            Verification.id x = Verification.id found ->
            dom (<[Verification.id x := x]> (store w)) = dom (store w) /\
            forall j, j <> i ->
                      <[Verification.id x := x]> (store w) !! j = store w !! j) as S.
  { intros found x F E.
    assert (Verification.id found = i) as Hi by exact (WF i found F).
    rewrite E, Hi. split.
    - rewrite dom_insert_L. apply subseteq_union_1_L.
      apply singleton_subseteq_l. now apply elem_of_dom_2 in F.
    - intros j Hj. now rewrite lookup_insert_ne. }
  destruct (verifyFace_store svc i selfie w)
    as [(F & ->) | (found & x & F & E & ->)].
  - split; reflexivity.
  - exact (S found x F E).
Qed.

(** X5, on a repository with two records. *)
Lemma verifyFace_touches_only_its_record_witness :
  let svc := realServices
               (Fixtures.env None Fixtures.lowLivenessFace [95.5%float]) in
  let w := save Fixtures.failedRecord
             (Fixtures.worldWith Fixtures.inProgressRecord) in
  dom (store (snd (verifyFace svc "verification123" "selfie" w)))
  = dom (store w) /\
  forall j, j <> "verification123" ->
            store (snd (verifyFace svc "verification123" "selfie" w)) !! j
            = store w !! j.
Proof.
  cbv zeta.
  apply (verifyFace_touches_only_its_record
           (realServices (Fixtures.env None Fixtures.lowLivenessFace [95.5%float]))
           "verification123" "selfie"
           (save Fixtures.failedRecord
              (Fixtures.worldWith Fixtures.inProgressRecord))).
  apply save_well_keyed. apply map_Forall_singleton. reflexivity.
Defined.

End RecordColumns.

(** ** What the operations return *)

Section Returns.

Import VerificationService.

(** X6: [verifyFace] returns a record exactly when the record exists, the
    liveness check answers "live" and the comparison returns a match; the
    record returned is the one found with the face match result stored and
    status [COMPLETED].  It is the record the repository then holds, and
    its failure reason is the one the record had before: a record that had
    failed earlier keeps its old failure reason when it is completed. *)
Theorem verifyFace_returns_exactly_on_a_live_match (svc : Services)
    (i : string) (selfie : Buffer) (w : World) (v : Verification.t) :
  (fst (verifyFace svc i selfie w) = Return v <->
   exists found lr fm,
     store w !! i = Some found /\
     svc_detectLiveness svc selfie = Return lr /\
     FaceVerificationService.isLive lr = true /\
     svc_verifyFaceMatch svc "" selfie = Return fm /\
     FaceVerificationService.isMatch fm = true /\
     v = Verification.set_status COMPLETED
           (Verification.set_faceMatchResult fm found)) /\
  (fst (verifyFace svc i selfie w) = Return v ->
   Verification.status v = COMPLETED /\
   fst (getVerificationStatus (Verification.id v)
          (snd (verifyFace svc i selfie w))) = Return v /\
   exists found,
     store w !! i = Some found /\
     Verification.failureReason v = Verification.failureReason found).
Proof.
  assert (fst (verifyFace svc i selfie w) = Return v ->
          exists found lr fm,
            store w !! i = Some found /\
            svc_detectLiveness svc selfie = Return lr /\
            FaceVerificationService.isLive lr = true /\
            svc_verifyFaceMatch svc "" selfie = Return fm /\
            FaceVerificationService.isMatch fm = true /\
            v = Verification.set_status COMPLETED
                  (Verification.set_faceMatchResult fm found)) as Fwd.
  { destruct (store w !! i) as [found|] eqn:F;
      [|rewrite (verifyFace_absent _ _ _ _ F); discriminate].
    destruct (svc_detectLiveness svc selfie) as [lr|e0] eqn:D;
      [|rewrite (verifyFace_liveness_throws _ _ _ _ _ _ F D); discriminate].
    destruct (FaceVerificationService.isLive lr) eqn:L;
      [|rewrite (verifyFace_not_live _ _ _ _ _ _ F D L); discriminate].
    destruct (svc_verifyFaceMatch svc "" selfie) as [fm|e0] eqn:X;
      [|rewrite (verifyFace_match_throws _ _ _ _ _ _ _ F D L X); discriminate].
    destruct (FaceVerificationService.isMatch fm) eqn:N;
      [|rewrite (verifyFace_no_match _ _ _ _ _ _ _ F D L X N); discriminate].
    rewrite (verifyFace_match _ _ _ _ _ _ _ F D L X N).
    intros [= <-]. exists found, lr, fm. auto 10. }
  split; [split; [exact Fwd|]|].
  - intros (found & lr & fm & F & D & L & X & N & ->).
    now rewrite (verifyFace_match _ _ _ _ _ _ _ F D L X N).
  - intros H. destruct (Fwd H) as (found & lr & fm & F & D & L & X & N & ->).
    split; [reflexivity|]. split.
    + rewrite (verifyFace_match _ _ _ _ _ _ _ F D L X N). cbv zeta. cbn [snd].
      unfold getVerificationStatus. now rewrite lookup_save_same.
    + exists found. split; [exact F | reflexivity].
Qed.

(** X7: [startVerification] returns a record exactly when the document
    step returns a result marked valid; the record returned is the new
    record with the extracted data and the confidence score of that
    result.  Its status is still [IN_PROGRESS], it has no failure reason
    and no face match result, and it is the record the repository then
    holds under its id. *)
Theorem startVerification_returns_exactly_on_a_valid_document (svc : Services)
    (u : string) (t : DocumentType) (b : Buffer) (w : World)
    (v : Verification.t) :
  (fst (startVerification svc u t b w) = Return v <->
   exists dr,
     svc_verifyDocument svc t b = Return dr /\
     DocumentVerificationService.dr_isValid dr = true /\
     v = Verification.mk (generatedId w) u t
           (Some (DocumentVerificationService.extractedData dr)) None None None
           IN_PROGRESS None
           (Some (DocumentVerificationService.confidenceScore dr))) /\
  (fst (startVerification svc u t b w) = Return v ->
   fst (getVerificationStatus (Verification.id v)
          (snd (startVerification svc u t b w))) = Return v).
Proof.
  assert (fst (startVerification svc u t b w) = Return v ->
          exists dr,
            svc_verifyDocument svc t b = Return dr /\
            DocumentVerificationService.dr_isValid dr = true /\
            v = withDocument dr (create (generatedId w) u t IN_PROGRESS)) as Fwd.
  { destruct (svc_verifyDocument svc t b) as [dr|e0] eqn:D;
      [|rewrite (startVerification_step_throws _ _ _ _ _ _ D); discriminate].
    destruct (DocumentVerificationService.dr_isValid dr) eqn:V;
      [|rewrite (startVerification_step_invalid _ _ _ _ _ _ D V); discriminate].
    rewrite (startVerification_step_valid _ _ _ _ _ _ D V).
    intros [= <-]. exists dr. auto. }
  split; [split|].
  - intros H. destruct (Fwd H) as (dr & D & V & ->). exists dr. auto.
  - intros (dr & D & V & ->).
    now rewrite (startVerification_step_valid _ _ _ _ _ _ D V).
  - intros H. destruct (Fwd H) as (dr & D & V & ->).
    rewrite (startVerification_step_valid _ _ _ _ _ _ D V). cbv zeta. cbn [snd].
    unfold getVerificationStatus. now rewrite lookup_save_same.
Qed.

(** A rethrown error carries the message of the one caught, or the
    default message of the class when that is empty. *)
Lemma rewrap_message {A : Type} (e0 : Exception) :
  @rewrap A (Throw e0)
  = Throw (mkException BadRequestException
             (if String.eqb (message e0) "" then "Bad Request" else message e0)).
Proof. simpl. unfold newBadRequestException. now destruct (message e0). Qed.

Lemma rewrap_class {A : Type} (o : Outcome A) (e : Exception) :
  rewrap o = Throw e -> exn_class e = BadRequestException.
Proof. destruct o; simpl; [discriminate|]. now intros [= <-]. Qed.

(** X8: with the step services of the source, over any analyzers, and a
    repository whose own calls succeed, every error that an operation of
    the orchestrator throws is a [BadRequestException]: analyzer failures,
    rule violations and unknown ids all reach the caller as the same class
    of error.  A rejection of [findOne] or [save] themselves, which the
    orchestrator would pass on as it is, is not covered. *)
Theorem every_error_is_a_bad_request (env : Env) (op : Operation) (w : World)
    (e : Exception) :
  fst (perform (realServices env) op w) = Throw e ->
  exn_class e = BadRequestException.
Proof.
  intros H. destruct (Spec.recordOf op w) as [rid|] eqn:R.
  - destruct (thrown_error_was_raised_and_persisted _ _ _ _ _ R H) as [S _].
    destruct op as [u t b | i b | i]; simpl in S.
    + destruct (DocumentVerificationService.verifyDocument env t b) eqn:D.
      * destruct S as [_ ->]. reflexivity.
      * subst e. exact (rewrap_class _ _ D).
    + destruct (FaceVerificationService.detectLiveness env b) eqn:D.
      * destruct (FaceVerificationService.isLive a).
        -- destruct (FaceVerificationService.verifyFaceMatch env "" b) eqn:X.
           ++ destruct S as [_ ->]. reflexivity.
           ++ subst e. exact (rewrap_class _ _ X).
        -- subst e. reflexivity.
      * subst e. exact (rewrap_class _ _ D).
    + destruct S.
  - destruct op as [u t b | i b | i]; simpl in R, H.
    + discriminate.
    + destruct (store w !! i) eqn:F; [discriminate|].
      rewrite (verifyFace_absent _ _ _ _ F) in H. now injection H as <-.
    + unfold getVerificationStatus in H.
      destruct (store w !! i); [discriminate|]. now injection H as <-.
Qed.

(** X8, on an analyzer that fails with a plain error. *)
Lemma every_error_is_a_bad_request_witness :
  exn_class (mkException BadRequestException "AWS Service Error")
  = BadRequestException.
Proof.
  apply (every_error_is_a_bad_request
           (mkEnv Fixtures.parseDate Fixtures.now
              (fun _ => Throw (mkException Error "AWS Service Error"))
              (fun _ _ => Throw (mkException Error "AWS Service Error"))
              (fun _ _ _ => Throw (mkException Error "AWS Service Error")))
           (StartVerification "user123" PASSPORT "document") emptyWorld).
  vm_compute. reflexivity.
Defined.

End Returns.

(** ** The document step *)

Section DocumentStep.

Import DocumentVerificationService.

(** X9: [verifyDocument] either returns a result marked valid or throws a
    [BadRequestException]; it never returns a result marked invalid.  An
    error of the analyzer comes out as a [BadRequestException] built from
    the analyzer's message: it carries that message, or "Bad Request" when
    the message is empty.  A response without a first identity document
    comes out as "Failed to analyze document". *)
Theorem verifyDocument_outcomes (env : Env) (t : DocumentType) (b : Buffer) :
  (forall dr, verifyDocument env t b = Return dr -> dr_isValid dr = true) /\
  (forall e, verifyDocument env t b = Throw e ->
             exn_class e = BadRequestException) /\
  (forall e0, textract_analyzeID env b = Throw e0 ->
              verifyDocument env t b
              = Throw (mkException BadRequestException
                         (if String.eqb (message e0) "" then "Bad Request"
                          else message e0))) /\
  (forall response,
      textract_analyzeID env b = Return response ->
      IdentityDocuments response = None \/ IdentityDocuments response = Some [] ->
      verifyDocument env t b
      = Throw (mkException BadRequestException "Failed to analyze document")).
Proof.
  split; [|split; [|split]].
  - intros dr H.
    destruct (verifyDocument_Return env t b dr H) as (? & ? & ? & _ & _ & _ & ->).
    reflexivity.
  - intros e H. exact (rewrap_class _ _ H).
  - intros e0 H. unfold verifyDocument. rewrite H.
    apply rewrap_message.
  - intros response H [E|E]; unfold verifyDocument; now rewrite H, E.
Qed.

Lemma parse_step_entryOf (fields : gmap string ExtractedField)
    (f : IdentityDocumentField) :
  parse_step fields f =
  match Notions.entryOf f with
  | Some (k, e) => <[k := e]> fields
  | None => fields
  end.
Proof.
  unfold parse_step, Notions.entryOf.
  destruct (field_name f) as [n|]; [|reflexivity].
  destruct (field_text f) as [x|]; [|reflexivity].
  destruct (JS.truthy_str n && JS.truthy_str x); [|reflexivity].
  destruct (String.eqb (JS.toLowerCase n) "__proto__"); reflexivity.
Qed.

Lemma parse_snoc (fs : list IdentityDocumentField) (f : IdentityDocumentField) :
  parseDocumentFields (mkIdentityDocument (Some (fs ++ [f])%list))
  = parse_step (parseDocumentFields (mkIdentityDocument (Some fs))) f.
Proof. unfold parseDocumentFields. simpl. now rewrite fold_left_app. Qed.

Lemma keyOf_entryOf (f : IdentityDocumentField) (k : string) (e : ExtractedField) :
  Notions.entryOf f = Some (k, e) -> Notions.keyOf f = Some k.
Proof. unfold Notions.keyOf. now intros ->. Qed.

Lemma parse_lookup (fs : list IdentityDocumentField) (k : string)
    (e : ExtractedField) :
  parseDocumentFields (mkIdentityDocument (Some fs)) !! k = Some e <->
  exists before f after,
    fs = (before ++ f :: after)%list /\
    Notions.entryOf f = Some (k, e) /\
    forall g, In g after -> Notions.keyOf g <> Some k.
Proof.
  revert e. induction fs as [|f fs IH] using rev_ind; intros e.
  - split.
    + unfold parseDocumentFields. simpl. rewrite lookup_empty. discriminate.
    + intros (before & f & after & E & _). destruct before; discriminate.
  - rewrite parse_snoc, parse_step_entryOf. split.
    + destruct (Notions.entryOf f) as [[k' e']|] eqn:Ef.
      * rewrite lookup_insert. case_decide as C.
        -- intros [= <-]. subst k'. exists fs, f, []. repeat split; auto.
        -- intros H. apply IH in H as (before & f0 & after & -> & E0 & N).
           exists before, f0, (after ++ [f])%list.
           split; [now rewrite <- app_assoc|]. split; [exact E0|].
           intros g Hg. apply in_app_or in Hg as [Hg|[<-|[]]]; [auto|].
           rewrite (keyOf_entryOf _ _ _ Ef). congruence.
      * intros H. apply IH in H as (before & f0 & after & -> & E0 & N).
        exists before, f0, (after ++ [f])%list.
        split; [now rewrite <- app_assoc|]. split; [exact E0|].
        intros g Hg. apply in_app_or in Hg as [Hg|[<-|[]]]; [auto|].
        unfold Notions.keyOf. now rewrite Ef.
    + intros (before & f0 & after & E & E0 & N).
      destruct after as [|a after' _] using rev_ind.
      * apply app_inj_tail in E as [-> ->]. rewrite E0.
        apply lookup_insert_eq.
      * rewrite app_comm_cons, app_assoc in E.
        apply app_inj_tail in E as [-> <-].
        assert (parseDocumentFields
                  (mkIdentityDocument (Some (before ++ f0 :: after')%list)) !! k
                = Some e) as P.
        { apply IH. exists before, f0, after'. repeat split; auto.
          intros g Hg. apply N. apply in_or_app. now left. }
        assert (Notions.keyOf f <> Some k) as Nf
          by (apply N; apply in_or_app; right; now left).
        destruct (Notions.entryOf f) as [[k' e']|] eqn:Ef; [|exact P].
        rewrite lookup_insert_ne; [exact P|].
        intros ->. apply Nf. exact (keyOf_entryOf _ _ _ Ef).
Qed.

Lemma lower_ascii_idempotent (c : ascii) :
  JS.lower_ascii (JS.lower_ascii c) = JS.lower_ascii c.
Proof. destruct c as [[] [] [] [] [] [] [] []]; reflexivity. Qed.

Lemma toLowerCase_idempotent (s : string) :
  JS.toLowerCase (JS.toLowerCase s) = JS.toLowerCase s.
Proof.
  induction s as [|c s IH]; simpl; [reflexivity|].
  now rewrite lower_ascii_idempotent, IH.
Qed.

(** X10: [parseDocumentFields] stores under a key the entry of the last
    analyzer field that has a non-empty name lowering to that key and a
    non-empty text: a later field with the same name replaces an earlier
    one, fields without a name or without text are skipped.  Every stored
    entry has a non-empty value, the text of its field, and every key is
    in lower case.  No entry is stored under [__proto__]: a field whose
    name lowers to it is skipped as well. *)
Theorem parseDocumentFields_keeps_last_field (fs : list IdentityDocumentField)
    (k : string) (e : ExtractedField) :
  (parseDocumentFields (mkIdentityDocument (Some fs)) !! k = Some e <->
   exists before f after,
     fs = (before ++ f :: after)%list /\
     Notions.entryOf f = Some (k, e) /\
     forall g, In g after -> Notions.keyOf g <> Some k) /\
  (parseDocumentFields (mkIdentityDocument (Some fs)) !! k = Some e ->
   value e <> "" /\ JS.toLowerCase k = k /\
   exists f n,
     In f fs /\ field_name f = Some n /\ n <> "" /\ k = JS.toLowerCase n /\
     field_text f = Some (value e) /\ confidence e = field_confidence f) /\
  parseDocumentFields (mkIdentityDocument (Some fs)) !! "__proto__" = None.
Proof.
  assert (forall k' e', parseDocumentFields (mkIdentityDocument (Some fs)) !! k'
                        = Some e' ->
            k' <> "__proto__" /\
            value e' <> "" /\ JS.toLowerCase k' = k' /\
            exists f n,
              In f fs /\ field_name f = Some n /\ n <> "" /\
              k' = JS.toLowerCase n /\
              field_text f = Some (value e') /\
              confidence e' = field_confidence f) as Stored.
  { intros k' e' H.
    apply parse_lookup in H as (before & f & after & -> & E & _).
    unfold Notions.entryOf in E.
    destruct (field_name f) as [n|] eqn:Fn; [|discriminate].
    destruct (field_text f) as [x|] eqn:Fx; [|discriminate].
    destruct (JS.truthy_str n && JS.truthy_str x) eqn:T; [|discriminate].
    destruct (String.eqb (JS.toLowerCase n) "__proto__") eqn:P; [discriminate|].
    apply andb_true_iff in T as [Tn Tx].
    apply truthy_str_iff in Tn. apply truthy_str_iff in Tx.
    apply String.eqb_neq in P.
    injection E as <- <-. simpl. split; [exact P|]. split; [exact Tx|].
    split; [apply toLowerCase_idempotent|].
    exists f, n. repeat split; auto. apply in_or_app. right. now left. }
  split; [apply parse_lookup|]. split.
  - intros H. exact (proj2 (Stored k e H)).
  - destruct (parseDocumentFields (mkIdentityDocument (Some fs)) !! "__proto__")
      as [e'|] eqn:H; [|reflexivity].
    now destruct (proj1 (Stored _ _ H)).
Qed.

End DocumentStep.

Section DocumentStepRules.

Import DocumentVerificationService.

Example parseDocumentFields_of_a_repeated_field :
  let fs := [ Fixtures.field "FIRST_NAME" "John" 99.5%float;
              Fixtures.field "Last_Name" "Doe" 99.2%float;
              Fixtures.field "first_name" "Jane" 80%float;
              Fixtures.field "SUFFIX" "" 50%float ] in
  let data := parseDocumentFields (Fixtures.document fs) in
  data !! "first_name" = Some (mkExtractedField "Jane" (Some 80%float)) /\
  data !! "last_name" = Some (mkExtractedField "Doe" (Some 99.2%float)) /\
  data !! "suffix" = None /\
  data !! "FIRST_NAME" = None /\
  size data = 2.
Proof. cbv zeta. repeat split; vm_compute; reflexivity. Qed.

Lemma validation_valid_inv (env : Env) (t : DocumentType)
    (data : gmap string ExtractedField) :
  isValid (validateDocumentAuthenticity env t data) = true ->
  missingFields t data = [] /\
  isExpired env data = false /\
  isValid (validateByType t data) = true.
Proof.
  unfold validateDocumentAuthenticity. cbv zeta.
  destruct (missingFields t data); [|discriminate].
  destruct (isExpired env data); [discriminate|]. auto.
Qed.

Lemma missingFields_nil (t : DocumentType) (data : gmap string ExtractedField) :
  missingFields t data = [] ->
  forall n, In n (getRequiredFields t) -> Spec.present data (JS.toLowerCase n).
Proof.
  unfold missingFields. intros M n Hn.
  destruct (lookup_value data (JS.toLowerCase n)) as [x|] eqn:L.
  - apply lookup_value_Some in L as (e & E & <- & N). exists e. auto.
  - assert (In n []) as []. rewrite <- M. apply filter_In. now rewrite L.
Qed.

(** X11: a result of [verifyDocument] comes from a first document whose
    fields passed every rule: each required field of the type is in the
    extracted data with a non-empty value, the document is not expired, a
    passport number has 6 to 9 characters A-Z or 0-9, and a license or id
    number has at least 5 characters. *)
Theorem verified_document_satisfies_the_rules (env : Env) (t : DocumentType)
    (b : Buffer) (dr : DocumentResult) :
  verifyDocument env t b = Return dr ->
  (forall n, In n (getRequiredFields t) ->
             Spec.present (extractedData dr) (JS.toLowerCase n)) /\
  ~ Spec.expired env (extractedData dr) /\
  (t = PASSPORT ->
   exists e, extractedData dr !! "passport_number" = Some e /\
             Spec.passportNumberFormat (value e)) /\
  (t = DRIVERS_LICENSE ->
   exists e, extractedData dr !! "license_number" = Some e /\
             5 <= String.length (value e)) /\
  (t = ID_CARD ->
   exists e, extractedData dr !! "id_number" = Some e /\
             5 <= String.length (value e)).
Proof.
  intros H.
  destruct (verifyDocument_Return env t b dr H)
    as (response & document & rest & _ & _ & V & ->).
  simpl. apply validation_valid_inv in V as (M & X & T).
  split; [exact (missingFields_nil _ _ M)|]. split.
  - intros E. apply isExpired_iff in E. congruence.
  - repeat split; intros ->; unfold validateByType in T; simpl in T.
    + unfold validatePassport in T.
      destruct (lookup_value _ "passport_number") as [x|] eqn:L; [|discriminate].
      apply lookup_value_Some in L as (e & E & <- & _).
      destruct (passport_regex_test (value e)) eqn:R; [|discriminate].
      apply passport_regex_test_iff in R. eauto.
    + unfold validateDriversLicense in T.
      destruct (lookup_value _ "license_number") as [x|] eqn:L; [|discriminate].
      apply lookup_value_Some in L as (e & E & <- & _).
      destruct (Nat.ltb_spec (String.length (value e)) 5); [discriminate|]. eauto.
    + unfold validateIdCard in T.
      destruct (lookup_value _ "id_number") as [x|] eqn:L; [|discriminate].
      apply lookup_value_Some in L as (e & E & <- & _).
      destruct (Nat.ltb_spec (String.length (value e)) 5); [discriminate|]. eauto.
Qed.

(** X11, on the valid passport of the tests. *)
Lemma verified_document_satisfies_the_rules_witness :
  let env := Fixtures.env (Some Fixtures.validPassport)
               Fixtures.highLivenessFace [] in
  let dr := mkDocumentResult true (parseDocumentFields Fixtures.validPassport)
              (calculateConfidenceScore Fixtures.validPassport) in
  (forall n, In n (getRequiredFields PASSPORT) ->
             Spec.present (extractedData dr) (JS.toLowerCase n)) /\
  ~ Spec.expired env (extractedData dr) /\
  (PASSPORT = PASSPORT ->
   exists e, extractedData dr !! "passport_number" = Some e /\
             Spec.passportNumberFormat (value e)) /\
  (PASSPORT = DRIVERS_LICENSE ->
   exists e, extractedData dr !! "license_number" = Some e /\
             5 <= String.length (value e)) /\
  (PASSPORT = ID_CARD ->
   exists e, extractedData dr !! "id_number" = Some e /\
             5 <= String.length (value e)).
Proof.
  cbv zeta.
  apply (verified_document_satisfies_the_rules
           (Fixtures.env (Some Fixtures.validPassport)
              Fixtures.highLivenessFace [])
           PASSPORT "document").
  vm_compute. reflexivity.
Defined.

(** The type-specific check answers "valid" or names a format. *)
Lemma validateByType_results (t : DocumentType)
    (data : gmap string ExtractedField) :
  validateByType t data = valid \/
  exists why, validateByType t data = invalid why /\
              why <> "Document has expired".
Proof.
  unfold validateByType, validatePassport, validateDriversLicense, validateIdCard.
  destruct (String.eqb t PASSPORT).
  { destruct (lookup_value data "passport_number") as [x|];
      [destruct (passport_regex_test x)|];
      first [now left | right; eexists; split; [reflexivity | discriminate]]. }
  destruct (String.eqb t DRIVERS_LICENSE).
  { destruct (lookup_value data "license_number") as [x|];
      [destruct (Nat.ltb (String.length x) 5)|];
      first [now left | right; eexists; split; [reflexivity | discriminate]]. }
  destruct (String.eqb t ID_CARD).
  { destruct (lookup_value data "id_number") as [x|];
      [destruct (Nat.ltb (String.length x) 5)|];
      first [now left | right; eexists; split; [reflexivity | discriminate]]. }
  now left.
Qed.

Lemma isExpired_atTime (env : Env) (now' : Z) (data : gmap string ExtractedField) :
  (Date_now env <= now')%Z ->
  isExpired env data = true -> isExpired (Notions.atTime now' env) data = true.
Proof.
  unfold isExpired. simpl. intros Le.
  destruct (lookup_value data "expiration_date"); [|discriminate].
  destruct (Date_parse env s); [|discriminate].
  rewrite !Z.ltb_lt. lia.
Qed.

(** X12: validation only gets stricter as time passes: a field map that
    validates at some time validates at every earlier time, and a document
    that is expired stays expired.  Apart from the expiration rule the
    outcome does not depend on the time. *)
Theorem validation_is_monotone_in_time (env : Env) (later : Z)
    (t : DocumentType) (data : gmap string ExtractedField) :
  (Date_now env <= later)%Z ->
  (isValid (validateDocumentAuthenticity (Notions.atTime later env) t data) = true ->
   validateDocumentAuthenticity env t data = valid) /\
  (validateDocumentAuthenticity env t data = invalid "Document has expired" ->
   validateDocumentAuthenticity (Notions.atTime later env) t data
   = invalid "Document has expired") /\
  (isExpired (Notions.atTime later env) data = false ->
   validateDocumentAuthenticity (Notions.atTime later env) t data
   = validateDocumentAuthenticity env t data).
Proof.
  intros Le.
  pose proof (isExpired_atTime env later data Le) as Mono.
  pose proof (validateByType_results t data) as [R|R].
  - unfold validateDocumentAuthenticity. cbv zeta.
    destruct (missingFields t data) as [|m ms].
    + destruct (isExpired env data) eqn:X.
      * rewrite (Mono eq_refl). repeat split; auto; discriminate.
      * destruct (isExpired (Notions.atTime later env) data) eqn:X'.
        -- rewrite R. repeat split; discriminate.
        -- repeat split; auto.
    + repeat split; auto; discriminate.
  - destruct R as (why & R & N).
    unfold validateDocumentAuthenticity. cbv zeta.
    destruct (missingFields t data) as [|m ms].
    + destruct (isExpired env data) eqn:X.
      * rewrite (Mono eq_refl). repeat split; auto; discriminate.
      * destruct (isExpired (Notions.atTime later env) data) eqn:X'.
        -- rewrite R; repeat split; try discriminate;
             intros [= E]; congruence.
        -- rewrite R; repeat split; try discriminate; auto;
             intros [= E]; congruence.
    + repeat split; auto; discriminate.
Qed.

(** X12, on the passports of the tests.  The valid passport validates in
    2024, hence at the epoch, with the same result at both times; the
    expired one is rejected as expired in 2024, hence in 2030. *)
Lemma validation_is_monotone_in_time_witness :
  let epoch := Notions.atTime 0
                 (Fixtures.env None Fixtures.highLivenessFace []) in
  let in2024 := Fixtures.env None Fixtures.highLivenessFace [] in
  let good := parseDocumentFields Fixtures.validPassport in
  let old := parseDocumentFields Fixtures.expiredPassport in
  validateDocumentAuthenticity epoch PASSPORT good = valid /\
  validateDocumentAuthenticity
    (Notions.atTime 1893456000000 in2024) PASSPORT old
  = invalid "Document has expired" /\
  validateDocumentAuthenticity (Notions.atTime Fixtures.now epoch) PASSPORT good
  = validateDocumentAuthenticity epoch PASSPORT good.
Proof.
  cbv zeta. split; [|split].
  - apply (proj1 (validation_is_monotone_in_time
                    (Notions.atTime 0
                       (Fixtures.env None Fixtures.highLivenessFace []))
                    Fixtures.now PASSPORT
                    (parseDocumentFields Fixtures.validPassport)
                    ltac:(vm_compute; discriminate))).
    vm_compute. reflexivity.
  - apply (proj1 (proj2 (validation_is_monotone_in_time
                           (Fixtures.env None Fixtures.highLivenessFace [])
                           1893456000000 PASSPORT
                           (parseDocumentFields Fixtures.expiredPassport)
                           ltac:(vm_compute; discriminate)))).
    vm_compute. reflexivity.
  - apply (proj2 (proj2 (validation_is_monotone_in_time
                           (Notions.atTime 0
                              (Fixtures.env None Fixtures.highLivenessFace []))
                           Fixtures.now PASSPORT
                           (parseDocumentFields Fixtures.validPassport)
                           ltac:(vm_compute; discriminate)))).
    vm_compute. reflexivity.
Defined.

End DocumentStepRules.

Section DocumentStepFields.

Import DocumentVerificationService.

Lemma lookup_value_insert_ne (data : gmap string ExtractedField)
    (k j : string) (e : ExtractedField) :
  k <> j -> lookup_value (<[k := e]> data) j = lookup_value data j.
Proof. intros N. unfold lookup_value. now rewrite lookup_insert_ne. Qed.

(** X13: validation reads only the required fields of the type and the
    expiration date: adding or replacing any other field of the map, with
    whatever value and confidence, does not change its result. *)
Theorem validation_reads_only_its_fields (env : Env) (t : DocumentType)
    (data : gmap string ExtractedField) (k : string) (e : ExtractedField) :
  ~ In k (map JS.toLowerCase (getRequiredFields t)) ->
  k <> "expiration_date" ->
  validateDocumentAuthenticity env t (<[k := e]> data)
  = validateDocumentAuthenticity env t data.
Proof.
  intros N X.
  assert (missingFields t (<[k := e]> data) = missingFields t data) as M.
  { unfold missingFields. apply filter_ext_in. intros n Hn.
    rewrite lookup_value_insert_ne; [reflexivity|].
    intros ->. apply N. now apply in_map. }
  assert (isExpired env (<[k := e]> data) = isExpired env data) as Ex.
  { unfold isExpired. now rewrite lookup_value_insert_ne. }
  assert (validateByType t (<[k := e]> data) = validateByType t data) as T.
  { unfold validateByType, getRequiredFields in *.
    destruct (String.eqb t PASSPORT).
    { unfold validatePassport. rewrite lookup_value_insert_ne; [reflexivity|].
      intros ->. apply N. simpl. tauto. }
    destruct (String.eqb t DRIVERS_LICENSE).
    { unfold validateDriversLicense.
      rewrite lookup_value_insert_ne; [reflexivity|].
      intros ->. apply N. simpl. tauto. }
    destruct (String.eqb t ID_CARD).
    { unfold validateIdCard. rewrite lookup_value_insert_ne; [reflexivity|].
      intros ->. apply N. simpl. tauto. }
    reflexivity. }
  unfold validateDocumentAuthenticity. cbv zeta. now rewrite M, Ex, T.
Qed.

(** X13, on the valid passport of the tests with a middle name added. *)
Lemma validation_reads_only_its_fields_witness :
  let env := Fixtures.env None Fixtures.highLivenessFace [] in
  let data := parseDocumentFields Fixtures.validPassport in
  validateDocumentAuthenticity env PASSPORT
    (<["middle_name" := mkExtractedField "" None]> data)
  = validateDocumentAuthenticity env PASSPORT data.
Proof.
  cbv zeta.
  apply (validation_reads_only_its_fields
           (Fixtures.env None Fixtures.highLivenessFace []) PASSPORT).
  - simpl. intros [H|[H|[H|[H|[H|[H|[]]]]]]]; discriminate.
  - discriminate.
Defined.

End DocumentStepFields.

(** ** The face step *)

Section FaceStepNumbers.

(** A number that is at least a positive constant is truthy: neither
    zero nor [NaN].  This rests on the specification of [<=?] and [=?] on
    binary64 values. *)
Lemma at_least_positive_truthy (c x : float) (m : positive) (e : Z) :
  FloatOps.Prim2SF c = SpecFloat.S754_finite false m e ->
  PrimFloat.leb c x = true -> JS.truthy x = true.
Proof.
  intros Hc. unfold JS.truthy, PrimFloat.is_nan.
  rewrite FloatAxioms.leb_spec, !FloatAxioms.eqb_spec, Hc.
  replace (FloatOps.Prim2SF 0) with (SpecFloat.S754_zero false)
    by (vm_compute; reflexivity).
  destruct (FloatOps.Prim2SF x) as [s|s| |s m' e']; simpl; try discriminate.
  - destruct s; [discriminate | reflexivity].
  - intros H. destruct s; [discriminate|].
    unfold SpecFloat.SFeqb, SpecFloat.SFcompare.
    now rewrite Z.compare_refl, Pos.compare_cont_refl.
Qed.

Lemma at_least_50_truthy (x : float) :
  PrimFloat.leb 50 x = true -> JS.truthy x = true.
Proof.
  apply (at_least_positive_truthy 50 x 7036874417766400 (-47)).
  vm_compute. reflexivity.
Qed.

Lemma or_zero_at_least (c : float) (o : option float) :
  PrimFloat.leb c 0 = false ->
  PrimFloat.leb c (JS.or_zero o) = true ->
  exists x, o = Some x /\ JS.truthy x = true /\ PrimFloat.leb c x = true.
Proof.
  intros Z. unfold JS.or_zero. destruct o as [x|]; [|congruence].
  destruct (JS.truthy x) eqn:T; [eauto | congruence].
Qed.

End FaceStepNumbers.

Section FaceStep.

Import FaceVerificationService.

(** X14: the image quality is acceptable exactly when brightness and
    sharpness are both present and both at least 50: a value that is
    missing, zero or [NaN] never passes.  The pose differs: it is
    acceptable as soon as the pose is present and every angle that is
    present is within 20 degrees, an angle that is missing counting as 0. *)
Theorem quality_needs_both_values_pose_does_not (face : FaceDetail) :
  (isQualityAcceptable face = true <->
   exists q b s,
     Quality face = Some q /\ Brightness q = Some b /\ Sharpness q = Some s /\
     PrimFloat.leb 50 b = true /\ PrimFloat.leb 50 s = true) /\
  (forall p,
      fd_Pose face = Some p ->
      (forall x, Pitch p = Some x -> PrimFloat.leb (PrimFloat.abs x) 20 = true) ->
      (forall x, Roll p = Some x -> PrimFloat.leb (PrimFloat.abs x) 20 = true) ->
      (forall x, Yaw p = Some x -> PrimFloat.leb (PrimFloat.abs x) 20 = true) ->
      isPoseAcceptable face = true) /\
  (fd_Pose face = None -> isPoseAcceptable face = false).
Proof.
  split; [|split].
  - unfold isQualityAcceptable, JS.ge. split.
    + destruct (Quality face) as [q|]; [|discriminate]. cbv zeta.
      rewrite andb_true_iff. intros [B S].
      apply or_zero_at_least in B as (b & Eb & _ & Lb); [|reflexivity].
      apply or_zero_at_least in S as (s & Es & _ & Ls); [|reflexivity].
      exists q, b, s. auto.
    + intros (q & b & s & -> & Eb & Es & Lb & Ls). cbv zeta.
      rewrite Eb, Es. simpl.
      rewrite (at_least_50_truthy b Lb), (at_least_50_truthy s Ls).
      now rewrite Lb, Ls.
  - intros p Hp P R Y. unfold isPoseAcceptable, JS.le. rewrite Hp. cbv zeta.
    assert (forall o,
              (forall x, o = Some x -> PrimFloat.leb (PrimFloat.abs x) 20 = true) ->
              PrimFloat.leb (PrimFloat.abs (JS.or_zero o)) 20 = true) as A.
    { intros [x|] H; simpl; [|reflexivity].
      destruct (JS.truthy x); [now apply H | reflexivity]. }
    now rewrite (A _ P), (A _ R), (A _ Y).
  - unfold isPoseAcceptable. now intros ->.
Qed.

(** X15: [detectLiveness] returns a result exactly when the analyzer
    reports exactly one face.  No face, or no list of faces, gives "No face
    detected in the image", more than one face "Multiple faces detected in
    the image", and an analyzer error the analyzer's message, or "Bad
    Request" when that message is empty; each as a [BadRequestException].
    A face without any signal scores 0 and is not live. *)
Theorem detectLiveness_outcomes (env : Env) (selfie : Buffer) :
  (forall r,
      detectLiveness env selfie = Return r <->
      exists face,
        rekognition_detectFaces env selfie [ALL]
        = Return (mkDetectFacesResponse (Some [face])) /\
        r = mkLivenessResult
              (PrimFloat.leb 80 (calculateLivenessScore face))
              (calculateLivenessScore face) (livenessDetails face)) /\
  (forall face,
      rekognition_detectFaces env selfie [ALL]
      = Return (mkDetectFacesResponse (Some [face])) ->
      Spec.livenessSignals face = [] ->
      detectLiveness env selfie
      = Return (mkLivenessResult false 0 (livenessDetails face))) /\
  (forall faces,
      rekognition_detectFaces env selfie [ALL]
      = Return (mkDetectFacesResponse faces) ->
      (faces = None \/ faces = Some [] ->
       detectLiveness env selfie
       = Throw (mkException BadRequestException "No face detected in the image")) /\
      (forall f1 f2 more, faces = Some (f1 :: f2 :: more) ->
       detectLiveness env selfie
       = Throw (mkException BadRequestException
                  "Multiple faces detected in the image"))) /\
  (forall e0,
      rekognition_detectFaces env selfie [ALL] = Throw e0 ->
      detectLiveness env selfie
      = Throw (mkException BadRequestException
                 (if String.eqb (message e0) "" then "Bad Request"
                  else message e0))).
Proof.
  unfold detectLiveness. split; [|split; [|split]].
  - intros r. split.
    + destruct (rekognition_detectFaces env selfie [ALL]) as [[faces]|e0];
        [|discriminate].
      destruct faces as [[|face [|f2 more]]|]; try discriminate.
      simpl. intros [= <-]. eauto.
    + intros (face & -> & ->). reflexivity.
  - intros face -> E. simpl.
    now rewrite calculateLivenessScore_mean, E.
  - intros faces ->. split.
    + intros [-> | ->]; reflexivity.
    + intros f1 f2 more ->. reflexivity.
  - intros e0 ->. apply rewrap_message.
Qed.

(** X16: [verifyFaceMatch] reports a match only when both images passed
    the quality check, the comparison returned at least one match, and the
    first match carries a similarity of at least 90; the confidence of the
    result is that similarity. *)
Theorem a_match_needs_quality_and_similarity (env : Env)
    (documentFace selfie : Buffer) (r : FaceMatchResult) :
  verifyFaceMatch env documentFace selfie = Return r ->
  isMatch r = true ->
  isValid (detectFaceQuality env documentFace) = true /\
  isValid (detectFaceQuality env selfie) = true /\
  exists comparison first others s,
    rekognition_compareFaces env documentFace selfie 90 = Return comparison /\
    FaceMatches comparison = Some (first :: others) /\
    Similarity first = Some s /\
    PrimFloat.leb 90 s = true /\
    fm_confidence r = s.
Proof.
  unfold verifyFaceMatch. cbv zeta.
  destruct (isValid (detectFaceQuality env documentFace)); [|discriminate].
  destruct (isValid (detectFaceQuality env selfie)); [|discriminate].
  simpl. unfold SIMILARITY_THRESHOLD.
  destruct (rekognition_compareFaces env documentFace selfie 90)
    as [comparison|e0]; [|discriminate].
  simpl. intros [= <-]. unfold matchResult.
  destruct (FaceMatches comparison) as [[|first others]|] eqn:M;
    try discriminate.
  simpl. unfold JS.ge, SIMILARITY_THRESHOLD. intros H.
  apply or_zero_at_least in H as (s & Es & T & L); [|reflexivity].
  split; [reflexivity|]. split; [reflexivity|].
  exists comparison, first, others, s. repeat split; auto.
  unfold JS.or_zero. now rewrite Es, T.
Qed.

(** X16, on the matching faces of the tests. *)
Lemma a_match_needs_quality_and_similarity_witness :
  let env := Fixtures.env None Fixtures.highLivenessFace [95.5%float] in
  isValid (detectFaceQuality env "document-face") = true /\
  isValid (detectFaceQuality env "selfie") = true /\
  exists comparison first others s,
    rekognition_compareFaces env "document-face" "selfie" 90 = Return comparison /\
    FaceMatches comparison = Some (first :: others) /\
    Similarity first = Some s /\
    PrimFloat.leb 90 s = true /\
    fm_confidence
      (mkFaceMatchResult true 95.5%float (BestMatchDetails None None None None))
    = s.
Proof.
  cbv zeta.
  apply (a_match_needs_quality_and_similarity
           (Fixtures.env None Fixtures.highLivenessFace [95.5%float])
           "document-face" "selfie").
  - vm_compute. reflexivity.
  - reflexivity.
Defined.

(** X17: the errors of [verifyFaceMatch].  The document face is judged
    first: when its quality check fails the error is "Document face image
    issue: " followed by the reason, whatever the selfie looks like and
    whatever the comparison would answer; the selfie is named only when
    the document face passed.  An analyzer error during a quality check is
    such a reason, and an analyzer error during the comparison is thrown
    with its own message, or with "Bad Request" when that message is
    empty.  Every error is a [BadRequestException]. *)
Theorem verifyFaceMatch_errors (env : Env) (documentFace selfie : Buffer) :
  (isValid (detectFaceQuality env documentFace) = false ->
   verifyFaceMatch env documentFace selfie
   = Throw (mkException BadRequestException
              ("Document face image issue: "
               ++ JS.interpolate (reason (detectFaceQuality env documentFace))))) /\
  (isValid (detectFaceQuality env documentFace) = true ->
   isValid (detectFaceQuality env selfie) = false ->
   verifyFaceMatch env documentFace selfie
   = Throw (mkException BadRequestException
              ("Selfie image issue: "
               ++ JS.interpolate (reason (detectFaceQuality env selfie))))) /\
  (forall image e0,
      rekognition_detectFaces env image [QUALITY; POSE] = Throw e0 ->
      detectFaceQuality env image = mkQualityResult false (Some (message e0))) /\
  (forall e0,
      isValid (detectFaceQuality env documentFace) = true ->
      isValid (detectFaceQuality env selfie) = true ->
      rekognition_compareFaces env documentFace selfie 90 = Throw e0 ->
      verifyFaceMatch env documentFace selfie
      = Throw (mkException BadRequestException
                 (if String.eqb (message e0) "" then "Bad Request"
                  else message e0))) /\
  (forall e, verifyFaceMatch env documentFace selfie = Throw e ->
             exn_class e = BadRequestException).
Proof.
  split; [|split; [|split; [|split]]].
  - intros H. unfold verifyFaceMatch. cbv zeta. now rewrite H.
  - intros H1 H2. unfold verifyFaceMatch. cbv zeta. now rewrite H1, H2.
  - intros image e0 H. unfold detectFaceQuality. now rewrite H.
  - intros e0 H1 H2 H. unfold verifyFaceMatch. cbv zeta. rewrite H1, H2. simpl.
    unfold SIMILARITY_THRESHOLD. rewrite H. apply rewrap_message.
  - intros e H. exact (rewrap_class _ _ H).
Qed.

End FaceStep.

(** ** SecurityService *)

Section Sanitize.

Import SecurityService.

(** Induction on response data, through arrays and objects. *)
Lemma JSValue_induction (P : JSValue -> Prop) :
  P JUndefined -> P JNull -> (forall b, P (JBoolean b)) ->
  (forall x, P (JNumber x)) -> (forall s, P (JString s)) ->
  (forall items, Forall P items -> P (JArray items)) ->
  (forall entries, Forall (fun kv => P (snd kv)) entries -> P (JObject entries)) ->
  forall v, P v.
Proof.
  intros HU HN HB HX HS HA HO. fix IH 1.
  intros [ | | b | x | s | items | entries];
    [exact HU | exact HN | apply HB | apply HX | apply HS | | ].
  - apply HA. induction items as [|a items IHl]; constructor; [apply IH | exact IHl].
  - apply HO. induction entries as [|[k a] entries IHl]; constructor;
      [apply IH | exact IHl].
Qed.

Lemma sanitizeOutput_primitive (v : JSValue) :
  isObjectType v = false -> sanitizeOutput v = v.
Proof. destruct v; simpl; congruence. Qed.

Lemma sanitize_member (v : JSValue) :
  (if isObjectType v then sanitizeOutput v else v) = sanitizeOutput v.
Proof.
  destruct (isObjectType v) eqn:T; [reflexivity|].
  now rewrite sanitizeOutput_primitive.
Qed.

(** [sanitizeOutput] on an object and on an array, entry by entry. *)
Lemma sanitizeOutput_object (entries : list (string * JSValue)) :
  sanitizeOutput (JObject entries)
  = JObject (map (fun kv => (fst kv, sanitizeOutput (snd kv)))
               (List.filter (fun kv => negb (isSensitive (fst kv))) entries)).
Proof.
  simpl. f_equal. induction entries as [|[k v] entries IH]; [reflexivity|].
  simpl. destruct (isSensitive k); simpl; [exact IH|].
  now rewrite sanitize_member, IH.
Qed.

Lemma sanitizeOutput_array (items : list JSValue) :
  sanitizeOutput (JArray items) = JArray (map sanitizeOutput items).
Proof.
  simpl. f_equal. apply map_ext. intros v. apply sanitize_member.
Qed.

Lemma noSensitiveKey_object (entries : list (string * JSValue)) :
  Notions.noSensitiveKey (JObject entries)
  = forallb (fun kv => negb (isSensitive (fst kv))
                       && Notions.noSensitiveKey (snd kv)) entries.
Proof.
  simpl. induction entries as [|[k v] entries IH]; [reflexivity|].
  simpl. now rewrite IH.
Qed.

Lemma sanitizeOutput_removes_sensitive (data : JSValue) :
  Notions.noSensitiveKey (sanitizeOutput data) = true.
Proof.
  induction data as [ | | b | x | s | items IH | entries IH]
    using JSValue_induction; try reflexivity.
  - rewrite sanitizeOutput_array. simpl. rewrite forallb_forall.
    intros v Hv. apply in_map_iff in Hv as (v0 & <- & Hv0).
    rewrite Forall_forall in IH. apply IH. exact Hv0.
  - rewrite sanitizeOutput_object, noSensitiveKey_object, forallb_forall.
    intros [k v] Hkv. apply in_map_iff in Hkv as ([k0 v0] & [= <- <-] & H0).
    apply filter_In in H0 as [H0 S]. simpl in *. rewrite S. simpl.
    rewrite Forall_forall in IH.
    apply (IH (k0, v0)). exact H0.
Qed.

(** X18: whatever the response data, after [sanitizeOutput] no object at
    any depth, inside objects and arrays alike, has a key that is
    "password", "secret" or "token" in any mix of upper and lower case.  At
    the top level the keys that remain are the other keys, in their order,
    and an array keeps its length. *)
Theorem sanitizeOutput_removes_every_sensitive_key (data : JSValue) :
  Notions.noSensitiveKey (sanitizeOutput data) = true /\
  (forall entries, data = JObject entries ->
     exists kept,
       sanitizeOutput data = JObject kept /\
       map fst kept
       = List.filter (fun k => negb (isSensitive k)) (map fst entries)) /\
  (forall items, data = JArray items ->
     exists kept,
       sanitizeOutput data = JArray kept /\
       List.length kept = List.length items).
Proof.
  split; [|split].
  - apply sanitizeOutput_removes_sensitive.
  - intros entries ->. eexists. split; [apply sanitizeOutput_object|].
    induction entries as [|[k v] entries IHe]; [reflexivity|].
    simpl. destruct (isSensitive k); simpl; [exact IHe | now rewrite IHe].
  - intros items ->. eexists. split; [apply sanitizeOutput_array|].
    apply length_map.
Qed.

(** X19: response data without a sensitive key at any depth comes back
    from [sanitizeOutput] unchanged, and sanitizing twice is the same as
    sanitizing once. *)
Theorem sanitizeOutput_keeps_clean_data (data : JSValue) :
  (Notions.noSensitiveKey data = true -> sanitizeOutput data = data) /\
  sanitizeOutput (sanitizeOutput data) = sanitizeOutput data.
Proof.
  assert (forall d, Notions.noSensitiveKey d = true -> sanitizeOutput d = d) as K.
  { intros d. induction d as [ | | b | x | s | items IH | entries IH]
      using JSValue_induction; try reflexivity.
    - intros C. rewrite sanitizeOutput_array. f_equal.
      simpl in C. rewrite forallb_forall in C. rewrite Forall_forall in IH.
      rewrite <- (map_id items) at 2. apply map_ext_in. intros v Hv.
      apply IH; [exact Hv | now apply C].
    - intros C. rewrite sanitizeOutput_object. f_equal.
      rewrite noSensitiveKey_object, forallb_forall in C.
      rewrite Forall_forall in IH.
      induction entries as [|[k v] entries IHe]; [reflexivity|].
      assert (negb (isSensitive k) && Notions.noSensitiveKey v = true) as Ckv
        by (apply (C (k, v)); now left).
      apply andb_true_iff in Ckv as [Sk Cv]. simpl. rewrite Sk. simpl.
      f_equal; [f_equal; apply (IH (k, v)); [now left | exact Cv]|].
      apply IHe.
      + intros kv Hkv. apply IH. now right.
      + intros kv Hkv. apply C. now right. }
  split; [apply K|].
  apply K. apply sanitizeOutput_removes_sensitive.
Qed.

End Sanitize.

Section SecureFilename.

Import SecurityService.

Lemma split_nonempty (sep : ascii) (s : string) : split sep s <> [].
Proof.
  destruct s as [|c r]; simpl; [discriminate|].
  destruct (Ascii.eqb c sep); [discriminate|].
  destruct (split sep r); discriminate.
Qed.

Lemma join_split (sep : ascii) (s : string) :
  JS.join (String sep EmptyString) (split sep s) = s.
Proof.
  unfold JS.join. induction s as [|c r IH]; [reflexivity|].
  simpl. destruct (Ascii.eqb c sep) eqn:E.
  - apply Ascii.eqb_eq in E as ->.
    pose proof (split_nonempty sep r) as N.
    destruct (split sep r) as [|p ps] eqn:S; [contradiction|].
    change (String.concat (String sep EmptyString) (EmptyString :: p :: ps))
      with (String sep (String.concat (String sep EmptyString) (p :: ps))).
    now rewrite IH.
  - pose proof (split_nonempty sep r) as N.
    destruct (split sep r) as [|p ps] eqn:S; [contradiction|].
    destruct ps as [|q qs]; [simpl in *; now rewrite IH|].
    change (String.concat (String sep EmptyString) (String c p :: q :: qs))
      with (String c (String.concat (String sep EmptyString) (p :: q :: qs))).
    now rewrite IH.
Qed.

Lemma split_pieces_without (sep : ascii) (s : string) :
  Forall (Notions.without sep) (split sep s).
Proof.
  unfold Notions.without. induction s as [|c r IH]; simpl.
  - constructor; [intros []|constructor].
  - destruct (Ascii.eqb c sep) eqn:E.
    + constructor; [intros []|exact IH].
    + pose proof (split_nonempty sep r) as N.
      destruct (split sep r) as [|p ps]; [contradiction|].
      inversion IH as [|? ? Hp Hps]; subst. constructor; [|exact Hps].
      simpl. intros [->|H]; [|now apply Hp].
      now rewrite Ascii.eqb_refl in E.
Qed.

Lemma pop_snoc (l : list string) (x : string) : pop (l ++ [x]) = Some x.
Proof.
  induction l as [|a l IH]; [reflexivity|].
  simpl. destruct (l ++ [x])%list eqn:E; [|exact IH].
  now destruct l.
Qed.

Lemma pop_Some (l : list string) :
  l <> [] -> exists before x, l = (before ++ [x])%list /\ pop l = Some x.
Proof.
  intros N. destruct (exists_last N) as (before & x & ->).
  exists before, x. split; [reflexivity | apply pop_snoc].
Qed.

Lemma append_assoc (a b c : string) : (a ++ b) ++ c = a ++ b ++ c.
Proof.
  induction a as [|x a IH]; [reflexivity|].
  change (String x ((a ++ b) ++ c) = String x (a ++ b ++ c)). now f_equal.
Qed.

Lemma concat_snoc (sep : string) (l : list string) (x : string) :
  l <> [] ->
  String.concat sep (l ++ [x]) = String.concat sep l ++ sep ++ x.
Proof.
  induction l as [|a l IH]; [contradiction|]. intros _.
  destruct l as [|b l].
  - reflexivity.
  - change (String.concat sep ((a :: b :: l) ++ [x]))
      with (a ++ sep ++ String.concat sep ((b :: l) ++ [x])).
    rewrite IH by discriminate.
    change (String.concat sep (a :: b :: l))
      with (a ++ sep ++ String.concat sep (b :: l)).
    now rewrite !append_assoc.
Qed.

(** X20: the secure file name is the uuid, a dot and the text after the
    last dot of the original name: that text has no dot, and the original
    name either ends with a dot followed by it or, having no dot at all, is
    that text itself, so a name without an extension is kept whole after the
    uuid. *)
Theorem secure_filename_keeps_only_the_extension (uuid originalName : string) :
  exists ext,
    generateSecureFilename uuid originalName = uuid ++ "." ++ ext /\
    Notions.without "." ext /\
    ((originalName = ext /\ Notions.without "." originalName) \/
     exists base, originalName = base ++ "." ++ ext).
Proof.
  unfold generateSecureFilename.
  pose proof (join_split "." originalName) as J.
  pose proof (split_pieces_without "." originalName) as W.
  destruct (pop_Some (split "." originalName) (split_nonempty _ _))
    as (before & ext & S & P).
  rewrite P. exists ext. split; [reflexivity|].
  rewrite S in J, W. apply Forall_app in W as [_ We].
  pose proof (Forall_inv We) as Hext.
  split; [exact Hext|].
  destruct before as [|b before].
  - left. simpl in J. rewrite <- J. split; [reflexivity | exact Hext].
  - right. unfold JS.join in J. rewrite concat_snoc in J by discriminate.
    eexists. symmetry. exact J.
Qed.

End SecureFilename.

(** ** VerificationController *)

Section Controller.

Import VerificationController.

Lemma knownType_member (t : DocumentType) :
  existsb (String.eqb t) documentTypeValues = true <-> Spec.knownType t.
Proof.
  unfold documentTypeValues, Spec.knownType. simpl.
  rewrite !orb_true_iff, !String.eqb_eq. intuition discriminate.
Qed.

(** A request is rejected by the controller, with the world as it was, or
    is passed on as one operation of the orchestrator. *)
Lemma handle_cases (svc : Services) (r : Request) (w : World) :
  (exists why, handle svc r w = (Throw (newBadRequestException why), w)) \/
  (exists op,
     handle svc r w = VerificationService.perform svc op w /\
     forall u t b, op = VerificationService.StartVerification u t b ->
                   Spec.knownType t).
Proof.
  destruct r as [u t [f|] h | i [f|] h | i h]; cbn [handle];
    unfold verifyDocument, verifyFace, getVerificationStatus.
  - destruct (existsb (String.eqb t) documentTypeValues) eqn:T; cbn [negb];
      [|eauto].
    destruct (JS.truthy_ostr h); cbn [negb]; [|eauto].
    right. exists (VerificationService.StartVerification u t (buffer f)).
    split; [reflexivity|]. intros ? ? ? [= _ <- _]. now apply knownType_member.
  - eauto.
  - destruct (JS.truthy_ostr h); cbn [negb]; [|eauto].
    right. exists (VerificationService.VerifyFace i (buffer f)).
    split; [reflexivity | discriminate].
  - eauto.
  - destruct (JS.truthy_ostr h); cbn [negb]; [|eauto].
    right. exists (VerificationService.GetVerificationStatus i).
    split; [reflexivity | discriminate].
Qed.

Lemma known_save (x : Verification.t) (w : World) :
  Spec.knownType (Verification.documentType x) ->
  Notions.knownTypesThroughout w -> Notions.knownTypesThroughout (save x w).
Proof.
  intros K [S E]. split.
  - unfold Notions.knownTypesOnly. simpl. now apply map_Forall_insert_2.
  - simpl. apply Forall_app. split; [exact E|]. now constructor.
Qed.

Lemma known_event (ev : Event) (w : World) :
  Notions.knownTypeEvent ev ->
  Notions.knownTypesThroughout w ->
  Notions.knownTypesThroughout (record_event ev w).
Proof.
  intros K [S E]. split; [exact S|].
  simpl. apply Forall_app. split; [exact E|]. now constructor.
Qed.

Lemma perform_known (svc : Services) (op : VerificationService.Operation)
    (w : World) :
  (forall u t b, op = VerificationService.StartVerification u t b ->
                 Spec.knownType t) ->
  Notions.knownTypesThroughout w ->
  Notions.knownTypesThroughout (snd (VerificationService.perform svc op w)).
Proof.
  intros K Inv.
  assert (forall i found, store w !! i = Some found ->
            Spec.knownType (Verification.documentType found)) as KF
    by (intros i found F; exact (proj1 Inv i found F)).
  perform_paths svc op w;
    try (pose proof (K _ _ _ eq_refl) as Kt);
    try (pose proof (KF _ _ F) as Kf);
    repeat first
      [ exact Inv
      | apply known_save; [assumption|]
      | apply known_event; [simpl; first [exact Logic.I | assumption] |] ].
Qed.

Lemma handle_known (svc : Services) (r : Request) (w : World) :
  Notions.knownTypesThroughout w ->
  Notions.knownTypesThroughout (snd (handle svc r w)).
Proof.
  intros I. destruct (handle_cases svc r w) as [(why & ->) | (op & -> & K)].
  - exact I.
  - now apply perform_known.
Qed.

(** X21: through the controller no document type other than passport,
    driver's license and id card reaches the orchestrator: after any
    sequence of requests, with any step services, every record of the
    repository has one of the three types, and so has every record that was
    saved and every call of the document step. *)
Theorem controller_admits_known_types_only (rs : list (Services * Request))
    (w : World) :
  Notions.knownTypesThroughout w ->
  Notions.knownTypesThroughout (handleAll rs w).
Proof.
  revert w. induction rs as [|[svc r] rest IH]; intros w I; simpl.
  - exact I.
  - apply IH. now apply handle_known.
Qed.

(** X21, on a request with a type outside the enum followed by a passport
    request, with the analyzers of the tests. *)
Lemma controller_admits_known_types_only_witness :
  let svc := realServices
               (Fixtures.env (Some Fixtures.validPassport)
                  Fixtures.highLivenessFace [95.5%float]) in
  let file := Some (mkMulterFile "passport.jpg" "document") in
  Notions.knownTypesThroughout
    (handleAll
       [(svc, PostDocument "user123" "visa" file (Some "req-1"));
        (svc, PostDocument "user123" PASSPORT file (Some "req-1"));
        (svc, PostFace "0" (Some (mkMulterFile "selfie.jpg" "selfie"))
                (Some "req-2"))]
       emptyWorld).
Proof.
  cbv zeta.
  apply (controller_admits_known_types_only
           [(realServices
               (Fixtures.env (Some Fixtures.validPassport)
                  Fixtures.highLivenessFace [95.5%float]),
             PostDocument "user123" "visa"
               (Some (mkMulterFile "passport.jpg" "document")) (Some "req-1"));
            (realServices
               (Fixtures.env (Some Fixtures.validPassport)
                  Fixtures.highLivenessFace [95.5%float]),
             PostDocument "user123" PASSPORT
               (Some (mkMulterFile "passport.jpg" "document")) (Some "req-1"));
            (realServices
               (Fixtures.env (Some Fixtures.validPassport)
                  Fixtures.highLivenessFace [95.5%float]),
             PostFace "0" (Some (mkMulterFile "selfie.jpg" "selfie"))
               (Some "req-2"))]
           emptyWorld).
  split; [apply map_Forall_empty | constructor].
Defined.

(** X22: behind [RequestIdMiddleware], which fills in a generated id when
    the header is missing or empty, the answer of the controller and its
    effect on the world do not depend on the request id: they are those of
    the same request with any non-empty header. *)
Theorem request_id_does_not_matter_behind_middleware (svc : Services)
    (generated h : string) (r : Request) (w : World) :
  JS.truthy_str generated = true ->
  JS.truthy_str h = true ->
  handle svc (behindMiddleware generated r) w
  = handle svc (Notions.withHeader (Some h) r) w.
Proof.
  intros G H.
  assert (forall o, JS.truthy_ostr (Some (RequestIdMiddleware.use generated o))
                    = true) as U.
  { intros [x|]; simpl; [|exact G]. destruct (JS.truthy_str x) eqn:X; assumption. }
  destruct r as [u t f o | i f o | i o];
    cbn [handle behindMiddleware Notions.withHeader];
    unfold verifyDocument, verifyFace, getVerificationStatus;
    rewrite U; cbn [JS.truthy_ostr]; rewrite H; reflexivity.
Qed.

(** X22, on a status request that arrives without the header. *)
Lemma request_id_does_not_matter_behind_middleware_witness :
  let svc := Fixtures.mockServices Fixtures.mockInvalidDocument
               Fixtures.mockLive Fixtures.mockMatch in
  let w := Fixtures.worldWith Fixtures.inProgressRecord in
  handle svc
    (behindMiddleware "9b2f6c1e-0c1d-4a57-8f0e-2d1f3a4b5c6d"
       (GetStatus "verification123" None)) w
  = handle svc
      (Notions.withHeader (Some "req-1") (GetStatus "verification123" None)) w.
Proof.
  cbv zeta.
  apply (request_id_does_not_matter_behind_middleware
           (Fixtures.mockServices Fixtures.mockInvalidDocument
              Fixtures.mockLive Fixtures.mockMatch)
           "9b2f6c1e-0c1d-4a57-8f0e-2d1f3a4b5c6d" "req-1"
           (GetStatus "verification123" None)
           (Fixtures.worldWith Fixtures.inProgressRecord));
    reflexivity.
Defined.

End Controller.
